(** * Pyccel: typed AST internals, OpenMP directive parsing and the Python printer

    A shallow embedding of
      - [pyccel/ast/internals.py]       (module [Internals]),
      - [pyccel/ast/functionalexpr.py]  (the [FunctionalFor] family of [Ast.node]),
      - [pyccel/parser/syntax/openmp.py] (module [OpenMP]),
      - [pyccel/codegen/printing/pycode.py] (module [PyCode]),
    together with the properties of the design document that concern them.

    Python objects are embedded as inductive values, exceptions as the
    [Raise] outcome of a [result], and the mutable printer attributes
    ([_additional_imports], [_aliases], [_ignore_funcs]) as an explicit state
    threaded through a small state-and-exception monad. *)

From Stdlib Require Import ZArith String Ascii List Bool Lia.
From stdpp Require Import base option list strings gmap pretty.

#[local] Set Warnings "-register-all".
#[local] Open Scope string_scope.
#[local] Open Scope list_scope.

(** ** Python basics shared by all modules *)
Module Py.

(** The exceptions that the embedded code can raise.  [TextXError] is the
    error of the textX parser, [FatalError] the abort caused by
    [errors.report(..., severity='fatal')]. *)
Inductive exn : Type :=
| TypeError (msg : string)
| NotImplementedError (msg : string)
| IndexError
| KeyError (key : string)
| AttributeError (attr : string)
| AssertionError
| TextXError (message : string)
| FatalError (msg : string).

(** Outcome of running a piece of Python code.  [OutOfFuel] is not a Python
    outcome: it only says that the bound given to a fuel-indexed loop of the
    embedding was too small. *)
Inductive result (A : Type) : Type :=
| Ok (a : A)
| Raise (e : exn)
| OutOfFuel.
Arguments Ok {A} a.
Arguments Raise {A} e.
Arguments OutOfFuel {A}.

Definition rbind {A B} (r : result A) (k : A -> result B) : result B :=
  match r with
  | Ok a => k a
  | Raise e => Raise e
  | OutOfFuel => OutOfFuel
  end.

Definition is_Ok {A} (r : result A) : Prop := exists a, r = Ok a.

Definition is_Ok_b {A} (r : result A) : bool :=
  match r with Ok _ => true | _ => false end.

(** The element kinds of [pyccel.ast.datatypes]. *)
Inductive datatype : Type :=
| NativeBool
| NativeInteger
| NativeFloat
| NativeComplex
| NativeString.

#[export] Instance datatype_eq_dec : EqDecision datatype.
Proof. solve_decision. Defined.

#[export] Instance exn_eq_dec : EqDecision exn.
Proof. solve_decision. Defined.

(** Characters that cannot be written inside a string literal. *)
Definition nl : string := String "010" "".
Definition dquote : string := String "034" "".

End Py.
Export Py.

Declare Scope result_scope.
Delimit Scope result_scope with result.
Notation "'let*' x ':=' r 'in' k" := (rbind r (fun x => k))
  (at level 10, x pattern, r at level 100, k at level 200) : result_scope.

(** ** [pyccel/ast/internals.py] *)
Module Internals.
#[local] Open Scope result_scope.

(** The class attribute [PyccelAstNode.stage]. *)
Inductive stage : Type := syntactic | semantic.

(** An instance of an AST class, as far as [internals.py] inspects it:
    [str(type(x))], whether its class derives from [PyccelAstNode], and the
    value of its [dtype] attribute when it has one
    ([hasattr(x, 'dtype')]). *)
Record PyObject : Type := {
  class_str : string;
  isinstance_PyccelAstNode : bool;
  dtype : option datatype
}.

(** The Python values handed to the constructors of this file. *)
Inductive pyvalue : Type :=
| PyNone
| PyInt (v : Z)
| PyStr (s : string)
| PyList (l : list pyvalue)
| PyTuple (l : list pyvalue)
| LiteralInteger (v : Z)
| PyObj (o : PyObject).

(** [str(type(x))], as the [%s] of a message prints the class. *)
Definition type_str (x : pyvalue) : string :=
  match x with
  | PyNone => "<class 'NoneType'>"
  | PyInt _ => "<class 'int'>"
  | PyStr _ => "<class 'str'>"
  | PyList _ => "<class 'list'>"
  | PyTuple _ => "<class 'tuple'>"
  | LiteralInteger _ => "<class 'pyccel.ast.literals.LiteralInteger'>"
  | PyObj o => class_str o
  end.

(** [hasattr(x, 'dtype') and isinstance(x.dtype, NativeInteger)] *)
Definition has_integer_dtype (x : pyvalue) : bool :=
  match x with
  | LiteralInteger _ => true
  | PyObj o => match dtype o with Some NativeInteger => true | _ => false end
  | _ => false
  end.

(** [isinstance(x, PyccelAstNode)] *)
Definition is_PyccelAstNode (x : pyvalue) : bool :=
  match x with
  | LiteralInteger _ => true
  | PyObj o => isinstance_PyccelAstNode o
  | _ => false
  end.

(** [isinstance(arg, (list, tuple, PyccelAstNode))] *)
Definition is_sequence_or_node (x : pyvalue) : bool :=
  match x with
  | PyList _ | PyTuple _ => true
  | _ => is_PyccelAstNode x
  end.

Definition is_None (x : pyvalue) : bool :=
  match x with PyNone => true | _ => false end.

(** *** class PyccelInternalFunction *)

(** A class, as far as the lookup of the property [is_elemental] sees it:
    its name and, when the body of the class defines the property, what
    the property returns. *)
Record pyclass : Type := {
  class_name : string;
  own_is_elemental : option bool
}.

(** [class PyccelInternalFunction]: its [is_elemental] is [return False]. *)
Definition PyccelInternalFunction_class : pyclass :=
  {| class_name := "PyccelInternalFunction"; own_is_elemental := Some false |}.



(** *** class PyccelArraySize *)

Record PyccelArraySize : Type := {
  _arg : pyvalue;
  _index : pyvalue;
  _dtype : datatype;
  _rank : nat;
  _shape : list pyvalue;
  _precision : Z
}.

Section Constructors.
(** [default_precision] of [pyccel.ast.datatypes], a dictionary from kind
    names to byte widths. *)
Variable default_precision : gmap string Z.

(** The initialiser of the base class [Basic] ([pyccel.ast.basic]), run by
    [super().__init__()]: it goes through the attribute nodes of the new
    object in the order of [_attribute_nodes] and, for each, either raises
    or stores it back, possibly converted.  What it does to the value of
    one attribute is the parameter. *)
Variable Basic_init : pyvalue -> result pyvalue.

(** [PyccelArraySize.__init__(self, arg, index)] *)
Definition PyccelArraySize_init (arg index : pyvalue) : result PyccelArraySize :=
  if negb (is_sequence_or_node arg)
  then Raise (TypeError ("Unknown type of  " +:+ type_str arg +:+ "."))
  else
    let* index :=
      match index with
      | PyInt v => Ok (LiteralInteger v)
      | _ => if negb (is_PyccelAstNode index)
             then Raise (TypeError ("Unknown type of  " +:+ type_str index +:+ "."))
             else Ok index
      end in
    let* precision :=
      match default_precision !! "integer" with
      | Some p => Ok p
      | None => Raise (KeyError "integer")
      end in
    let* arg := Basic_init arg in
    let* index := Basic_init index in
    Ok {| _arg := arg; _index := index; _dtype := NativeInteger;
          _rank := 0; _shape := []; _precision := precision |}.

(** *** class Slice *)

Record Slice : Type := {
  _start : pyvalue;
  _stop : pyvalue;
  _step : pyvalue
}.

(** One of the three checks of [Slice.__init__]. *)
Definition check_bound (bound : pyvalue) (msg : string) : result unit :=
  if negb (is_None bound) && negb (has_integer_dtype bound)
  then Raise (TypeError msg)
  else Ok tt.

(** [Slice.__init__(self, start, stop, step = None)] under the value
    [st] of [PyccelAstNode.stage].  The checks read the arguments, not the
    slots that the base initialiser has stored. *)
Definition Slice_init (st : stage) (start stop step : pyvalue) : result Slice :=
  let* start' := Basic_init start in
  let* stop' := Basic_init stop in
  let* step' := Basic_init step in
  let self := {| _start := start'; _stop := stop'; _step := step' |} in
  match st with
  | syntactic => Ok self
  | semantic =>
      let* _ := check_bound start "Slice start must be Integer or None" in
      let* _ := check_bound stop "Slice stop must be Integer or None" in
      let* _ := check_bound step "Slice step must be Integer or None" in
      Ok self
  end.

Definition Slice_str (s : Slice) (str : pyvalue -> string) : string :=
  let start := if is_None (_start s) then "" else str (_start s) in
  let stop := if is_None (_stop s) then "" else str (_stop s) in
  start +:+ " : " +:+ stop.
End Constructors.

(** A bound that is present and is not a typed value of integer kind. *)
Definition bad_bound (b : pyvalue) : Prop :=
  is_None b = false /\ has_integer_dtype b = false.

(** Values used in the examples: an integer and a float variable of the
    semantic stage, and a table of default precisions. *)
Definition int_var : pyvalue :=
  PyObj {| class_str := "<class 'pyccel.ast.variable.Variable'>";
           isinstance_PyccelAstNode := true; dtype := Some NativeInteger |}.
Definition float_var : pyvalue :=
  PyObj {| class_str := "<class 'pyccel.ast.variable.Variable'>";
           isinstance_PyccelAstNode := true; dtype := Some NativeFloat |}.

Definition precision_table : gmap string Z :=
  {[ "integer" := 4%Z; "float" := 8%Z ]}.

(** A base initialiser for the examples: it keeps [None] and the nodes,
    turns a Python integer into a literal, and stores a list or a tuple as
    a tuple, the integers in it as literals. *)
Definition to_literal (c : pyvalue) : pyvalue :=
  match c with
  | PyInt v => LiteralInteger v
  | _ => c
  end.

Definition Basic_init_example (c : pyvalue) : result pyvalue :=
  match c with
  | PyList l | PyTuple l =>
      if existsb (fun ci => match ci with
                            | PyList _ | PyTuple _ => true
                            | _ => false
                            end) l
      then Raise (TypeError "Basic child cannot be a tuple of tuples")
      else Ok (PyTuple (map to_literal l))
  | _ => Ok (to_literal c)
  end.

End Internals.

(** ** The AST fragment handled by the Python printer *)
Module Ast.

(** [FunctionalFor] and the classes of [functionalexpr.py] deriving from it
    ([FunctionalSum], [FunctionalMax], [FunctionalMin], [FunctionalMap]);
    every one of them is an instance of [FunctionalFor]. *)
Inductive FunctionalKind : Type :=
| FunctionalFor_class
| FunctionalSum
| FunctionalMax
| FunctionalMin
| FunctionalMap.

(** One function of a decorator entry: a [FunctionCall] (only its arguments
    are read), a plain string, or another iterable of strings. *)
Inductive decorator_func (N : Type) : Type :=
| DecCall (args : list N)
| DecStr (s : string)
| DecStrings (l : list string).

(** The value stored under one key of [FunctionDef.decorators]: [None], a
    single function, a list of them, or (as under ['template']) a
    dictionary, given by its keys and its ['decorator_list'] entry if it has
    one. *)
Inductive decorator_value (N : Type) : Type :=
| DecNone
| DecSingle (f : decorator_func N)
| DecList (l : list (decorator_func N))
| DecDict (keys : list string) (decorator_list : option (list (decorator_func N))).

Arguments DecCall {N} args.
Arguments DecStr {N} s.
Arguments DecStrings {N} l.
Arguments DecNone {N}.
Arguments DecSingle {N} f.
Arguments DecList {N} l.
Arguments DecDict {N} keys decorator_list.

(** AST nodes.  A constructor is named after its class and carries the
    attributes that the printer reads.  Where a printing rule serves a
    whole family of classes and consults [type(expr)] or the class
    attribute [name], the node carries [cls] (the class) and [name].
    Names are strings; a [str] or [PyccelSymbol] that is itself handed to
    the printer is [PyccelSymbol]. *)
Inductive node : Type :=
| PyccelSymbol (name : string)
| ClassRef (cls : string) (name : string)
| Variable_ (dtype : datatype) (precision : Z) (rank : nat)
            (order : option string) (name : string)
| DottedName (name : list node)
| NativeType (dtype : datatype)
| LiteralInteger (python_value : Z) (precision : Z)
| LiteralFloat (python_value_repr : string) (precision : Z)
| LiteralComplex (python_value_repr : string) (precision : Z)
| LiteralTrue (precision : Z)
| LiteralFalse (precision : Z)
| LiteralString (python_value : string)
| PyccelMul (args : list node)
| PyccelAdd (args : list node)
| PythonTuple (args : list node)
| PythonRange (name : string) (start stop step : node)
| PythonInt (cls name : string) (precision : Z) (arg : node)
| PythonFloat (cls name : string) (precision : Z) (arg : node)
| NumpyComplex (cls name : string) (precision : Z)
               (value : node + node * node)
| NumpyLinspace (cls name : string) (dtype : datatype) (precision : Z)
                (start stop num endpoint : node)
| NumpyAutoFill (cls name : string) (dtype : datatype) (precision : Z)
                (shape : node) (order : option string)
| NumpyFull (cls name : string) (dtype : datatype) (precision : Z)
            (shape fill_value : node) (order : option string)
| PyccelInternalFunction (cls name : string) (args : list node)
| Pass
| CommentBlock (comments : list node)
| Assign (lhs rhs : node)
| CodeBlock (body : list node)
| For (target : list node) (iterable body : node)
| FunctionalFor (kind : FunctionalKind) (loops : list node) (expr lhs : node)
                (indices : list node) (index : node)
| AsName (object : node) (target : string)
| Import (source : node) (target : list node) (source_module : option node)
| IfSection (condition body : node)
| FunctionDefArgument (name : string) (annotation : option string)
                      (value : option node)
| FunctionAddress (name : string)
| Interface (name : string) (functions : list node) (is_argument : bool)
| FunctionDef (name : string) (arguments imports interfaces functions : list node)
              (body : node) (doc_string : option node)
              (decorators : list (string * decorator_value node))
              (headers : option node)
| ClassDef (name : string) (superclasses methods interfaces : list node)
| Program (name : string) (imports : list node) (body : node)
| Module (name : string) (imports interfaces funcs classes : list node)
         (init_func free_func program : option node)
| OmpAnnotatedComment (name : string) (combined : option string) (txt : string)
| Omp_End_Clause (txt : string).

#[export] Instance FunctionalKind_eq_dec : EqDecision FunctionalKind.
Proof. solve_decision. Defined.

#[export] Instance decorator_func_eq_dec {N} `{EqDecision N} :
  EqDecision (decorator_func N).
Proof. solve_decision. Defined.

#[export] Instance decorator_value_eq_dec {N} `{EqDecision N} :
  EqDecision (decorator_value N).
Proof. solve_decision. Defined.

(** Equality of nodes is decidable.  Python's identity and membership
    tests on nodes ([is], [in]) are embedded as equality of the terms. *)
Fixpoint node_eq_dec (a b : node) {struct a} : {a = b} + {a <> b}.
Proof.
  pose (Hnode := node_eq_dec : EqDecision node).
  decide equality; exact (decide (_ = _)).
Defined.

#[export] Instance node_eq_decision : EqDecision node := node_eq_dec.

End Ast.
Export Ast.

(** ** [pyccel/codegen/printing/pycode.py] *)
Module PyCode.

(** *** String operations of Python used by the printer *)

(** [sep.join(l)] *)
Definition join (sep : string) (l : list string) : string := String.concat sep l.

Definition is_nl (c : ascii) : bool := Ascii.eqb c "010".

Fixpoint lstrip_nl (s : string) : string :=
  match s with
  | String c s' => if is_nl c then lstrip_nl s' else s
  | EmptyString => EmptyString
  end.

Fixpoint rstrip_nl (s : string) : string :=
  match s with
  | EmptyString => EmptyString
  | String c s' =>
      match rstrip_nl s' with
      | EmptyString => if is_nl c then EmptyString else String c EmptyString
      | r => String c r
      end
  end.

(** [s.strip('\n')] *)
Definition strip_nl (s : string) : string := rstrip_nl (lstrip_nl s).

(** [s.replace('\n', new)] *)
Fixpoint replace_nl (new : string) (s : string) : string :=
  match s with
  | EmptyString => EmptyString
  | String c s' =>
      if is_nl c then new +:+ replace_nl new s' else String c (replace_nl new s')
  end.

(** [s.lower()] on ASCII letters *)
Definition lower_ascii (c : ascii) : ascii :=
  let n := nat_of_ascii c in
  if (65 <=? n)%nat && (n <=? 90)%nat then ascii_of_nat (n + 32) else c.

Fixpoint lower (s : string) : string :=
  match s with
  | EmptyString => EmptyString
  | String c s' => String (lower_ascii c) (lower s')
  end.

(** [str(n)] for an integer *)
Definition str_Z (n : Z) : string := pretty n.

(** The one-character strings of a string, as iterating over it yields. *)
Fixpoint chars (s : string) : list string :=
  match s with
  | EmptyString => []
  | String c s' => String c EmptyString :: chars s'
  end.

(** *** The printer object *)

(** The attributes set by [PythonCodePrinter.__init__].  [_additional_imports]
    is a dictionary in insertion order, from the source of an import to a
    pair of the set of targets already registered and the list of [Import]
    nodes created; [_aliases] maps a class to the name it was imported as. *)
Record PrinterState : Type := {
  _additional_imports : list (string * (list node * list node));
  _aliases : gmap string string;
  _ignore_funcs : list node
}.

(** [PythonCodePrinter(filename)] *)
Definition PythonCodePrinter_init : PrinterState :=
  {| _additional_imports := []; _aliases := ∅; _ignore_funcs := [] |}.

(** Code that reads and updates the printer and may raise. *)
Definition M (A : Type) : Type := PrinterState -> result (A * PrinterState).

Definition ret {A} (a : A) : M A := fun st => Ok (a, st).

Definition bind {A B} (m : M A) (k : A -> M B) : M B :=
  fun st =>
    match m st with
    | Ok (a, st') => k a st'
    | Raise e => Raise e
    | OutOfFuel => OutOfFuel
    end.

Definition raise {A} (e : exn) : M A := fun _ => Raise e.

Definition lift {A} (r : result A) : M A :=
  fun st =>
    match r with
    | Ok a => Ok (a, st)
    | Raise e => Raise e
    | OutOfFuel => OutOfFuel
    end.

Definition get : M PrinterState := fun st => Ok (st, st).
Definition put (st : PrinterState) : M unit := fun _ => Ok (tt, st).

Declare Scope printer_scope.
Delimit Scope printer_scope with printer.
Notation "'let*' x ':=' m 'in' k" := (bind m (fun x => k))
  (at level 10, x pattern, m at level 100, k at level 200) : printer_scope.
#[local] Open Scope printer_scope.

(** [[f(x) for x in l]], evaluated from left to right. *)
Fixpoint mapM {A B} (f : A -> M B) (l : list A) : M (list B) :=
  match l with
  | [] => ret []
  | x :: l' => let* y := f x in let* ys := mapM f l' in ret (y :: ys)
  end.

(** *** Module-level tables of [pycode.py] *)

Definition dict_get (d : list (string * string)) (k : string) (default : string) : string :=
  match List.find (fun kv => String.eqb (fst kv) k) d with
  | Some kv => snd kv
  | None => default
  end.

Definition import_target_swap : list (string * list (string * string)) :=
  [ ("numpy", [ ("double", "float64"); ("prod", "product");
                ("empty_like", "empty"); ("zeros_like", "zeros");
                ("ones_like", "ones"); ("max", "amax"); ("min", "amin");
                ("T", "transpose"); ("full_like", "full");
                ("absolute", "abs") ]);
    ("numpy.random", [ ("random", "rand") ]) ].

Definition import_source_swap : list (string * string) :=
  [ ("omp_lib", "pyccel.stdlib.internal.openmp") ].

(** What the printer uses from modules of the repository other than
    [pycode.py]. *)
Record Env : Type := {
  (** [pyccel.decorators.__all__] *)
  pyccel_decorators : list string;
  (** [decorators_mod[n]] of [pyccel.ast.utilities] *)
  decorators_mod : string -> option node;
  (** [numpy_target_swap.get(obj)] of [pyccel.ast.numpyext] *)
  numpy_target_swap : node -> option node;
  (** [builtin_import_registry[source][name].cls_name] of
      [pyccel.ast.utilities], as the source's sub-dictionary if any *)
  pyccel_builtin_import_registry : string -> option (string -> option string);
  (** [default_precision[key]] of [pyccel.ast.datatypes] *)
  default_precision : string -> option Z;
  (** [str(dtype)] and [dtype.name] of a datatype *)
  dtype_str : datatype -> string;
  dtype_name : datatype -> string;
  (** [DtypePrecisionToCastFunction[name][precision]] of
      [pyccel.ast.numpyext]: a class, as a [ClassRef] *)
  DtypePrecisionToCastFunction : string -> option (Z -> option node);
  (** [b.substitute(old, new)] of [pyccel.ast.basic], as the node [b]
      becomes *)
  substitute : node -> node -> node -> node;
  (** [f.get_attribute_nodes(IfSection)] of [pyccel.ast.basic] *)
  get_attribute_nodes_IfSection : node -> list node;
  (** [program.remove_import(name)] of [pyccel.ast.core], as the program
      becomes *)
  remove_import : node -> string -> node;
  (** [str(source)] for a source that is not a plain string *)
  py_str : node -> string;
  (** [alias != target] for a target that is not a plain string *)
  py_ne_str : string -> node -> bool;
  (** the property [AsName.name] of [pyccel.ast.core], from the imported
      object *)
  object_name : node -> result string;
  (** the attribute [order] of a node other than a variable *)
  order_of : node -> result (option string);
  (** [repr(s)] for a string *)
  repr_str : string -> string;
  (** [x is y]: whether the two are one object.  Equal terms may stand
      for one object or for an object and a copy of it; the terms do not
      say which, so the answer of the test is taken from here *)
  same_object : node -> node -> bool;
  (** [str(type(x))], as an f-string prints the class of a node *)
  class_repr : node -> string;
  (** [type(expr).__mro__] for the class of an internal function, by the
      name of the class: the classes are declared in modules of
      [pyccel.ast] *)
  class_mro : string -> list Internals.pyclass
}.

(** *** Dictionaries in insertion order *)

Definition dict_lookup {V} (k : string) (d : list (string * V)) : option V :=
  match List.find (fun kv => String.eqb (fst kv) k) d with
  | Some kv => Some (snd kv)
  | None => None
  end.

(** [d.setdefault(k, v)], as the dictionary becomes *)
Definition dict_setdefault {V} (k : string) (v : V) (d : list (string * V)) :
    list (string * V) :=
  match dict_lookup k d with
  | Some _ => d
  | None => d ++ [(k, v)]
  end.

(** In-place update of the value stored under [k]. *)
Fixpoint dict_alter {V} (f : V -> V) (k : string) (d : list (string * V)) :
    list (string * V) :=
  match d with
  | [] => []
  | (k', v) :: d' =>
      if String.eqb k' k then (k', f v) :: d' else (k', v) :: dict_alter f k d'
  end.

(** Modelled from the spec: [AsName.__eq__] and [AsName.__hash__] of
    [pyccel/ast/core.py], which is not among the sources; they decide
    [a == b] for the members of a set of import targets.  An imported
    symbol is known by the name under which it is imported (section 4.6,
    the printer "threads the alias it chose through all later references
    to that symbol"): both methods look at the [target] only, so two
    [AsName] are equal when their targets are, and an [AsName] is equal to
    the string that is its target.  An object of another class is equal
    to itself. *)
Definition target_eq (a b : node) : bool :=
  match a, b with
  | AsName _ ta, AsName _ tb => String.eqb ta tb
  | AsName _ ta, PyccelSymbol s => String.eqb s ta
  | PyccelSymbol s, AsName _ tb => String.eqb s tb
  | _, _ => bool_decide (a = b)
  end.

(** [x in s] for a set kept as the list of its members *)
Definition set_mem (x : node) (s : list node) : bool :=
  existsb (target_eq x) s.

(** [s.update(l)] *)
Definition set_update (s : list node) (l : list node) : list node :=
  foldl (fun acc x => if set_mem x acc then acc else acc ++ [x]) s l.

(** Python's truth value of an optional string ([None] and [''] are false). *)
Definition truthy_str (s : option string) : bool :=
  match s with
  | Some EmptyString | None => false
  | Some _ => true
  end.

(** The attribute [target] of an [Import]. *)
Definition Import_target (i : node) : list node :=
  match i with
  | Import _ target _ => target
  | _ => []
  end.

Section Printer.
Variable env : Env.

(** [str(source)] *)
Definition str_source (source : node) : string :=
  match source with
  | PyccelSymbol s => s
  | _ => py_str env source
  end.

(** [alias != target] *)
Definition alias_ne (alias : string) (target : node) : bool :=
  match target with
  | PyccelSymbol s => negb (String.eqb alias s)
  | _ => py_ne_str env alias target
  end.

(** [PythonCodePrinter.get_additional_imports] *)
Definition get_additional_imports (st : PrinterState) : list node :=
  concat (map (fun tup => snd (snd tup)) (_additional_imports st)).

(** The first two lines of [insert_new_import]: the target under its
    alias. *)
Definition aliased_target (target : node) (alias : option string) : node :=
  match alias with
  | Some a => if truthy_str alias && alias_ne a target
              then AsName target a else target
  | None => target
  end.

(** [PythonCodePrinter.insert_new_import(source, target, alias)], for a
    single [target]: [Import(source, target)] holds it as its only
    target. *)
Definition insert_new_import (source target : node) (alias : option string) :
    M unit :=
  fun st =>
    let target := aliased_target target alias in
    let import_obj := Import source [target] None in
    let source := str_source source in
    let imports := dict_setdefault source ([], []) (_additional_imports st) in
    let src_info := default ([], []) (dict_lookup source imports) in
    let imports :=
      if existsb (fun i => negb (set_mem i (fst src_info)))
                 (Import_target import_obj)
      then dict_alter
             (fun info => (set_update (fst info) (Import_target import_obj),
                           snd info ++ [import_obj]))
             source imports
      else imports in
    Ok (tt, {| _additional_imports := imports;
               _aliases := _aliases st;
               _ignore_funcs := _ignore_funcs st |}).

(** *** Comprehension lowering *)

(** [isinstance(b, Assign) and b.lhs is dummy_var] *)
Definition is_assign_to (dummy_var : node) (b : node) : bool :=
  match b with
  | Assign lhs _ => same_object env lhs dummy_var
  | _ => false
  end.

Definition unnecessary_statements : string :=
  "Pyccel has introduced unnecessary statements which it cannot yet disambiguate in the python printer".

(** [f"Type {type(body)} not handled in a FunctionalFor"] *)
Definition not_handled (body : node) : string :=
  "Type " +:+ class_repr env body +:+ " not handled in a FunctionalFor".

(** The inner loop
      [while isinstance(body[0], FunctionalFor):
           func_for = body.pop(0)
           for b in body: b.substitute(func_for.lhs, func_for)]
    on the list [body]; [n] bounds the number of iterations, and
    [length body] is always enough.  [body[0]] raises on an empty list. *)
Fixpoint pop_functional_fors (n : nat) (body : list node) : result (list node) :=
  match body with
  | [] => Raise IndexError
  | FunctionalFor _ _ _ lhs _ _ as func_for :: rest =>
      match n with
      | O => OutOfFuel
      | S n' =>
          pop_functional_fors n'
            (map (fun b => substitute env b lhs func_for) rest)
      end
  | _ :: _ => Ok body
  end.

(** The loop [while not isinstance(body, Assign)] of
    [_find_functional_expr_and_iterables], started on [body] with the
    iterables collected so far; [fuel] bounds the number of iterations
    (those of the recursive calls included). *)
Fixpoint find_loop (fuel : nat) (dummy_var : node) (body : node)
    (iterables : list node) : result (node * list node) :=
  match body with
  | Assign _ _ => Ok (body, iterables)
  | _ =>
    match fuel with
    | O => OutOfFuel
    | S fuel' =>
      match body with
      | CodeBlock stmts =>
          (let* body := pop_functional_fors (length stmts) stmts in
           if (1 <? length body)%nat
              && existsb (fun b => negb (is_assign_to dummy_var b)) (tail body)
           then Raise (NotImplementedError unnecessary_statements)
           else
             match body with
             | b0 :: _ => find_loop fuel' dummy_var b0 iterables
             | [] => Raise IndexError
             end)%result
      | For _ iterable body' =>
          find_loop fuel' dummy_var body' (iterables ++ [iterable])
      | FunctionalFor _ loops _ _ _ index =>
          match loops !! 1%nat with
          | None => Raise IndexError
          | Some loop =>
              (let* (body', it) := find_loop fuel' index loop [] in
               Ok (body', iterables ++ it))%result
          end
      | _ => Raise (NotImplementedError (not_handled body))
      end
    end
  end.

(** [PythonCodePrinter._find_functional_expr_and_iterables(expr)] *)
Definition _find_functional_expr_and_iterables (fuel : nat) (expr : node) :
    result (node * list node) :=
  match expr with
  | FunctionalFor _ loops _ _ _ index =>
      match loops !! 1%nat with
      | None => Raise IndexError
      | Some body => find_loop fuel index body []
      end
  | _ => Raise (AttributeError "index")
  end.

(** *** Attribute access *)

(** [type(expr)] for the classes whose instances carry no [cls]. *)
Definition FunctionalKind_class (k : FunctionalKind) : string :=
  match k with
  | FunctionalFor_class => "FunctionalFor"
  | FunctionalSum => "FunctionalSum"
  | FunctionalMax => "FunctionalMax"
  | FunctionalMin => "FunctionalMin"
  | FunctionalMap => "FunctionalMap"
  end.

(** [a.object] and [a.target] of an [AsName]. *)
Definition AsName_parts (a : node) : result (node * string) :=
  match a with
  | AsName object target => Ok (object, target)
  | _ => Raise (AttributeError "object")
  end.

(** [a.name] of an [AsName]. *)
Definition AsName_name (a : node) : result string :=
  match a with
  | AsName object _ => object_name env object
  | _ => Raise (AttributeError "name")
  end.

(** [f.name] of a function. *)
Definition function_name (f : node) : result string :=
  match f with
  | FunctionDef name _ _ _ _ _ _ _ _ => Ok name
  | FunctionAddress name => Ok name
  | _ => Raise (AttributeError "name")
  end.


(** [i.functions] of an [Interface]. *)
Definition Interface_functions (i : node) : result (list node) :=
  match i with
  | Interface _ functions _ => Ok functions
  | _ => Raise (AttributeError "functions")
  end.

(** [i.is_argument] of an [Interface]. *)
Definition Interface_is_argument (i : node) : result bool :=
  match i with
  | Interface _ _ is_argument => Ok is_argument
  | _ => Raise (AttributeError "is_argument")
  end.

(** [mod.init_func] and [mod.free_func] of a [Module]. *)
Definition Module_init_free (m : node) : result (option node * option node) :=
  match m with
  | Module _ _ _ _ _ init_func free_func _ => Ok (init_func, free_func)
  | _ => Raise (AttributeError "init_func")
  end.

(** [b.rhs] of an [Assign]. *)
Definition Assign_rhs (b : node) : result node :=
  match b with
  | Assign _ rhs => Ok rhs
  | _ => Raise (AttributeError "rhs")
  end.

(** [x.order] *)
Definition node_order (x : node) : result (option string) :=
  match x with
  | Variable_ _ _ _ order _ => Ok order
  | NumpyAutoFill _ _ _ _ _ order => Ok order
  | NumpyFull _ _ _ _ _ _ order => Ok order
  | _ => order_of env x
  end.

(** [any(f in i.functions for i in interfaces)] *)
Fixpoint in_some_interface (f : node) (interfaces : list node) : result bool :=
  match interfaces with
  | [] => Ok false
  | i :: interfaces' =>
      (let* functions := Interface_functions i in
       if bool_decide (f ∈ functions) then Ok true
       else in_some_interface f interfaces')%result
  end.

(** [[x for x in l if p(x)]] for a test that may raise. *)
Fixpoint filterR {A} (p : A -> result bool) (l : list A) : result (list A) :=
  match l with
  | [] => Ok []
  | x :: l' =>
      (let* keep := p x in
       let* rest := filterR p l' in
       Ok (if keep then x :: rest else rest))%result
  end.

(** [[f(x) for x in l]] for a function that may raise. *)
Fixpoint mapM_result {A B} (f : A -> result B) (l : list A) : result (list B) :=
  match l with
  | [] => Ok []
  | x :: l' =>
      (let* y := f x in
       let* ys := mapM_result f l' in
       Ok (y :: ys))%result
  end.

Definition option_is (o : option node) (f : node) : bool :=
  match o with
  | Some x => bool_decide (f = x)
  | None => false
  end.

Definition tab : string := "    ".

(** [PythonCodePrinter._indent_codestring] *)
Definition _indent_codestring (lines : string) : string :=
  if String.eqb lines "" then lines
  else tab +:+ replace_nl (nl +:+ tab) (strip_nl lines) +:+ nl.

(** [PythonCodePrinter._format_code] *)
Definition _format_code (lines : string) : string := lines.

(** [self._aliases.get(cls, default)] *)
Definition aliases_get (cls : string) (dflt : string) : M string :=
  fun st => Ok (default dflt (_aliases st !! cls), st).

(** [order='...'] if the order is set, else [''] *)
Definition order_arg (order : option string) : string :=
  if truthy_str order then "order='" +:+ default "" order +:+ "'" else "".

(** [', '.join(a for a in args if a)] *)
Definition join_nonempty (args : list string) : string :=
  join ", " (List.filter (fun a => negb (String.eqb a "")) args).

(** *** The printing rules

    [self._print] is the dispatcher of [CodePrinter]; every rule is
    written over it.  Where the class defines a rule twice
    ([_print_PythonRange]), the later definition is the one in force and
    the one given here.  [set_scope] and [exit_scope] of [CodePrinter] keep
    the current scope, from which no rule below takes any text; they are
    left out. *)
Section Rules.
Variable _print : node -> M string.

Definition print_each (l : list node) : M (list string) := mapM _print l.

(** [self._print(name)] for a name *)
Definition print_name (name : string) : M string := _print (PyccelSymbol name).

Definition _print_Header (expr : node) : M string := ret "".

Definition _print_tuple (expr : list node) : M string :=
  let* fs := print_each expr in
  ret ("(" +:+ join ", " fs +:+ ")").

Definition _print_NativeBool : M string := ret "bool".
Definition _print_NativeInteger : M string := ret "int".
Definition _print_NativeFloat : M string := ret "float".
Definition _print_NativeComplex : M string := ret "complex".

Definition _print_PyccelSymbol (expr : string) : M string := ret expr.

Definition _print_Variable (name : string) : M string := print_name name.

Definition _print_DottedName (name : list node) : M string :=
  let* l := print_each name in
  ret (join "." l).

Definition _print_PythonTuple (args : list node) : M string :=
  let* l := print_each args in
  let s := join ", " l in
  let s := if (length args =? 1)%nat then s +:+ "," else s in
  ret ("(" +:+ s +:+ ")").

Definition _print_PythonRange (name : string) (start stop step : node) : M string :=
  let* name := aliases_get "PythonRange" name in
  let* start := _print start in
  let* stop := _print stop in
  let* step := _print step in
  ret (name +:+ "(" +:+ start +:+ ", " +:+ stop +:+ ", " +:+ step +:+ ")").

Definition _print_PyccelMul (args : list node) : M string :=
  let* l := print_each args in ret (join " * " l).

Definition _print_PyccelAdd (args : list node) : M string :=
  let* l := print_each args in ret (join " + " l).

(** The common body of [_print_PythonInt] and [_print_PythonFloat],
    which differ in the native name only. *)
Definition print_cast (native : string) (cls cname : string) (precision : Z)
    (arg : node) : M string :=
  let name := native in
  let* name :=
    if negb (precision =? -1)%Z then
      let type_name := name +:+ str_Z (precision * 8) in
      let* name := aliases_get cls type_name in
      let* _ :=
        if String.eqb name type_name
        then insert_new_import (PyccelSymbol "numpy")
               (AsName (ClassRef cls cname) name) None
        else ret tt in
      ret name
    else ret name in
  let* a := _print arg in
  ret (name +:+ "(" +:+ a +:+ ")").

Definition _print_PythonInt := print_cast "int".
Definition _print_PythonFloat := print_cast "float".

Definition _print_NumpyComplex (cls cname : string) (precision : Z)
    (value : node + node * node) : M string :=
  let* name :=
    if negb (precision =? -1)%Z then
      let* name := aliases_get cls cname in
      let* _ :=
        if String.eqb name cname
        then insert_new_import (PyccelSymbol "numpy")
               (AsName (ClassRef cls cname) cname) None
        else ret tt in
      ret name
    else ret "complex" in
  match value with
  | inl internal_var =>
      let* v := _print internal_var in
      ret (name +:+ "(" +:+ v +:+ ")")
  | inr (real, imag) =>
      let* r := _print real in
      let* i := _print imag in
      ret (name +:+ "(" +:+ r +:+ "+" +:+ i +:+ "*1j)")
  end.

(** [16 if dtype == 'complex' else 8] *)
Definition factor (dtype : string) : Z :=
  if String.eqb dtype "complex" then 16 else 8.

Definition _print_NumpyLinspace (cls cname : string) (dtype : datatype)
    (precision : Z) (start stop num endpoint : node) : M string :=
  let* name := aliases_get cls cname in
  let* dtype := _print (NativeType dtype) in
  let dtype := dtype +:+ str_Z (precision * factor dtype) in
  let* start := _print start in
  let* stop := _print stop in
  let* num := _print num in
  let* endpoint := _print endpoint in
  ret (name +:+ "(" +:+ start +:+ ", " +:+ stop +:+ ", num=" +:+ num
       +:+ ", endpoint=" +:+ endpoint +:+ ", dtype='" +:+ dtype +:+ "')").

(** [dtype = self._print(expr.dtype)] followed by
    [if expr.precision != default_precision[str(expr.dtype)]: ...] *)
Definition print_dtype_unless_default (dtype : datatype) (precision : Z) :
    M string :=
  let key := dtype_str env dtype in
  let* dtype := _print (NativeType dtype) in
  match default_precision env key with
  | None => raise (KeyError key)
  | Some dflt =>
      if negb (precision =? dflt)%Z
      then ret (dtype +:+ str_Z (precision * factor dtype))
      else ret dtype
  end.

Definition _print_NumpyAutoFill (cls cname : string) (dtype : datatype)
    (precision : Z) (shape : node) (order : option string) : M string :=
  let* func_name := aliases_get cls cname in
  let* dtype := print_dtype_unless_default dtype precision in
  let* shape := _print shape in
  let dtype := "dtype=" +:+ dtype in
  let order := order_arg order in
  ret (func_name +:+ "(" +:+ join_nonempty [shape; dtype; order] +:+ ")").

Definition _print_NumpyFull (cls cname : string) (dtype : datatype)
    (precision : Z) (shape fill_value : node) (order : option string) :
    M string :=
  let* name := aliases_get cls cname in
  let* dtype := print_dtype_unless_default dtype precision in
  let* shape := _print shape in
  let* fill_value := _print fill_value in
  let dtype := "dtype=" +:+ dtype in
  let order := order_arg order in
  ret (name +:+ "(" +:+ join_nonempty [shape; fill_value; dtype; order] +:+ ")").

Definition _print_PyccelInternalFunction (cls cname : string)
    (args : list node) : M string :=
  let* name := aliases_get cls cname in
  let* l := print_each args in
  ret (name +:+ "(" +:+ join ", " l +:+ ")").

(** [repr(expr.python_value)], [expr.precision] and [expr.dtype] of a
    literal; [None] for a node that is not a literal. *)
Definition Literal_parts (expr : node) : option (string * Z * datatype) :=
  match expr with
  | LiteralInteger v p => Some (str_Z v, p, NativeInteger)
  | LiteralFloat r p => Some (r, p, NativeFloat)
  | LiteralComplex r p => Some (r, p, NativeComplex)
  | LiteralTrue p => Some ("True", p, NativeBool)
  | LiteralFalse p => Some ("False", p, NativeBool)
  | LiteralString v => Some (repr_str env v, 0%Z, NativeString)
  | _ => None
  end.

(** [isinstance(expr, (LiteralInteger, LiteralFloat, LiteralComplex))] *)
Definition is_numeric_literal (expr : node) : bool :=
  match expr with
  | LiteralInteger _ _ | LiteralFloat _ _ | LiteralComplex _ _ => true
  | _ => false
  end.

Definition _print_Literal (expr : node) : M string :=
  match Literal_parts expr with
  | None => raise (AttributeError "dtype")
  | Some (value, precision, dtype) =>
      if negb (is_numeric_literal expr) || (precision =? -1)%Z
      then ret value
      else
        let key := dtype_name env dtype in
        match DtypePrecisionToCastFunction env key with
        | None => raise (KeyError key)
        | Some table =>
            match table precision with
            | Some (ClassRef cls cast_name as cast_func) =>
                let type_name := lower cls in
                let is_numpy := String.prefix "numpy" type_name in
                let* name := aliases_get cls cast_name in
                let* _ :=
                  if is_numpy && String.eqb name cast_name
                  then insert_new_import (PyccelSymbol "numpy")
                         (AsName cast_func cast_name) None
                  else ret tt in
                ret (name +:+ "(" +:+ value +:+ ")")
            | Some _ => raise (AttributeError "__name__")
            | None => raise (KeyError (str_Z precision))
            end
        end
  end.

Definition _print_Pass : M string := ret ("pass" +:+ nl).

Definition _print_CommentBlock (comments : list node) : M string :=
  let* l := print_each comments in
  let txt := join nl l in
  let quotes := dquote +:+ dquote +:+ dquote in
  ret (quotes +:+ txt +:+ quotes +:+ nl).

Definition _print_Assign (lhs rhs : node) : M string :=
  let* lhs_code := _print lhs in
  let* rhs_code := _print rhs in
  let* transposed :=
    match rhs with
    | Variable_ _ _ rank order _ =>
        if (1 <? rank)%nat then
          let* lhs_order := lift (node_order lhs) in
          ret (negb (bool_decide (order = lhs_order)))
        else ret false
    | _ => ret false
    end in
  if transposed : bool
  then ret (lhs_code +:+ " = " +:+ rhs_code +:+ ".T" +:+ nl)
  else ret (lhs_code +:+ " = " +:+ rhs_code +:+ nl).

Definition _print_CodeBlock (body : list node) : M string :=
  if (length body =? 0)%nat then ret ("pass" +:+ nl)
  else let* l := print_each body in ret (join "" l).

Definition _print_For (target : list node) (iterable body : node) : M string :=
  let* iterable := _print iterable in
  let* target := print_each target in
  let target := join "," target in
  let* body := _print body in
  let body := _indent_codestring body in
  ret ("for " +:+ target +:+ " in " +:+ iterable +:+ ":" +:+ nl +:+ body).

(** [f'for {self._print(idx)} in {self._print(iters)}'] *)
Definition print_for_clause (p : node * node) : M string :=
  let* idx := _print (fst p) in
  let* iters := _print (snd p) in
  ret ("for " +:+ idx +:+ " in " +:+ iters).

(** [zip(expr.indices, iterators)] *)
Definition zip_indices (indices iterators : list node) : list (node * node) :=
  zip indices iterators.

(** [_print_FunctionalFor]; [fuel] bounds the loops of the lowering. *)
Definition _print_FunctionalFor (fuel : nat) (kind : FunctionalKind)
    (loops : list node) (expr lhs : node) (indices : list node)
    (index : node) : M string :=
  let* (body, iterators) :=
    lift (_find_functional_expr_and_iterables fuel
            (FunctionalFor kind loops expr lhs indices index)) in
  let* lhs := _print lhs in
  let* rhs := lift (Assign_rhs body) in
  let* body := _print rhs in
  let* for_loops := mapM print_for_clause (zip_indices indices iterators) in
  let for_loops := join " " for_loops in
  let* name := aliases_get (FunctionalKind_class kind) "array" in
  let* _ :=
    if String.eqb name "array"
    then insert_new_import (PyccelSymbol "numpy")
           (AsName (ClassRef "NumpyArray" "array") "array") None
    else ret tt in
  ret (lhs +:+ " = " +:+ name +:+ "([" +:+ body +:+ " " +:+ for_loops +:+ "])" +:+ nl).

Definition _print_AsName (expr : node) : M string :=
  let* n := lift (AsName_name expr) in
  let* name := print_name n in
  let* (_, t) := lift (AsName_parts expr) in
  let* target := print_name t in
  if String.eqb name target then ret name
  else ret (name +:+ " as " +:+ target).

(** [self._ignore_funcs.append(f)] when [f] is set *)
Definition ignore_func (f : option node) : M unit :=
  match f with
  | Some f =>
      fun st => Ok (tt, {| _additional_imports := _additional_imports st;
                           _aliases := _aliases st;
                           _ignore_funcs := _ignore_funcs st ++ [f] |})
  | None => ret tt
  end.

(** [self._aliases.update(l)] *)
Definition aliases_update (l : list (string * string)) : M unit :=
  fun st => Ok (tt, {| _additional_imports := _additional_imports st;
                       _aliases := foldl (fun m kv => <[fst kv := snd kv]> m)
                                         (_aliases st) l;
                       _ignore_funcs := _ignore_funcs st |}).

(** [f.name] of an optional function, [''] when it is not set *)
Definition optional_function_name (f : option node) : result string :=
  match f with
  | Some f => function_name f
  | None => Ok ""
  end.

(** [not isinstance(t.object, Module)] *)
Definition object_is_not_Module (t : node) : result bool :=
  (let* (object, _) := AsName_parts t in
   Ok (match object with Module _ _ _ _ _ _ _ _ => false | _ => true end))%result.

(** The pairs added to [_aliases] for the targets imported under
    another name. *)
Fixpoint alias_pairs (registry : string -> option string) (target : list node) :
    result (list (string * string)) :=
  match target with
  | [] => Ok []
  | t :: target' =>
      (let* name := AsName_name t in
       let* (_, tgt) := AsName_parts t in
       if negb (String.eqb name tgt) then
         match registry name with
         | None => Raise (KeyError name)
         | Some cls_name =>
             let* rest := alias_pairs registry target' in
             Ok ((cls_name, tgt) :: rest)
         end
       else alias_pairs registry target')%result
  end.

(** [_print_Import].  [list(set(target))] keeps one of equal targets;
    the order in which a set is listed is not specified by Python, and
    the first occurrences are kept here in their order. *)
Definition _print_Import (expr_source : node) (expr_target : list node)
    (source_module : option node) : M string :=
  let* (init_func, free_func) :=
    lift (match source_module with
          | Some mod_ => Module_init_free mod_
          | None => Ok (None, None)
          end) in
  let* init_func_name := lift (optional_function_name init_func) in
  let* free_func_name := lift (optional_function_name free_func) in
  let* source :=
    match expr_source with
    | AsName _ _ =>
        let* n := lift (AsName_name expr_source) in print_name n
    | _ => _print expr_source
    end in
  let source := dict_get import_source_swap source source in
  let* target := lift (filterR object_is_not_Module expr_target) in
  match target with
  | [] => ret ("import " +:+ source +:+ nl)
  | _ =>
      let* target :=
        if String.eqb source "numpy"
        then lift (mapM_result
               (fun i => (let* (object, tgt) := AsName_parts i in
                          Ok (AsName (default object (numpy_target_swap env object)) tgt))%result)
               target)
        else ret target in
      let* target :=
        match dict_lookup source import_target_swap with
        | Some swap =>
            lift (mapM_result
               (fun i => (let* (object, tgt) := AsName_parts i in
                          Ok (AsName object (dict_get swap tgt tgt)))%result)
               target)
        | None => ret target
        end in
      let target := remove_dups target in
      let* _ :=
        match pyccel_builtin_import_registry env source with
        | Some registry =>
            let* pairs := lift (alias_pairs registry target) in
            aliases_update pairs
        | None => ret tt
        end in
      let* _ :=
        match source_module with
        | Some _ => let* _ := ignore_func init_func in ignore_func free_func
        | None => ret tt
        end in
      let* target :=
        lift (filterR
                (fun t => (let* name := AsName_name t in
                           Ok (negb (String.eqb name init_func_name
                                     || String.eqb name free_func_name)))%result)
                target) in
      let* target := print_each target in
      let target := join ", " target in
      ret ("from " +:+ source +:+ " import " +:+ target +:+ nl)
  end.

Definition _print_FunctionDefArgument (name : string)
    (annotation : option string) (value : option node) : M string :=
  let* name := print_name name in
  let type_annotation :=
    if truthy_str annotation then " : " +:+ default "" annotation else "" in
  let* dflt :=
    match value with
    | Some (FunctionDef fname _ _ _ _ _ _ _ _) | Some (FunctionAddress fname) =>
        let* v := print_name fname in ret (" = " +:+ v)
    | Some v => let* v := _print v in ret (" = " +:+ v)
    | None => ret ""
    end in
  ret (name +:+ type_annotation +:+ dflt).

Definition _print_FunctionAddress (name : string) : M string := ret name.

(** [func.rename(name)], as the function becomes *)
Definition rename (func : node) (new_name : string) : result node :=
  match func with
  | FunctionDef _ arguments imports interfaces functions body doc_string
                decorators headers =>
      Ok (FunctionDef new_name arguments imports interfaces functions body
                      doc_string decorators headers)
  | _ => Raise (AttributeError "rename")
  end.

Definition _print_Interface (name : string) (functions : list node) : M string :=
  match functions with
  | [] => raise IndexError
  | func :: _ =>
      let* func :=
        match func with
        | FunctionAddress _ => ret func
        | _ => lift (rename func name)
        end in
      _print func
  end.

(** The truth value of a decorator entry. *)
Definition decorator_truthy (v : decorator_value node) : bool :=
  match v with
  | DecNone => false
  | DecSingle (DecCall _) => true
  | DecSingle (DecStr s) => negb (String.eqb s "")
  | DecSingle (DecStrings l) => negb (length l =? 0)%nat
  | DecList l => negb (length l =? 0)%nat
  | DecDict keys _ => negb (length keys =? 0)%nat
  end.

(** [decorators['template']['decorator_list']] *)
Definition decorator_list_of (v : decorator_value node) :
    result (decorator_value node) :=
  match v with
  | DecDict _ (Some l) => Ok (DecList l)
  | DecDict _ None => Raise (KeyError "decorator_list")
  | _ => Raise (TypeError "indices must be integers")
  end.

(** [del d[k]] *)
Definition dict_remove {V} (k : string) (d : list (string * V)) :
    list (string * V) :=
  List.filter (fun kv => negb (String.eqb (fst kv) k)) d.

(** The update of [expr.decorators] under the key ['template']. *)
Definition fix_template (decorators : list (string * decorator_value node)) :
    result (list (string * decorator_value node)) :=
  match dict_lookup "template" decorators with
  | None => Raise (KeyError "template")
  | Some template =>
      if decorator_truthy template then
        (let* l := decorator_list_of template in
         Ok (dict_alter (fun _ => l) "template" decorators))%result
      else Ok (dict_remove "template" decorators)
  end.

(** The functions of one entry: [f] itself when it is a list, [[f]]
    otherwise.  A dictionary iterates over its keys. *)
Definition decorator_funcs (f : decorator_value node) :
    result (list (decorator_func node)) :=
  match f with
  | DecList l => Ok l
  | DecSingle func => Ok [func]
  | DecDict keys _ => Ok [DecStrings keys]
  | DecNone => Raise (TypeError "'NoneType' object is not iterable")
  end.

(** The arguments [args] computed for one function of the entry [n]. *)
Definition decorator_args (n : string) (func : decorator_func node) : list node :=
  match func with
  | DecCall args => args
  | DecStr s => if String.eqb s n then [] else map LiteralString (chars s)
  | DecStrings l => map LiteralString l
  end.

(** The loop [for func in f], from the text [dec] built so far. *)
Fixpoint print_decorator_funcs (n : string) (f : list (decorator_func node))
    (dec : string) : M string :=
  match f with
  | [] => ret dec
  | func :: f' =>
      let args := decorator_args n func in
      if String.eqb n "types" && (length args =? 0)%nat
      then print_decorator_funcs n f' dec
      else
        match args with
        | _ :: _ =>
            let* l := print_each args in
            print_decorator_funcs n f'
              (dec +:+ "@" +:+ n +:+ "(" +:+ join ", " l +:+ ")" +:+ nl)
        | [] => print_decorator_funcs n f' (dec +:+ "@" +:+ n +:+ nl)
        end
  end.

(** The loop [for n,f in decorators.items()], from the text [code]. *)
Fixpoint print_decorators (decorators : list (string * decorator_value node))
    (code : string) : M string :=
  match decorators with
  | [] => ret code
  | (n, f) :: decorators' =>
      let* _ :=
        if bool_decide (n ∈ pyccel_decorators env) then
          match decorators_mod env n with
          | Some obj =>
              insert_new_import (DottedName [PyccelSymbol "pyccel.decorators"])
                                (AsName obj n) None
          | None => raise (KeyError n)
          end
        else ret tt in
      let* f := lift (decorator_funcs f) in
      let* dec := print_decorator_funcs n f "" in
      print_decorators decorators' (dec +:+ code)
  end.

(** The nested functions of a function that are in none of its
    interfaces. *)
Definition functions_outside_interfaces (functions interfaces : list node) :
    result (list node) :=
  filterR (fun f => (let* covered := in_some_interface f interfaces in
                     Ok (negb covered))%result) functions.

(** [[i for i in interfaces if not i.is_argument]] *)
Definition interfaces_not_arguments (interfaces : list node) : result (list node) :=
  filterR (fun i => (let* a := Interface_is_argument i in Ok (negb a))%result)
          interfaces.

(** [self._print(expr.doc_string) if expr.doc_string else ''] *)
Definition print_doc_string (doc_string : option node) : M string :=
  match doc_string with
  | Some d => _print d
  | None => ret ""
  end.

(** Lines 235 to 255 of [_print_FunctionDef]: the definition without
    its decorators and headers. *)
Definition FunctionDef_code (name : string)
    (arguments imports interfaces functions : list node) (body : node)
    (doc_string : option node) : M string :=
  let* name := print_name name in
  let* imports := print_each imports in
  let imports := join "" imports in
  let* shown := lift (interfaces_not_arguments interfaces) in
  let* interfaces_code := print_each shown in
  let interfaces_code := join "" interfaces_code in
  let* functions := lift (functions_outside_interfaces functions interfaces) in
  let* functions := print_each functions in
  let functions := join "" functions in
  let* body := _print body in
  let body := _indent_codestring body in
  let* args := print_each arguments in
  let args := join ", " args in
  let imports := _indent_codestring imports in
  let functions := _indent_codestring functions in
  let interfaces_code := _indent_codestring interfaces_code in
  let* doc_string := print_doc_string doc_string in
  let doc_string := _indent_codestring doc_string in
  let body := join "" [doc_string; functions; interfaces_code; imports; body] in
  ret ("def " +:+ name +:+ "(" +:+ args +:+ "):" +:+ nl +:+ body +:+ nl).

(** Lines 256 to 290 of [_print_FunctionDef]: decorators and headers
    put before [code]. *)
Definition FunctionDef_decorate
    (decorators : list (string * decorator_value node))
    (headers : option node) (code : string) : M string :=
  let* code :=
    match decorators with
    | [] => ret code
    | _ =>
        let* decorators := lift (fix_template decorators) in
        print_decorators decorators code
    end in
  match headers with
  | Some h => let* h := _print h in ret (h +:+ nl +:+ code)
  | None => ret code
  end.

Definition _print_FunctionDef (name : string)
    (arguments imports interfaces functions : list node) (body : node)
    (doc_string : option node)
    (decorators : list (string * decorator_value node))
    (headers : option node) : M string :=
  let* code := FunctionDef_code name arguments imports interfaces functions
                 body doc_string in
  FunctionDef_decorate decorators headers code.

Definition _print_ClassDef (name : string)
    (superclasses methods interfaces : list node) : M string :=
  let* supers := print_each superclasses in
  let classDefName := "class " +:+ name +:+ "(" +:+ join ", " supers +:+ "):" in
  let* methods := print_each methods in
  let methods := _indent_codestring (join "" methods) in
  let* interfaces := print_each interfaces in
  let interfaces := _indent_codestring (join "" interfaces) in
  ret (join nl [classDefName; methods; interfaces] +:+ nl).

(** [''.join(self._print(i) for i in self.get_additional_imports())] *)
Definition print_additional_imports : M string :=
  let* st := get in
  let* l := print_each (get_additional_imports st) in
  ret (join "" l).

Definition _print_Program (imports : list node) (body : node) : M string :=
  let* imports := print_each imports in
  let imports := join "" imports in
  let* body := _print body in
  let* additional := print_additional_imports in
  let imports := imports +:+ additional in
  let body := imports +:+ body in
  let body := _indent_codestring body in
  ret ("if __name__ == " +:+ dquote +:+ "__main__" +:+ dquote +:+ ":" +:+ nl
       +:+ body +:+ nl).

(** The functions of a module printed as such: those in no interface
    that are neither the initialisation nor the clean-up function. *)
Definition Module_printed_funcs (funcs interfaces : list node)
    (init_func free_func : option node) : result (list node) :=
  filterR (fun f => (let* covered := in_some_interface f interfaces in
                     Ok (negb (covered || option_is init_func f
                               || option_is free_func f)))%result) funcs.

(** [init_if.body.body[:-1]] *)
Definition init_body_of (init_if : node) : result (list node) :=
  match init_if with
  | IfSection _ (CodeBlock body) => Ok (removelast body)
  | _ => Raise (AttributeError "body")
  end.

(** Lines 867 to 876 of [_print_Module]: the body of the initialisation
    function, without its last statement. *)
Definition print_init_body (init_func : option node) : M string :=
  match init_func with
  | Some f =>
      let* _ := ignore_func init_func in
      match get_attribute_nodes_IfSection env f with
      | [] => raise IndexError
      | init_if :: _ =>
          let* init_body := lift (init_body_of init_if) in
          let* l := print_each init_body in
          ret (join "" l)
      end
  | None => ret ""
  end.

(** Lines 886 to 890 of [_print_Module]: the program of the module. *)
Definition print_program (name : string) (program : option node) : M string :=
  match program with
  | Some p => _print (remove_import env p name)
  | None => ret ""
  end.

Definition _print_Module (name : string)
    (imports interfaces funcs classes : list node)
    (init_func free_func program : option node) : M string :=
  let* imports := print_each imports in
  let imports := join "" imports in
  let* interfaces_code := print_each interfaces in
  let interfaces_code := join "" interfaces_code in
  let* funcs := lift (Module_printed_funcs funcs interfaces init_func free_func) in
  let* funcs := print_each funcs in
  let funcs := join "" funcs in
  let* classes := print_each classes in
  let classes := join "" classes in
  let* init_body := print_init_body init_func in
  let* _ := ignore_func free_func in
  let* additional := print_additional_imports in
  let imports := imports +:+ additional in
  let body := join "" [interfaces_code; funcs; classes; init_body] in
  let* prog := print_program name program in
  ret (imports +:+ nl +:+ body +:+ prog).

Definition _print_OmpAnnotatedComment (name : string)
    (combined : option string) (txt : string) : M string :=
  let clauses := "" in
  let clauses :=
    if truthy_str combined then " " +:+ default "" combined else clauses in
  let omp_expr := "#$omp " +:+ name in
  let clauses := clauses +:+ txt in
  let omp_expr := omp_expr +:+ clauses +:+ nl in
  ret omp_expr.

Definition _print_Omp_End_Clause (txt : string) : M string :=
  let omp_expr := txt in
  let omp_expr := "#$omp " +:+ omp_expr +:+ nl in
  ret omp_expr.

End Rules.

Definition not_supported : string := "not yet supported for this target".

(** [CodePrinter._print]: the rule of the first class of [type(expr)]'s
    method resolution order that has one; a node without a rule is a
    fatal error.  [fuel] bounds the depth of the calls. *)
Fixpoint _print (fuel : nat) (expr : node) : M string :=
  match fuel with
  | O => fun _ => OutOfFuel
  | S fuel' =>
    let self_print := _print fuel' in
    match expr with
    | PyccelSymbol name => _print_PyccelSymbol name
    | Variable_ _ _ _ _ name => _print_Variable self_print name
    | DottedName name => _print_DottedName self_print name
    | NativeType NativeBool => _print_NativeBool
    | NativeType NativeInteger => _print_NativeInteger
    | NativeType NativeFloat => _print_NativeFloat
    | NativeType NativeComplex => _print_NativeComplex
    | LiteralInteger _ _ | LiteralFloat _ _ | LiteralComplex _ _
    | LiteralTrue _ | LiteralFalse _ | LiteralString _ => _print_Literal expr
    | PyccelMul args => _print_PyccelMul self_print args
    | PyccelAdd args => _print_PyccelAdd self_print args
    | PythonTuple args => _print_PythonTuple self_print args
    | PythonRange name start stop step =>
        _print_PythonRange self_print name start stop step
    | PythonInt cls name precision arg =>
        _print_PythonInt self_print cls name precision arg
    | PythonFloat cls name precision arg =>
        _print_PythonFloat self_print cls name precision arg
    | NumpyComplex cls name precision value =>
        _print_NumpyComplex self_print cls name precision value
    | NumpyLinspace cls name dtype precision start stop num endpoint =>
        _print_NumpyLinspace self_print cls name dtype precision start stop
          num endpoint
    | NumpyAutoFill cls name dtype precision shape order =>
        _print_NumpyAutoFill self_print cls name dtype precision shape order
    | NumpyFull cls name dtype precision shape fill_value order =>
        _print_NumpyFull self_print cls name dtype precision shape fill_value
          order
    | PyccelInternalFunction cls name args =>
        _print_PyccelInternalFunction self_print cls name args
    | Pass => _print_Pass
    | CommentBlock comments => _print_CommentBlock self_print comments
    | Assign lhs rhs => _print_Assign self_print lhs rhs
    | CodeBlock body => _print_CodeBlock self_print body
    | For target iterable body => _print_For self_print target iterable body
    | FunctionalFor kind loops e lhs indices index =>
        _print_FunctionalFor self_print fuel' kind loops e lhs indices index
    | AsName _ _ => _print_AsName self_print expr
    | Import source target source_module =>
        _print_Import self_print source target source_module
    | FunctionDefArgument name annotation value =>
        _print_FunctionDefArgument self_print name annotation value
    | FunctionAddress name => _print_FunctionAddress name
    | Interface name functions _ => _print_Interface self_print name functions
    | FunctionDef name arguments imports interfaces functions body doc_string
                  decorators headers =>
        _print_FunctionDef self_print name arguments imports interfaces
          functions body doc_string decorators headers
    | ClassDef name superclasses methods interfaces =>
        _print_ClassDef self_print name superclasses methods interfaces
    | Program _ imports body => _print_Program self_print imports body
    | Module name imports interfaces funcs classes init_func free_func program =>
        _print_Module self_print name imports interfaces funcs classes
          init_func free_func program
    | OmpAnnotatedComment name combined txt =>
        _print_OmpAnnotatedComment name combined txt
    | Omp_End_Clause txt => _print_Omp_End_Clause txt
    | NativeType NativeString | ClassRef _ _ | IfSection _ _ =>
        raise (FatalError not_supported)
    end
  end.

(** [pycode(expr)]: printing with a new printer. *)
Definition pycode (fuel : nat) (expr : node) : result string :=
  match _print fuel expr PythonCodePrinter_init with
  | Ok (code, _) => Ok code
  | Raise e => Raise e
  | OutOfFuel => OutOfFuel
  end.

End Printer.

(** *** An environment for closed examples

    The tables of the other modules are left empty, [substitute] replaces
    the occurrences of the old node in the statements and expressions of
    the fragment that the lowering walks through, and the remaining
    operations are the evident ones on the nodes used below. *)

(** [b], or what stands for it once [old] has been replaced by [new] in it
    and below it, through the statements and expressions that the lowering
    walks. *)
Fixpoint replace_node (old new b : node) {struct b} : node :=
  if bool_decide (b = old) then new
  else
    let sub := replace_node old new in
    match b with
    | PyccelMul args => PyccelMul (map sub args)
    | PyccelAdd args => PyccelAdd (map sub args)
    | PythonTuple args => PythonTuple (map sub args)
    | PythonRange name start stop step =>
        PythonRange name (sub start) (sub stop) (sub step)
    | Assign lhs rhs => Assign (sub lhs) (sub rhs)
    | CodeBlock body => CodeBlock (map sub body)
    | For target iterable body => For (map sub target) (sub iterable) (sub body)
    | _ => b
    end.

(** Modelled from the spec: [Basic.substitute(old, new)] of
    [pyccel/ast/basic.py] (section 4.1: "replacing a slot's target in
    place"); every slot of [b] or below it that held [old] holds [new]
    afterwards. *)
Definition substitute_node (old new b : node) : node :=
  let sub := replace_node old new in
  match b with
  | PyccelMul args => PyccelMul (map sub args)
  | PyccelAdd args => PyccelAdd (map sub args)
  | PythonTuple args => PythonTuple (map sub args)
  | PythonRange name start stop step =>
      PythonRange name (sub start) (sub stop) (sub step)
  | Assign lhs rhs => Assign (sub lhs) (sub rhs)
  | CodeBlock body => CodeBlock (map sub body)
  | For target iterable body => For (map sub target) (sub iterable) (sub body)
  | _ => b
  end.

Definition env0 : Env :=
  {| pyccel_decorators := [];
     decorators_mod := fun _ => None;
     numpy_target_swap := fun _ => None;
     pyccel_builtin_import_registry := fun _ => None;
     default_precision := fun _ => None;
     dtype_str := fun d =>
       match d with
       | NativeBool => "bool" | NativeInteger => "int" | NativeFloat => "float"
       | NativeComplex => "complex" | NativeString => "str"
       end;
     dtype_name := fun d =>
       match d with
       | NativeBool => "Bool" | NativeInteger => "Int" | NativeFloat => "Float"
       | NativeComplex => "Complex" | NativeString => "String"
       end;
     DtypePrecisionToCastFunction := fun _ => None;
     substitute := fun b old new => substitute_node old new b;
     get_attribute_nodes_IfSection := fun _ => [];
     remove_import := fun p _ => p;
     py_str := fun n =>
       match n with
       | DottedName [PyccelSymbol s] => s
       | _ => ""
       end;
     py_ne_str := fun _ _ => true;
     object_name := fun o =>
       match o with
       | PyccelSymbol s => Ok s
       | ClassRef _ name => Ok name
       | FunctionDef name _ _ _ _ _ _ _ _ => Ok name
       | FunctionAddress name => Ok name
       | Module name _ _ _ _ _ _ _ => Ok name
       | _ => Raise (AttributeError "name")
       end;
     order_of := fun _ => Ok None;
     repr_str := fun s => "'" +:+ s +:+ "'";
     same_object := fun x y => bool_decide (x = y);
     class_repr := fun x =>
       match x with
       | Pass => "<class 'pyccel.ast.core.Pass'>"
       | PyccelSymbol _ => "<class 'pyccel.ast.internals.PyccelSymbol'>"
       | Variable_ _ _ _ _ _ => "<class 'pyccel.ast.variable.Variable'>"
       | LiteralInteger _ _ => "<class 'pyccel.ast.literals.LiteralInteger'>"
       | PyccelMul _ => "<class 'pyccel.ast.operators.PyccelMul'>"
       | PyccelAdd _ => "<class 'pyccel.ast.operators.PyccelAdd'>"
       | Import _ _ _ => "<class 'pyccel.ast.core.Import'>"
       | _ => "<class 'pyccel.ast.basic.Basic'>"
       end;
     class_mro := fun cls =>
       [ {| Internals.class_name := cls; Internals.own_is_elemental := None |};
         Internals.PyccelInternalFunction_class;
         {| Internals.class_name := "PyccelAstNode";
            Internals.own_is_elemental := None |};
         {| Internals.class_name := "Basic"; Internals.own_is_elemental := None |};
         {| Internals.class_name := "object"; Internals.own_is_elemental := None |} ]
  |}.

(** *** Registrations and what the printer has collected *)

(** The printer after running [m]; it stays as it is if [m] raises. *)
Definition exec {A} (m : M A) (st : PrinterState) : PrinterState :=
  match m st with
  | Ok (_, st') => st'
  | _ => st
  end.

(** One call of [insert_new_import]: source, target and alias. *)
Definition registration : Type := node * node * option string.

Definition register (env : Env) (r : registration) (st : PrinterState) :
    PrinterState :=
  exec (insert_new_import env (fst (fst r)) (snd (fst r)) (snd r)) st.

(** The printer after the calls [regs], from a new printer. *)
Definition register_all (env : Env) (regs : list registration) : PrinterState :=
  foldl (fun st r => register env r st) PythonCodePrinter_init regs.

(** Whether [i] is an import statement for the symbol [t] of the source
    whose string is [k]. *)
Definition imports_symbol (env : Env) (k : string) (t : node) (i : node) : bool :=
  match i with
  | Import source target _ =>
      String.eqb (str_source env source) k && bool_decide (t ∈ target)
  | _ => false
  end.

(** The number of collected import statements for the pair [(k, t)]. *)
Definition count_import_statements (env : Env) (k : string) (t : node)
    (st : PrinterState) : nat :=
  length (List.filter (imports_symbol env k t) (get_additional_imports st)).

(** Whether [i] is an import statement of the source whose string is [k]
    with a target that the program takes for [t] ([t in i.target]: for an
    [AsName], a target of the same alias). *)
Definition imports_name (env : Env) (k : string) (t : node) (i : node) : bool :=
  match i with
  | Import source target _ =>
      String.eqb (str_source env source) k && set_mem t target
  | _ => false
  end.

Definition count_import_names (env : Env) (k : string) (t : node)
    (st : PrinterState) : nat :=
  length (List.filter (imports_name env k t) (get_additional_imports st)).

(** The statement that a registration builds, and whether it is one for
    the source [k] and the name of [t]. *)
Definition import_of (env : Env) (r : registration) : node :=
  Import (fst (fst r)) [aliased_target env (snd (fst r)) (snd r)] None.

Definition registers_name (env : Env) (k : string) (t : node)
    (r : registration) : bool :=
  imports_name env k t (import_of env r).

(** What a target is compared by: its alias if it is an [AsName], the
    string if it is one, the object itself otherwise (see [target_eq]). *)
Definition target_key (a : node) : string + node :=
  match a with
  | AsName _ t => inl t
  | PyccelSymbol s => inl s
  | _ => inr a
  end.

(** What one registration of the symbol [t] under the key [k], with the
    statement [import_obj], does to the dictionary [_additional_imports]
    (see [insert_new_import_state]). *)
Definition registered_in (k : string) (t import_obj : node)
    (d : list (string * (list node * list node))) :
    list (string * (list node * list node)) :=
  match dict_lookup k d with
  | None => d ++ [(k, ([t], [import_obj]))]
  | Some (s, l) =>
      if set_mem t s then d
      else dict_alter (fun info => (fst info ++ [t], snd info ++ [import_obj])) k d
  end.

(** An entry of [_additional_imports] as the registrations keep it: no
    two members of the set are equal for the program, and the list holds,
    in the order of the set, one statement for each member, which imports
    it alone from the source of the key. *)
Definition entry_ok (env : Env) (entry : string * (list node * list node)) : Prop :=
  NoDup (map target_key (fst (snd entry)))
  /\ Forall2 (fun t i => exists src, i = Import src [t] None
                                     /\ str_source env src = fst entry)
             (fst (snd entry)) (snd (snd entry)).

(** The statements of a dictionary, as [get_additional_imports] lists
    them. *)
Definition statements (d : list (string * (list node * list node))) : list node :=
  concat (map (fun tup => snd (snd tup)) d).

Definition imports_ok (env : Env) (d : list (string * (list node * list node))) :
    Prop :=
  NoDup (map fst d) /\ Forall (entry_ok env) d.

(** *** Example nodes *)

(** [range(0, stop)] as the semantic stage stores it. *)
Definition range_0 (stop : node) : node :=
  PythonRange "range" (LiteralInteger 0 (-1)) stop (LiteralInteger 1 (-1)).

Definition square (x : node) : node := PyccelMul [x; x].

(** The loops of [[x*x for i in range(n) for j in range(m)]]: the second
    entry of [loops]. *)
Definition two_level_loops (i j n m x acc : node) : node :=
  For [i] (range_0 n)
      (CodeBlock [For [j] (range_0 m) (CodeBlock [Assign acc (square x)])]).

Definition two_level_comprehension (kind : FunctionalKind) (pre e lhs : node)
    (i j n m x acc : node) : node :=
  FunctionalFor kind [pre; two_level_loops i j n m x acc] e lhs [i; j] acc.

Definition sym : string -> node := PyccelSymbol.

(** A comprehension nested in another one: the inner one assigns to the
    temporary [tmp], which the outer block then uses. *)
Definition inner_comprehension : node :=
  FunctionalFor FunctionalSum
    [Pass; For [sym "j"] (range_0 (sym "m")) (CodeBlock [Assign (sym "tmp") (sym "x")])]
    (sym "x") (sym "tmp") [sym "j"] (sym "tmp").

Definition block_with_nested : list node :=
  [inner_comprehension; Assign (sym "acc") (sym "tmp")].

Definition block_with_extra : list node :=
  [inner_comprehension; Assign (sym "acc") (sym "tmp");
   Assign (sym "other") (sym "tmp")].

(** A function with a nested import and a nested function, and a module
    with the same import and function. *)
Definition import_math : node := Import (PyccelSymbol "math") [] None.

Definition nested_g : node :=
  FunctionDef "g" [] [] [] [] (CodeBlock [Pass]) None [] None.

Definition nesting_f : node :=
  FunctionDef "f" [FunctionDefArgument "x" None None] [import_math] []
              [nested_g] (CodeBlock [Pass]) None [] None.

Definition module_m : node :=
  Module "m" [import_math] [] [nested_g] [] None None None.

(** The text printed for [nesting_f] and for [nested_g]. *)
Definition nested_g_code : string :=
  "def g():" +:+ nl +:+ "    pass" +:+ nl +:+ nl.


(** The first occurrence of [a] in [text] is before the first one of [b]. *)
Definition appears_before (a b text : string) : Prop :=
  exists i j, String.index 0 a text = Some i
              /\ String.index 0 b text = Some j /\ (i < j)%nat.

(** The registration made by the rules that need [numpy.array]. *)
Definition numpy_array : registration :=
  (sym "numpy", AsName (ClassRef "NumpyArray" "array") "array", None).

(** Two registrations from [numpy] under the same alias [x]: of [int32]
    and of [int64]. *)
Definition int32_as_x : registration :=
  (sym "numpy", AsName (ClassRef "NumpyInt32" "int32") "x", None).

Definition int64_as_x : registration :=
  (sym "numpy", AsName (ClassRef "NumpyInt64" "int64") "x", None).

(** [linspace(a, b, n)] of the element kind [dtype] at the default
    precision. *)
Definition default_linspace (dtype : datatype) : node :=
  NumpyLinspace "NumpyLinspace" "linspace" dtype (-1)
                (sym "a") (sym "b") (sym "n") (LiteralTrue (-1)).

End PyCode.

(** ** [symbols] of [pyccel/ast/internals.py] *)
Module Symbols.

(** Whether [c] is an ASCII character.  [symbols] is embedded for ASCII
    text: Python also strips the white space of Unicode. *)
Definition is_ascii (c : ascii) : bool := (nat_of_ascii c <? 128)%nat.

(** [c.isspace()] for an ASCII character. *)
Definition isspace (c : ascii) : bool :=
  let n := nat_of_ascii c in
  ((9 <=? n)%nat && (n <=? 13)%nat) || ((28 <=? n)%nat && (n <=? 32)%nat).

Fixpoint lstrip (s : string) : string :=
  match s with
  | String c s' => if isspace c then lstrip s' else s
  | EmptyString => EmptyString
  end.

Fixpoint rstrip (s : string) : string :=
  match s with
  | EmptyString => EmptyString
  | String c s' =>
      match rstrip s' with
      | EmptyString => if isspace c then EmptyString else String c EmptyString
      | r => String c r
      end
  end.

(** [s.strip()] on ASCII text *)
Definition strip (s : string) : string := rstrip (lstrip s).

Definition is_comma (c : ascii) : bool := Ascii.eqb c ",".

(** [s.split(',')] *)
Fixpoint split_comma (s : string) : list string :=
  match s with
  | EmptyString => [EmptyString]
  | String c s' =>
      if is_comma c then EmptyString :: split_comma s'
      else
        match split_comma s' with
        | w :: ws => String c w :: ws
        | [] => [String c EmptyString]
        end
  end.

(** [symbols(names)]: the names of the [PyccelSymbol]s of the tuple
    returned. *)
Definition symbols (names : string) : list string :=
  map strip (split_comma names).

(** The number of commas of a text, and whether a character occurs in it. *)
Fixpoint count_commas (s : string) : nat :=
  match s with
  | EmptyString => 0
  | String c s' => if is_comma c then S (count_commas s') else count_commas s'
  end.

Fixpoint all_chars (p : ascii -> bool) (s : string) : bool :=
  match s with
  | EmptyString => true
  | String c s' => p c && all_chars p s'
  end.

(** The first and the last character of a text, if any. *)
Definition first_char (s : string) : option ascii :=
  match s with
  | String c _ => Some c
  | EmptyString => None
  end.

Fixpoint last_char (s : string) : option ascii :=
  match s with
  | EmptyString => None
  | String c EmptyString => Some c
  | String _ s' => last_char s'
  end.

End Symbols.

(** ** [pyccel/parser/syntax/openmp.py] *)
Module OpenMP.

Inductive severity : Type := warning | error | fatal.

(** One diagnostic of the collector [Errors]. *)
Record ErrorInfo : Type := {
  message : string;
  error_severity : severity;
  symbol : string
}.

(** The collector: the diagnostics reported so far, oldest first. *)
Definition Errors : Type := list ErrorInfo.

#[export] Instance severity_eq_dec : EqDecision severity.
Proof. solve_decision. Defined.

#[export] Instance ErrorInfo_eq_dec : EqDecision ErrorInfo.
Proof. solve_decision. Defined.

Section Parse.
(** A statement of the textX model, [meta_model.statements[i].statement]. *)
Variable Statement : Type.

(** [meta.model_from_str(stmt)]: the statements of the model, or the
    exception raised; a text that the grammar of [grammar/openmp.tx]
    (selected version) rejects raises [TextXError]. *)
Variable model_from_str : string -> result (list Statement).

(** [parser._visit(statement)], which may report diagnostics. *)
Variable _visit : Statement -> Errors -> result node * Errors.

(** Whether [Errors.report] ([pyccel/errors/errors.py]) raises after
    recording a fatal diagnostic, or returns. *)
Variable fatal_raises : bool.

(** Modelled from the spec: [Errors.report] of [pyccel/errors/errors.py]
    (section 6: "diagnostics accumulate in a collector keyed by severity
    and source location").  The diagnostic is added to the collector. *)
Definition report (msg : string) (sev : severity) (sym : string)
    (errors : Errors) : Errors :=
  errors ++ [{| message := msg; error_severity := sev; symbol := sym |}].

(** The [try] block of [parse]. *)
Definition parse_try (stmt : string) (errors : Errors) : result node * Errors :=
  match model_from_str stmt with
  | Ok statements =>
      if negb (length statements =? 1)%nat then (Raise AssertionError, errors)
      else
        match statements with
        | statement :: _ => _visit statement errors
        | [] => (Raise IndexError, errors)
        end
  | Raise e => (Raise e, errors)
  | OutOfFuel => (OutOfFuel, errors)
  end.

(** [parse(stmt, parser, errors)]: the value returned ([None] or a node)
    or the exception that leaves the function, and the collector
    afterwards. *)
Definition parse (stmt : string) (errors : Errors) :
    result (option node) * Errors :=
  match parse_try stmt errors with
  | (Ok n, errors) => (Ok (Some n), errors)
  | (Raise (TextXError msg), errors) =>
      let errors := report msg fatal stmt errors in
      if fatal_raises then (Raise (FatalError msg), errors)
      else (Ok None, errors)
  | (Raise e, errors) => (Raise e, errors)
  | (OutOfFuel, errors) => (OutOfFuel, errors)
  end.
End Parse.

(** *** The directive language *)

(** [s] without the prefix [p], if it starts with it. *)
Fixpoint strip_prefix (p s : string) : option string :=
  match p, s with
  | EmptyString, _ => Some s
  | String a p', String b s' => if Ascii.eqb a b then strip_prefix p' s' else None
  | String _ _, EmptyString => None
  end.

(** Modelled from the spec: the clause tree that the grammar of
    [pyccel/parser/grammar/openmp.tx] builds.  Section 3: "produced by
    parsing one comment line against a versioned grammar; a sequence of
    clause nodes, each a (name, argument-list) pair". *)
Record Clause : Type := {
  clause_name : string;
  clause_args : list string
}.

#[export] Instance Clause_eq_dec : EqDecision Clause.
Proof. solve_decision. Defined.

(** Modelled from the spec: the vocabulary of one revision of the
    directive standard.  Section 4.4: "the active version ... determines
    which clause names are legal".  The legal construct names, for each
    the keywords it combines with, and the legal clause names. *)
Record Version : Type := {
  constructs : list string;
  combinations : string -> list string;
  clause_names : list string
}.

(** Modelled from the spec: the blanks that the grammar of
    [grammar/openmp.tx] skips between the words of a directive. *)
Definition is_blank (c : ascii) : bool :=
  Ascii.eqb c " " || Ascii.eqb c "009".

(** Modelled from the spec: the characters of the grammar that end a name
    or an argument (section 3, "name, argument-list"). *)
Definition is_punct (c : ascii) : bool :=
  Ascii.eqb c "(" || Ascii.eqb c ")" || Ascii.eqb c ",".

Definition snoc (s : string) (c : ascii) : string := s +:+ String c "".

(** Modelled from the spec: reading the clauses of a directive.  Section
    6: "a line beginning with a fixed sentinel (e.g.
    [#$ omp <clause-name> <clause-args...>])".  Clauses are separated by
    blanks; the arguments of a clause stand between parentheses,
    separated by commas, and the blanks around an argument do not belong
    to it.  The state of the reader: between two clauses, inside a name,
    inside the parentheses of a clause, after a closing parenthesis, or
    stopped at a violation of the grammar. *)
Inductive scan : Type :=
| Between (done : list Clause)
| InName (done : list Clause) (name : string)
| InArgs (done : list Clause) (name : string) (args : list string)
         (cur : string)
| Closed (done : list Clause)
| Failed (msg : string).

(** Modelled from the spec: one character read by the grammar, from the
    state [st] of the reader. *)
Definition scan_step (st : scan) (c : ascii) : scan :=
  match st with
  | Between done =>
      if is_blank c then Between done
      else if is_punct c then Failed "Expected a clause name"
      else InName done (String c "")
  | InName done name =>
      if is_blank c
      then Between (done ++ [{| clause_name := name; clause_args := [] |}])
      else if Ascii.eqb c "(" then InArgs done name [] ""
      else if is_punct c then Failed "Expected a clause name"
      else InName done (snoc name c)
  | InArgs done name args cur =>
      if Ascii.eqb c ")" then
        match Symbols.strip cur with
        | "" => Failed "Expected an argument"
        | a => Closed (done ++ [{| clause_name := name;
                                   clause_args := args ++ [a] |}])
        end
      else if Ascii.eqb c "," then
        match Symbols.strip cur with
        | "" => Failed "Expected an argument"
        | a => InArgs done name (args ++ [a]) ""
        end
      else if Ascii.eqb c "(" then Failed "Expected ')'"
      else InArgs done name args (snoc cur c)
  | Closed done =>
      if is_blank c then Between done else Failed "Expected a blank"
  | Failed msg => Failed msg
  end.

(** Modelled from the spec: the text [s] read by the grammar, from the
    state [st]. *)
Fixpoint scan_string (st : scan) (s : string) : scan :=
  match s with
  | EmptyString => st
  | String c s' => scan_string (scan_step st c) s'
  end.

(** Modelled from the spec: the clauses read by the grammar when the
    text ends, or the violation ([TextXError]). *)
Definition scan_end (st : scan) : result (list Clause) :=
  match st with
  | Between done | Closed done => Ok done
  | InName done name =>
      Ok (done ++ [{| clause_name := name; clause_args := [] |}])
  | InArgs _ _ _ _ => Raise (TextXError "Expected ')'")
  | Failed msg => Raise (TextXError msg)
  end.

(** Modelled from the spec: the clause tree of a text (section 4.4, "raw
    text -> grammar parse -> clause tree"). *)
Definition read_clauses (text : string) : result (list Clause) :=
  scan_end (scan_string (Between []) text).

(** Modelled from the spec: the sentinel of the grammar (section 6, "a
    line beginning with a fixed sentinel").  The text after the sentinel:
    [#$], then [omp], apart from the rest. *)
Definition after_sentinel (line : string) : option string :=
  match strip_prefix "#$" line with
  | None => None
  | Some s =>
      match strip_prefix "omp" (Symbols.lstrip s) with
      | Some EmptyString => Some EmptyString
      | Some (String c r) => if is_blank c then Some (String c r) else None
      | None => None
      end
  end.

(** Modelled from the spec: a word of the vocabulary in the clause tree.
    Whether the clause is a bare word of the list [words]. *)
Definition is_word_of (words : list string) (c : Clause) : bool :=
  bool_decide (clause_name c ∈ words)
  && match clause_args c with [] => true | _ => false end.

(** Modelled from the spec: the clauses of the tree that follow the
    construct and its combination keyword. *)
Definition clauses_of (v : Version) (tree : list Clause) : list Clause :=
  match tree with
  | [] => []
  | c0 :: rest =>
      match rest with
      | c1 :: rest' =>
          if is_word_of (combinations v (clause_name c0)) c1 then rest'
          else rest
      | [] => []
      end
  end.

(** Modelled from the spec: the vocabulary check.  Section 4.4: "an
    unrecognized clause under the active version is fatal"; section 6: a
    directive is "optionally followed by a matching end-clause sentinel".
    The first word is a construct of the version, or [end] followed by
    one; the word after the construct may be a keyword that the version
    combines with it; every other clause has a name of the version. *)
Definition check_vocabulary (v : Version) (tree : list Clause) : result unit :=
  match tree with
  | [] => Raise (TextXError "Expected a construct")
  | c0 :: rest =>
      if String.eqb (clause_name c0) "end"
         && match clause_args c0 with [] => true | _ => false end
      then
        match rest with
        | c1 :: rest' =>
            if negb (is_word_of (constructs v) c1)
            then Raise (TextXError ("Unknown construct " +:+ clause_name c1))
            else
              match rest' with
              | [] => Ok tt
              | [c2] =>
                  if is_word_of (combinations v (clause_name c1)) c2
                  then Ok tt
                  else Raise (TextXError ("Unknown clause " +:+ clause_name c2))
              | _ :: c3 :: _ =>
                  Raise (TextXError ("Unknown clause " +:+ clause_name c3))
              end
        | [] => Raise (TextXError "Expected a construct")
        end
      else if negb (is_word_of (constructs v) c0)
      then Raise (TextXError ("Unknown construct " +:+ clause_name c0))
      else
        match List.find (fun c => negb (bool_decide (clause_name c ∈ clause_names v)))
                        (clauses_of v tree) with
        | Some c => Raise (TextXError ("Unknown clause " +:+ clause_name c))
        | None => Ok tt
        end
  end.

(** Modelled from the spec: [meta.model_from_str(stmt)] over the grammar
    of the version, section 4.4: "raw text -> grammar parse -> clause
    tree"; "parsing is strict: any grammar violation is a fatal
    diagnostic".  The model of a comment has one statement, its clause
    tree. *)
Definition parse_directive (v : Version) (line : string) :
    result (list (list Clause)) :=
  match after_sentinel line with
  | None => Raise (TextXError "Expected '#$ omp'")
  | Some text =>
      (let* tree := read_clauses text in
       let* _ := check_vocabulary v tree in
       Ok [tree])%result
  end.

(** Modelled from the spec: the surface syntax of a clause and of a
    sequence of clauses, section 4.4: "printing a directive reconstructs
    original-equivalent surface syntax from the clause tree".  The
    arguments are written between parentheses with [", "] between them,
    and each clause after one blank. *)
Definition render_clause (c : Clause) : string :=
  match clause_args c with
  | [] => clause_name c
  | args => clause_name c +:+ "(" +:+ PyCode.join ", " args +:+ ")"
  end.

(** Modelled from the spec: the surface syntax of a sequence of clauses,
    each after one blank. *)
Fixpoint render_clauses (cs : list Clause) : string :=
  match cs with
  | [] => ""
  | c :: cs' => " " +:+ render_clause c +:+ render_clauses cs'
  end.

(** Modelled from the spec: the clause text of a tree in this spelling
    (the attribute [txt] of an end clause): the clauses, one blank between
    two of them. *)
Definition canonical_text (tree : list Clause) : string :=
  match tree with
  | [] => ""
  | c0 :: rest => render_clause c0 +:+ render_clauses rest
  end.








(** Modelled from the spec: the visitor of [omp_versions] (the
    [SyntaxParser] of the version), which turns the clause tree into the
    annotation that the printer reads, with its attributes [name],
    [combined] and [txt].  Section 4.4: "combined/compound clause forms
    must be re-emitted with the same combination keyword they were parsed
    with". *)
Definition visit_directive (v : Version) (tree : list Clause)
    (errors : Errors) : result node * Errors :=
  match tree with
  | [] => (Raise IndexError, errors)
  | c0 :: rest =>
      if String.eqb (clause_name c0) "end"
         && match clause_args c0 with [] => true | _ => false end
      then (Ok (Omp_End_Clause (canonical_text tree)), errors)
      else
        match rest with
        | c1 :: rest' =>
            if is_word_of (combinations v (clause_name c0)) c1
            then (Ok (OmpAnnotatedComment (clause_name c0)
                        (Some (clause_name c1)) (render_clauses rest')), errors)
            else (Ok (OmpAnnotatedComment (clause_name c0) None
                        (render_clauses rest)), errors)
        | [] => (Ok (OmpAnnotatedComment (clause_name c0) None ""), errors)
        end
  end.


(** Modelled from the spec: a part of the vocabulary of OpenMP 4.5, the
    version selected in [openmp.py]; the grammar file and [omp_versions]
    that hold it are not among the sources. *)
Definition omp_4_5 : Version :=
  {| constructs := ["parallel"; "for"; "simd"; "sections"; "section";
                    "single"; "task"; "target"; "teams"; "distribute";
                    "master"; "critical"; "barrier"; "atomic"; "taskwait";
                    "flush"];
     combinations := fun name =>
       if String.eqb name "parallel" then ["for"; "sections"]
       else if String.eqb name "for" then ["simd"]
       else if String.eqb name "target" then ["teams"; "parallel"; "simd"]
       else if String.eqb name "teams" then ["distribute"]
       else [];
     clause_names := ["private"; "firstprivate"; "lastprivate"; "shared";
                      "default"; "reduction"; "schedule"; "collapse";
                      "ordered"; "nowait"; "num_threads"; "if"; "copyin";
                      "proc_bind"; "linear"; "map"; "device"] |}.

(** [parse] of [openmp.py] over the grammar and the visitor modelled
    above. *)
Definition parse_omp (v : Version) (fatal_raises : bool) (stmt : string)
    (errors : Errors) : result (option node) * Errors :=
  parse (list Clause) (parse_directive v) (visit_directive v) fatal_raises
        stmt errors.

End OpenMP.

(** ** Further rules of [pycode.py] and notions for their properties *)
Module PyCodeMore.
Import PyCode.
#[local] Open Scope printer_scope.

(** [s.split('\n')] *)
Fixpoint split_nl (s : string) : list string :=
  match s with
  | EmptyString => [EmptyString]
  | String c s' =>
      if is_nl c then EmptyString :: split_nl s'
      else
        match split_nl s' with
        | w :: ws => String c w :: ws
        | [] => [String c EmptyString]
        end
  end.

(** One line of an indented block. *)
Definition indented_line (line : string) : string := tab +:+ line +:+ nl.

(** The loops [for t1 in it1: for t2 in it2: ... terminal], each loop body
    being a block of one statement. *)
Fixpoint loop_nest (clauses : list (list node * node)) (terminal : node) : node :=
  match clauses with
  | [] => terminal
  | (target, iterable) :: rest =>
      For target iterable (CodeBlock [loop_nest rest terminal])
  end.

(** The nodes on which the loop of the lowering has a branch. *)
Definition lowering_handles (body : node) : bool :=
  match body with
  | Assign _ _ | CodeBlock _ | For _ _ _ | FunctionalFor _ _ _ _ _ _ => true
  | _ => false
  end.

(** [isinstance(i, Interface)] *)
Definition is_Interface (i : node) : Prop :=
  exists name functions is_argument, i = Interface name functions is_argument.

(** The entry of [FunctionDef.decorators] for a decorator written without
    arguments, [@n]: the value under the key [n] is the name itself. *)
Definition bare_decorator (n : string) : string * decorator_value node :=
  (n, DecSingle (DecStr n)).

(** The line printed for it; a bare [types] prints nothing. *)
Definition bare_decorator_line (n : string) : string :=
  if String.eqb n "types" then "" else "@" +:+ n +:+ nl.

(** The imports registered for the decorators [names], in their order:
    one for each name that [pyccel.decorators] exports. *)
Definition decorator_registrations (env : Env) (names : list string) :
    list registration :=
  flat_map (fun n =>
              if bool_decide (n ∈ pyccel_decorators env) then
                match decorators_mod env n with
                | Some obj =>
                    [(DottedName [PyccelSymbol "pyccel.decorators"],
                      AsName obj n, None)]
                | None => []
                end
              else []) names.

(** [m] keeps the property [P] of the printer: if [P] holds before a run
    of [m] that returns, it holds afterwards. *)
Definition keeps {A} (P : PrinterState -> Prop) (m : M A) : Prop :=
  forall st a st', P st -> m st = Ok (a, st') -> P st'.

(** [PythonCodePrinter._print_FunctionCall], for a call given by the
    attributes that the rule reads: [funcdef] and whether it has results,
    [interface_name] if [interface] is set, [func_name], [args], and whether
    the call is a [DottedFunctionCall]. *)
Definition _print_FunctionCall (_print : node -> M string) (funcdef : node)
    (has_results : bool) (interface_name : option string) (func_name : string)
    (args : list node) (dotted : bool) : M string :=
  fun st =>
    if bool_decide (funcdef ∈ _ignore_funcs st) then Ok ("", st)
    else
      (let func_name :=
         match interface_name with
         | Some n => n
         | None => func_name
         end in
       let args := if dotted then tail args else args in
       let* l := mapM _print args in
       let code := func_name +:+ "(" +:+ join ", " l +:+ ")" in
       ret (if has_results then code else code +:+ nl)) st.

(** *** Further example nodes *)

(** An instance in which the [IfSection] nodes of a function are those at
    the top of its body. *)
Definition env_init : Env :=
  {| pyccel_decorators := pyccel_decorators env0;
     decorators_mod := decorators_mod env0;
     numpy_target_swap := numpy_target_swap env0;
     pyccel_builtin_import_registry := pyccel_builtin_import_registry env0;
     default_precision := default_precision env0;
     dtype_str := dtype_str env0;
     dtype_name := dtype_name env0;
     DtypePrecisionToCastFunction := DtypePrecisionToCastFunction env0;
     substitute := substitute env0;
     get_attribute_nodes_IfSection := fun f =>
       match f with
       | FunctionDef _ _ _ _ _ (CodeBlock body) _ _ _ =>
           List.filter (fun b => match b with IfSection _ _ => true | _ => false end)
                       body
       | _ => []
       end;
     remove_import := remove_import env0;
     py_str := py_str env0;
     py_ne_str := py_ne_str env0;
     object_name := object_name env0;
     order_of := order_of env0;
     repr_str := repr_str env0;
     same_object := same_object env0;
     class_repr := class_repr env0;
     class_mro := class_mro env0 |}.

(** An instance in which [pyccel.decorators] exports some decorators,
    each a function of the module [decorators_mod]. *)
Definition env_decorators : Env :=
  {| pyccel_decorators := ["elemental"; "inline"; "kernel"; "pure"; "template";
                           "types"];
     decorators_mod := fun n =>
       if bool_decide (n ∈ ["elemental"; "inline"; "kernel"; "pure"; "template";
                            "types"])
       then Some (FunctionAddress n) else None;
     numpy_target_swap := numpy_target_swap env0;
     pyccel_builtin_import_registry := pyccel_builtin_import_registry env0;
     default_precision := default_precision env0;
     dtype_str := dtype_str env0;
     dtype_name := dtype_name env0;
     DtypePrecisionToCastFunction := DtypePrecisionToCastFunction env0;
     substitute := substitute env0;
     get_attribute_nodes_IfSection := get_attribute_nodes_IfSection env0;
     remove_import := remove_import env0;
     py_str := py_str env0;
     py_ne_str := py_ne_str env0;
     object_name := object_name env0;
     order_of := order_of env0;
     repr_str := repr_str env0;
     same_object := same_object env0;
     class_repr := class_repr env0;
     class_mro := class_mro env0 |}.

(** The initialisation and the clean-up function of a module [m], and the
    module. *)
Definition m_init : node :=
  FunctionDef "m__init" [] [] [] []
    (CodeBlock [IfSection (sym "initialised")
                  (CodeBlock [Assign (sym "x") (sym "y");
                              Assign (sym "initialised") (sym "True")])])
    None [] None.

Definition m_free : node :=
  FunctionDef "m__free" [] [] [] [] (CodeBlock [Pass]) None [] None.

Definition module_with_init : node :=
  Module "m" [] [] [m_init; nested_g; m_free] [] (Some m_init) (Some m_free) None.

(** [from m import h], where [h] is a function of the module [m]. *)
Definition import_from_m : node :=
  Import (sym "m") [AsName (FunctionAddress "h") "h"] (Some module_with_init).

(** A cast to a 32-bit integer and the import that it registers. *)
Definition int32_cast (x : string) : node :=
  PythonInt "NumpyInt32" "int32" 4 (sym x).

Definition numpy_int32 : registration :=
  (sym "numpy", AsName (ClassRef "NumpyInt32" "int32") "int32", None).

End PyCodeMore.
(** * Properties *)

(** ** [internals.py] *)
Module InternalsFacts.
Import Internals.

Lemma check_bound_Ok (bound : pyvalue) (msg : string) :
  is_None bound || has_integer_dtype bound = true ->
  check_bound bound msg = Ok tt.
Proof.
  unfold check_bound. intros H.
  destruct (is_None bound), (has_integer_dtype bound); simpl in *; congruence.
Qed.

Lemma check_bound_Raise (bound : pyvalue) (msg : string) :
  is_None bound = false -> has_integer_dtype bound = false ->
  check_bound bound msg = Raise (TypeError msg).
Proof. unfold check_bound. intros -> ->. reflexivity. Qed.

Lemma bad_bound_dec (b : pyvalue) :
  {bad_bound b} + {is_None b || has_integer_dtype b = true}.
Proof.
  unfold bad_bound.
  destruct (is_None b), (has_integer_dtype b); simpl; auto;
    right; reflexivity.
Qed.

(** C6: once the base initialiser has accepted the three slots (and
    stored them, as they are or converted), building a [Slice] in the
    syntactic stage always succeeds, and building it in the semantic stage
    raises a [TypeError] exactly when one of [start], [stop], [step] is
    present without being a typed value of integer kind; otherwise it
    succeeds too. *)
Theorem Slice_init_checks_bounds
    (Basic_init : pyvalue -> result pyvalue)
    (start stop step start' stop' step' : pyvalue) :
  Basic_init start = Ok start' ->
  Basic_init stop = Ok stop' ->
  Basic_init step = Ok step' ->
  let self := {| _start := start'; _stop := stop'; _step := step' |} in
  Slice_init Basic_init syntactic start stop step = Ok self
  /\ ((exists msg, Slice_init Basic_init semantic start stop step
                   = Raise (TypeError msg))
      <-> (exists b, b ∈ [start; stop; step] /\ bad_bound b))
  /\ ((forall b, b ∈ [start; stop; step] -> ~ bad_bound b) ->
      Slice_init Basic_init semantic start stop step = Ok self).
Proof.
  intros HB1 HB2 HB3 self. unfold Slice_init. rewrite HB1, HB2, HB3. simpl.
  split; [reflexivity|].
  destruct (bad_bound_dec start) as [[Hs1 Hs2]|Hs].
  { rewrite (check_bound_Raise _ _ Hs1 Hs2). simpl. split.
    - split; [intros _|intros _; eauto].
      exists start. split; [set_solver | split; assumption].
    - intros H. exfalso. apply (H start); [set_solver | split; assumption]. }
  rewrite (check_bound_Ok _ _ Hs). simpl.
  destruct (bad_bound_dec stop) as [[Ht1 Ht2]|Ht].
  { rewrite (check_bound_Raise _ _ Ht1 Ht2). simpl. split.
    - split; [intros _|intros _; eauto].
      exists stop. split; [set_solver | split; assumption].
    - intros H. exfalso. apply (H stop); [set_solver | split; assumption]. }
  rewrite (check_bound_Ok _ _ Ht). simpl.
  destruct (bad_bound_dec step) as [[Hp1 Hp2]|Hp].
  { rewrite (check_bound_Raise _ _ Hp1 Hp2). simpl. split.
    - split; [intros _|intros _; eauto].
      exists step. split; [set_solver | split; assumption].
    - intros H. exfalso. apply (H step); [set_solver | split; assumption]. }
  rewrite (check_bound_Ok _ _ Hp). simpl. split.
  - split; [intros [msg Hmsg]; discriminate|].
    intros [b [Hin [Hb1 Hb2]]].
    assert (Hb : is_None b || has_integer_dtype b = true).
    { apply list_elem_of_In in Hin. simpl in Hin.
      destruct Hin as [<-|[<-|[<-|[]]]]; assumption. }
    rewrite Hb1, Hb2 in Hb. discriminate.
  - intros _. reflexivity.
Qed.

Lemma Slice_init_checks_bounds_witness :
  Slice_init Basic_init_example syntactic int_var float_var PyNone
    = Ok {| _start := int_var; _stop := float_var; _step := PyNone |}
  /\ ((exists msg, Slice_init Basic_init_example semantic int_var float_var PyNone
                   = Raise (TypeError msg))
      <-> (exists b, b ∈ [int_var; float_var; PyNone] /\ bad_bound b))
  /\ ((forall b, b ∈ [int_var; float_var; PyNone] -> ~ bad_bound b) ->
      Slice_init Basic_init_example semantic int_var float_var PyNone
      = Ok {| _start := int_var; _stop := float_var; _step := PyNone |}).
Proof.
  apply (Slice_init_checks_bounds Basic_init_example int_var float_var PyNone
           int_var float_var PyNone); reflexivity.
Defined.

(** The first failing check decides the message. *)
Example Slice_semantic_float_stop :
  Slice_init Basic_init_example semantic int_var float_var (PyInt 1)
  = Raise (TypeError "Slice stop must be Integer or None").
Proof. reflexivity. Qed.

Example Slice_semantic_ints :
  is_Ok (Slice_init Basic_init_example semantic int_var PyNone (LiteralInteger 2)).
Proof. eexists. reflexivity. Qed.

(** In the syntactic stage a Python integer is accepted, and stored as the
    base initialiser converts it. *)
Example Slice_syntactic_int :
  Slice_init Basic_init_example syntactic (PyInt 1) PyNone PyNone
  = Ok {| _start := LiteralInteger 1; _stop := PyNone; _step := PyNone |}.
Proof. reflexivity. Qed.

(** C9: every array-size node that [PyccelArraySize.__init__] builds has
    the integer kind, rank 0, the empty shape and the precision that
    [default_precision] gives to ['integer'], whatever its arguments. *)
Theorem PyccelArraySize_type_descriptor
    (default_precision : gmap string Z) (Basic_init : pyvalue -> result pyvalue)
    (arg index : pyvalue) (size : PyccelArraySize) :
  PyccelArraySize_init default_precision Basic_init arg index = Ok size ->
  _dtype size = NativeInteger
  /\ _rank size = 0%nat
  /\ _shape size = []
  /\ default_precision !! "integer" = Some (_precision size).
Proof.
  unfold PyccelArraySize_init. intros H.
  destruct (negb _); [discriminate|].
  destruct (match index with PyInt v => _ | _ => _ end) as [i| |];
    simpl in H; try discriminate.
  destruct (default_precision !! "integer") as [p|]; simpl in H; [|discriminate].
  destruct (Basic_init arg) as [arg'| |]; simpl in H; try discriminate.
  destruct (Basic_init i) as [i'| |]; simpl in H; try discriminate.
  injection H as <-. simpl. auto.
Qed.

Lemma PyccelArraySize_type_descriptor_witness :
  _dtype {| _arg := float_var; _index := LiteralInteger 1;
            _dtype := NativeInteger; _rank := 0; _shape := [];
            _precision := 4 |} = NativeInteger
  /\ _rank {| _arg := float_var; _index := LiteralInteger 1;
              _dtype := NativeInteger; _rank := 0; _shape := [];
              _precision := 4 |} = 0%nat
  /\ _shape {| _arg := float_var; _index := LiteralInteger 1;
               _dtype := NativeInteger; _rank := 0; _shape := [];
               _precision := 4 |} = []
  /\ precision_table !! "integer"
     = Some (_precision {| _arg := float_var; _index := LiteralInteger 1;
                           _dtype := NativeInteger; _rank := 0; _shape := [];
                           _precision := 4 |}).
Proof.
  apply (PyccelArraySize_type_descriptor precision_table Basic_init_example
           float_var (PyInt 1)).
  vm_compute. reflexivity.
Defined.

(** The construction succeeds on a node and an integer index, and fails on
    an argument that is neither a sequence nor a node, with the class of
    the argument in the message. *)
Example PyccelArraySize_init_ok :
  is_Ok (PyccelArraySize_init precision_table Basic_init_example float_var
           (PyInt 1)).
Proof. eexists. vm_compute. reflexivity. Qed.

Example PyccelArraySize_init_str :
  PyccelArraySize_init precision_table Basic_init_example (PyStr "a") (PyInt 1)
  = Raise (TypeError "Unknown type of  <class 'str'>.").
Proof. reflexivity. Qed.

(** A list is stored as the base initialiser stores it. *)
Example PyccelArraySize_init_list :
  PyccelArraySize_init precision_table Basic_init_example
    (PyList [PyInt 2; PyInt 3]) (PyInt 0)
  = Ok {| _arg := PyTuple [LiteralInteger 2; LiteralInteger 3];
          _index := LiteralInteger 0; _dtype := NativeInteger; _rank := 0;
          _shape := []; _precision := 4 |}.
Proof. vm_compute. reflexivity. Qed.


End InternalsFacts.

(** ** Import registration *)
Module ImportFacts.
Import PyCode.
#[local] Set Warnings "-clear-no-such-hyp".

Section Dict.
Context {V : Type}.
Implicit Types (d : list (string * V)) (k : string).

Lemma dict_lookup_cons k k' (v : V) d :
  dict_lookup k ((k', v) :: d)
  = if String.eqb k' k then Some v else dict_lookup k d.
Proof.
  unfold dict_lookup. simpl. destruct (String.eqb k' k); reflexivity.
Qed.

Lemma dict_lookup_app k d d' :
  dict_lookup k (d ++ d')
  = match dict_lookup k d with
    | Some v => Some v
    | None => dict_lookup k d'
    end.
Proof.
  induction d as [|[k' v'] d IH]; [reflexivity|].
  rewrite <- app_comm_cons, !dict_lookup_cons.
  destruct (String.eqb k' k); [reflexivity | exact IH].
Qed.

Lemma dict_lookup_app_new k (v : V) d :
  dict_lookup k d = None -> dict_lookup k (d ++ [(k, v)]) = Some v.
Proof.
  intros H. rewrite dict_lookup_app, H, dict_lookup_cons, String.eqb_refl.
  reflexivity.
Qed.

Lemma dict_lookup_alter k (f : V -> V) d :
  dict_lookup k (dict_alter f k d) = f <$> dict_lookup k d.
Proof.
  induction d as [|[k' v'] d IH]; [reflexivity|]. simpl.
  destruct (String.eqb k' k) eqn:E; rewrite !dict_lookup_cons, E;
    [reflexivity | apply IH].
Qed.

Lemma dict_lookup_alter_ne k k' (f : V -> V) d :
  k' <> k -> dict_lookup k (dict_alter f k' d) = dict_lookup k d.
Proof.
  intros Hne. induction d as [|[k0 v0] d IH]; [reflexivity|]. simpl.
  destruct (String.eqb k0 k') eqn:E.
  - apply String.eqb_eq in E. subst k0. rewrite !dict_lookup_cons.
    apply String.eqb_neq in Hne. rewrite Hne. reflexivity.
  - rewrite !dict_lookup_cons, IH. reflexivity.
Qed.

Lemma dict_alter_keys k (f : V -> V) d :
  map fst (dict_alter f k d) = map fst d.
Proof.
  induction d as [|[k' v'] d IH]; [reflexivity|]. simpl.
  destruct (String.eqb k' k); simpl; [reflexivity | f_equal; apply IH].
Qed.

Lemma dict_lookup_None_keys k d :
  dict_lookup k d = None <-> k ∉ map fst d.
Proof.
  induction d as [|[k' v'] d IH]; simpl.
  - split; [intros _ H; inversion H | reflexivity].
  - rewrite dict_lookup_cons. destruct (String.eqb k' k) eqn:E.
    + apply String.eqb_eq in E. subst. split; [discriminate|].
      intros H. exfalso. apply H. left.
    + apply String.eqb_neq in E. rewrite IH. rewrite not_elem_of_cons.
      split; [intros H; split; [congruence | exact H] | intros [_ H]; exact H].
Qed.

Lemma dict_setdefault_lookup k (v : V) d :
  dict_lookup k (dict_setdefault k v d)
  = Some (default v (dict_lookup k d)).
Proof.
  unfold dict_setdefault. destruct (dict_lookup k d) eqn:E; simpl.
  - exact E.
  - apply dict_lookup_app_new, E.
Qed.

Lemma dict_alter_app_new (f : V -> V) k (v : V) d :
  dict_lookup k d = None ->
  dict_alter f k (d ++ [(k, v)]) = d ++ [(k, f v)].
Proof.
  induction d as [|[k' v'] d IH]; intros H; simpl.
  - rewrite String.eqb_refl. reflexivity.
  - rewrite dict_lookup_cons in H. destruct (String.eqb k' k); [discriminate|].
    f_equal. apply IH, H.
Qed.

Lemma dict_alter_ext_at (f g : V -> V) k (v : V) d :
  dict_lookup k d = Some v -> f v = g v ->
  dict_alter f k d = dict_alter g k d.
Proof.
  induction d as [|[k' v'] d IH]; intros H Hfg; simpl; [reflexivity|].
  rewrite dict_lookup_cons in H. destruct (String.eqb k' k).
  - injection H as ->. rewrite Hfg. reflexivity.
  - f_equal. apply IH; assumption.
Qed.

Lemma Forall_dict_alter (P : string * V -> Prop) (f : V -> V) k d :
  Forall P d -> (forall v, dict_lookup k d = Some v -> P (k, v) -> P (k, f v)) ->
  Forall P (dict_alter f k d).
Proof.
  intros H. induction H as [|[k' v'] d Hx Hd IH]; intros Hf; [constructor|].
  simpl. destruct (String.eqb k' k) eqn:E.
  - apply String.eqb_eq in E. subst k'. constructor; [|exact Hd].
    apply Hf; [|exact Hx]. rewrite dict_lookup_cons, String.eqb_refl. reflexivity.
  - constructor; [exact Hx|]. apply IH. intros v Hv. apply Hf.
    rewrite dict_lookup_cons, E. exact Hv.
Qed.

Lemma Forall_dict_lookup (P : string * V -> Prop) k (v : V) d :
  Forall P d -> dict_lookup k d = Some v -> P (k, v).
Proof.
  intros H. induction H as [|[k' v'] d Hx _ IH]; intros Hk; [discriminate|].
  rewrite dict_lookup_cons in Hk. destruct (String.eqb k' k) eqn:E.
  - apply String.eqb_eq in E. subst k'. injection Hk as <-. exact Hx.
  - apply IH, Hk.
Qed.
End Dict.

(** *** Membership as the program tests it *)

Lemma target_key_inr (a x : node) : target_key a = inr x -> x = a.
Proof. destruct a; cbn [target_key]; congruence. Qed.

(** Two targets are equal for the program exactly when they have the same
    key. *)
Lemma target_eq_key (a b : node) :
  target_eq a b = true <-> target_key a = target_key b.
Proof.
  destruct a;
    try (cbn [target_eq target_key]; rewrite bool_decide_eq_true; split;
         [ intros <-; reflexivity
         | intros H; symmetry in H; apply target_key_inr in H; symmetry; exact H ]).
  all: destruct b; cbn [target_eq target_key];
    rewrite ?bool_decide_eq_true, ?String.eqb_eq; split; congruence.
Qed.

Lemma target_eq_refl (a : node) : target_eq a a = true.
Proof. apply target_eq_key. reflexivity. Qed.

Lemma set_mem_key (t : node) (s : list node) :
  set_mem t s = true <-> target_key t ∈ map target_key s.
Proof.
  unfold set_mem. rewrite existsb_exists, list_elem_of_In, in_map_iff.
  split; intros (x & H1 & H2).
  - exists x. split; [symmetry; apply target_eq_key, H2 | exact H1].
  - exists x. split; [exact H2 | apply target_eq_key; symmetry; exact H1].
Qed.

Lemma set_mem_congr (t t' : node) (s : list node) :
  target_eq t t' = true -> set_mem t s = set_mem t' s.
Proof.
  intros H. apply target_eq_key in H. apply eq_true_iff_eq.
  rewrite !set_mem_key, H. reflexivity.
Qed.

Lemma set_mem_app (t : node) (s1 s2 : list node) :
  set_mem t (s1 ++ s2) = set_mem t s1 || set_mem t s2.
Proof. apply existsb_app. Qed.

Lemma set_mem_single (t t' : node) : set_mem t [t'] = target_eq t t'.
Proof. unfold set_mem. cbn [existsb]. apply orb_false_r. Qed.

(** A target that is in the list is a member for the program too. *)
Lemma set_mem_elem_of (t : node) (s : list node) : t ∈ s -> set_mem t s = true.
Proof.
  intros H. apply set_mem_key, list_elem_of_In, in_map, list_elem_of_In, H.
Qed.

Lemma find_snoc {A} (p : A -> bool) (l : list A) (x : A) :
  List.find p (l ++ [x])
  = match List.find p l with
    | Some y => Some y
    | None => if p x then Some x else None
    end.
Proof.
  induction l as [|y l IH]; [reflexivity|]. simpl.
  destruct (p y); [reflexivity | exact IH].
Qed.

Lemma filter_sub {A} (p q : A -> bool) (l : list A) :
  (forall x, p x = true -> q x = true) ->
  List.filter p l = List.filter p (List.filter q l).
Proof.
  intros H. induction l as [|x l IH]; [reflexivity|]. simpl.
  destruct (p x) eqn:Ep.
  - rewrite (H x Ep). simpl. rewrite Ep, IH. reflexivity.
  - destruct (q x); simpl; [rewrite Ep|]; exact IH.
Qed.

Section Registration.
Variable env : Env.

Lemma set_update_single (s : list node) (t : node) :
  set_update s [t] = if set_mem t s then s else s ++ [t].
Proof. reflexivity. Qed.

(** The state after [insert_new_import]: only [_additional_imports]
    changes, as [registered_in] says; the call never raises. *)
Lemma insert_new_import_state (source target : node) (alias : option string)
    (st : PrinterState) :
  insert_new_import env source target alias st
  = Ok (tt, {| _additional_imports :=
                 registered_in (str_source env source)
                   (aliased_target env target alias)
                   (Import source [aliased_target env target alias] None)
                   (_additional_imports st);
               _aliases := _aliases st;
               _ignore_funcs := _ignore_funcs st |}).
Proof.
  unfold insert_new_import, registered_in. do 3 f_equal.
  set (k := str_source env source). set (t := aliased_target env target alias).
  set (d := _additional_imports st).
  rewrite dict_setdefault_lookup. cbn [Import_target existsb fst snd].
  unfold dict_setdefault.
  destruct (dict_lookup k d) as [[s l]|] eqn:E;
    cbn [default from_option id fst snd].
  - rewrite orb_false_r. destruct (set_mem t s) eqn:Et; cbn [negb].
    + reflexivity.
    + apply (dict_alter_ext_at _ _ k (s, l)); [exact E|].
      cbn [fst snd]. rewrite set_update_single, Et. reflexivity.
  - rewrite dict_alter_app_new by exact E. reflexivity.
Qed.

Lemma register_state (r : registration) (st : PrinterState) :
  register env r st
  = {| _additional_imports :=
         registered_in (str_source env (fst (fst r)))
           (aliased_target env (snd (fst r)) (snd r))
           (import_of env r)
           (_additional_imports st);
       _aliases := _aliases st;
       _ignore_funcs := _ignore_funcs st |}.
Proof. unfold register, exec. rewrite insert_new_import_state. reflexivity. Qed.

(** A call of [insert_new_import] returns, with the printer of the
    registration. *)
Lemma insert_new_import_register (source target : node) (alias : option string)
    (st : PrinterState) :
  insert_new_import env source target alias st
  = Ok (tt, register env (source, target, alias) st).
Proof. rewrite insert_new_import_state, register_state. reflexivity. Qed.

(** The entry of a key after a registration. *)
Lemma lookup_registered_in (k k0 : string) (t0 i0 : node)
    (d : list (string * (list node * list node))) :
  dict_lookup k (registered_in k0 t0 i0 d)
  = if String.eqb k0 k then
      match dict_lookup k d with
      | None => Some ([t0], [i0])
      | Some (s, l) =>
          if set_mem t0 s then Some (s, l) else Some (s ++ [t0], l ++ [i0])
      end
    else dict_lookup k d.
Proof.
  unfold registered_in. destruct (String.eqb k0 k) eqn:E.
  - apply String.eqb_eq in E. subst k0.
    destruct (dict_lookup k d) as [[s l]|] eqn:El.
    + destruct (set_mem t0 s); [exact El|].
      rewrite dict_lookup_alter, El. reflexivity.
    + apply dict_lookup_app_new, El.
  - destruct (dict_lookup k0 d) as [[s l]|] eqn:El.
    + destruct (set_mem t0 s); [reflexivity|].
      apply dict_lookup_alter_ne. apply String.eqb_neq, E.
    + rewrite dict_lookup_app, dict_lookup_cons, E.
      destruct (dict_lookup k d); reflexivity.
Qed.

(** After a registration the symbol is, for the program, in the set of its
    source. *)
Lemma registered_in_lookup (k : string) (t i : node)
    (d : list (string * (list node * list node))) :
  exists s l, dict_lookup k (registered_in k t i d) = Some (s, l)
              /\ set_mem t s = true.
Proof.
  rewrite lookup_registered_in, String.eqb_refl.
  destruct (dict_lookup k d) as [[s l]|].
  - destruct (set_mem t s) eqn:Et.
    + exists s, l. split; [reflexivity | exact Et].
    + eexists _, _. split; [reflexivity|].
      rewrite set_mem_app, set_mem_single, target_eq_refl. apply orb_true_r.
  - eexists _, _. split; [reflexivity|].
    rewrite set_mem_single. apply target_eq_refl.
Qed.

(** Registering again changes nothing. *)
Lemma registered_in_idempotent (k : string) (t i : node)
    (d : list (string * (list node * list node))) :
  registered_in k t i (registered_in k t i d) = registered_in k t i d.
Proof.
  destruct (registered_in_lookup k t i d) as (s & l & Hl & Hin).
  unfold registered_in at 1. rewrite Hl, Hin. reflexivity.
Qed.

Lemma register_idempotent (r : registration) (st : PrinterState) :
  register env r (register env r st) = register env r st.
Proof.
  rewrite !register_state. cbn [_additional_imports _aliases _ignore_funcs].
  rewrite registered_in_idempotent. reflexivity.
Qed.

Lemma register_iter (r : registration) (st : PrinterState) (N : nat) :
  (1 <= N)%nat -> Nat.iter N (register env r) st = register env r st.
Proof.
  induction N as [|N IH]; intros H; [lia|].
  destruct N as [|N]; [reflexivity|].
  simpl in *. rewrite IH by lia. apply register_idempotent.
Qed.

Lemma register_all_snoc (regs : list registration) (r : registration) :
  register_all env (regs ++ [r]) = register env r (register_all env regs).
Proof. unfold register_all. rewrite foldl_app. reflexivity. Qed.

(** *** The invariant of the dictionary *)

Lemma entry_ok_new (src t : node) :
  entry_ok env (str_source env src, ([t], [Import src [t] None])).
Proof.
  split; cbn [fst snd map].
  - apply NoDup_singleton.
  - constructor; [eauto | constructor].
Qed.

Lemma entry_ok_add (src t : node) (s l : list node) :
  set_mem t s = false ->
  entry_ok env (str_source env src, (s, l)) ->
  entry_ok env (str_source env src, (s ++ [t], l ++ [Import src [t] None])).
Proof.
  intros Hnotin [Hnd Hl]. cbn [fst snd] in *. split; cbn [fst snd].
  - rewrite map_app. apply NoDup_app. split; [exact Hnd|]. split.
    + intros x Hx Hx'. apply list_elem_of_singleton in Hx'. subst x.
      apply set_mem_key in Hx. congruence.
    + apply NoDup_singleton.
  - apply Forall2_app; [exact Hl|]. constructor; [eauto | constructor].
Qed.

(** A registration keeps the invariant. *)
Lemma registered_in_ok (src t : node) (d : list (string * (list node * list node))) :
  imports_ok env d ->
  imports_ok env (registered_in (str_source env src) t (Import src [t] None) d).
Proof.
  intros [Hnd Hd]. unfold registered_in.
  destruct (dict_lookup (str_source env src) d) as [[s l]|] eqn:E.
  - destruct (set_mem t s) eqn:Et; [split; assumption|]. split.
    + rewrite dict_alter_keys. exact Hnd.
    + apply Forall_dict_alter; [exact Hd|]. intros [s' l'] Hv Hok.
      rewrite E in Hv. injection Hv as <- <-. cbn [fst snd].
      apply entry_ok_add; assumption.
  - split.
    + rewrite map_app. cbn [map fst]. apply NoDup_app. split; [exact Hnd|]. split.
      * intros x Hx Hx'. apply list_elem_of_singleton in Hx'. subst x.
        apply dict_lookup_None_keys in E. contradiction.
      * apply NoDup_singleton.
    + apply Forall_app. split; [exact Hd|]. constructor; [|constructor].
      apply entry_ok_new.
Qed.

Lemma register_ok (r : registration) (st : PrinterState) :
  imports_ok env (_additional_imports st) ->
  imports_ok env (_additional_imports (register env r st)).
Proof.
  intros H. rewrite register_state. cbn [_additional_imports].
  apply registered_in_ok, H.
Qed.

Lemma register_all_ok (regs : list registration) :
  imports_ok env (_additional_imports (register_all env regs)).
Proof.
  unfold register_all.
  assert (H : imports_ok env (_additional_imports PythonCodePrinter_init)).
  { split; simpl; constructor. }
  revert H. generalize PythonCodePrinter_init.
  induction regs as [|r regs IH]; intros st H; simpl; [exact H|].
  apply IH, register_ok, H.
Qed.

(** *** The statements for a source and a name *)

Lemma entry_ok_sources (k : string) (s l : list node) :
  entry_ok env (k, (s, l)) ->
  Forall (fun i => exists src t', i = Import src [t'] None
                                  /\ str_source env src = k) l.
Proof.
  intros [_ H]. cbn [fst snd] in H.
  induction H as [|t i s l (src & -> & Hsrc) _ IH]; constructor; eauto.
Qed.

Lemma filter_name_other (k k' : string) (t : node) (l : list node) :
  k' <> k ->
  Forall (fun i => exists src t', i = Import src [t'] None
                                  /\ str_source env src = k') l ->
  List.filter (imports_name env k t) l = [].
Proof.
  intros Hne H. induction H as [|i l (src & t' & -> & Hsrc) _ IH]; [reflexivity|].
  cbn [List.filter imports_name]. rewrite Hsrc.
  apply String.eqb_neq in Hne. rewrite Hne. exact IH.
Qed.

(** In an entry, the name of [t] has one statement if [t] is a member of
    the set for the program, and none otherwise. *)
Lemma filter_name_entry (k : string) (t : node) (s l : list node) :
  entry_ok env (k, (s, l)) ->
  length (List.filter (imports_name env k t) l)
  = if set_mem t s then 1%nat else 0%nat.
Proof.
  intros [Hnd H]. cbn [fst snd] in *.
  induction H as [|t1 i1 s l (src & -> & Hsrc) _ IH]; [reflexivity|].
  cbn [map] in Hnd. apply NoDup_cons in Hnd as [Hnotin Hnd].
  specialize (IH Hnd).
  cbn [List.filter imports_name]. rewrite Hsrc, String.eqb_refl, set_mem_single.
  change (set_mem t (t1 :: s)) with (target_eq t t1 || set_mem t s).
  cbn [andb]. destruct (target_eq t t1) eqn:E; cbn [orb length].
  - rewrite IH. rewrite (set_mem_congr t t1 s E).
    destruct (set_mem t1 s) eqn:E1; [|reflexivity].
    apply set_mem_key in E1. contradiction.
  - exact IH.
Qed.

(** The statements for a source and a name are those of the entry of the
    source. *)
Lemma filter_name_statements (k : string) (t : node)
    (d : list (string * (list node * list node))) :
  imports_ok env d ->
  List.filter (imports_name env k t) (statements d)
  = match dict_lookup k d with
    | Some (s, l) => List.filter (imports_name env k t) l
    | None => []
    end.
Proof.
  intros [Hnd H]. induction H as [|[k' [s' l']] d Hx Hd IH]; [reflexivity|].
  cbn [map fst] in Hnd. apply NoDup_cons in Hnd as [Hnotin Hnd].
  specialize (IH Hnd). unfold statements. cbn [map concat snd].
  fold (statements d). rewrite List.filter_app, IH, dict_lookup_cons.
  destruct (String.eqb k' k) eqn:E.
  - apply String.eqb_eq in E. subst k'.
    apply dict_lookup_None_keys in Hnotin. rewrite Hnotin. apply app_nil_r.
  - apply String.eqb_neq in E.
    rewrite (filter_name_other k k' t l' E (entry_ok_sources _ _ _ Hx)).
    reflexivity.
Qed.

Lemma length_0_nil {A} (l : list A) : length l = 0%nat -> l = [].
Proof. destruct l; [reflexivity | discriminate]. Qed.

(** What one registration does to the statements for a source and a name:
    it adds its statement if there was none and it is a registration for
    this source and name; otherwise it changes nothing. *)
Lemma filter_register (k : string) (t : node) (r : registration)
    (st : PrinterState) :
  imports_ok env (_additional_imports st) ->
  List.filter (imports_name env k t) (get_additional_imports (register env r st))
  = match List.filter (imports_name env k t) (get_additional_imports st) with
    | [] => if registers_name env k t r then [import_of env r] else []
    | l => l
    end.
Proof.
  intros Hok. pose proof (register_ok r st Hok) as Hok'.
  unfold get_additional_imports.
  fold (statements (_additional_imports (register env r st))).
  fold (statements (_additional_imports st)).
  rewrite !filter_name_statements by assumption.
  rewrite register_state. cbn [_additional_imports].
  rewrite lookup_registered_in.
  unfold registers_name, import_of.
  set (k0 := str_source env (fst (fst r))).
  set (t0 := aliased_target env (snd (fst r)) (snd r)).
  cbn [imports_name]. fold k0. rewrite set_mem_single.
  destruct (String.eqb k0 k) eqn:E; cbn [andb].
  2:{ destruct (dict_lookup k (_additional_imports st)) as [[s l]|];
        [destruct (List.filter _ l)|]; reflexivity. }
  apply String.eqb_eq in E.
  destruct (dict_lookup k (_additional_imports st)) as [[s l]|] eqn:El.
  - pose proof (Forall_dict_lookup _ _ _ _ (proj2 Hok) El) as He.
    pose proof (filter_name_entry k t s l He) as Hlen.
    destruct (set_mem t0 s) eqn:Et0.
    + destruct (target_eq t t0) eqn:Ett.
      * rewrite (set_mem_congr t t0 s Ett), Et0 in Hlen.
        destruct (List.filter _ l); [discriminate | reflexivity].
      * destruct (List.filter _ l); reflexivity.
    + rewrite List.filter_app. cbn [List.filter imports_name]. fold k0.
      rewrite E, String.eqb_refl, set_mem_single. cbn [andb].
      destruct (target_eq t t0) eqn:Ett.
      * rewrite (set_mem_congr t t0 s Ett), Et0 in Hlen.
        apply length_0_nil in Hlen. rewrite Hlen. reflexivity.
      * rewrite app_nil_r. destruct (List.filter _ l); reflexivity.
  - cbn [List.filter imports_name]. fold k0.
    rewrite E, String.eqb_refl, set_mem_single. cbn [andb].
    destruct (target_eq t t0); reflexivity.
Qed.

(** After any registrations, the statements for a source and a name are
    the statement of the first registration for them, if there is one. *)
Lemma filter_register_all (k : string) (t : node) (regs : list registration) :
  List.filter (imports_name env k t) (get_additional_imports (register_all env regs))
  = match List.find (registers_name env k t) regs with
    | Some r => [import_of env r]
    | None => []
    end.
Proof.
  induction regs as [|r regs IH] using rev_ind; [reflexivity|].
  rewrite register_all_snoc, filter_register by apply register_all_ok.
  rewrite IH, find_snoc.
  destruct (List.find (registers_name env k t) regs); [reflexivity|].
  destruct (registers_name env k t r); reflexivity.
Qed.

Lemma registers_name_self (r : registration) :
  registers_name env (str_source env (fst (fst r)))
    (aliased_target env (snd (fst r)) (snd r)) r = true.
Proof.
  unfold registers_name, import_of. cbn [imports_name].
  rewrite String.eqb_refl, set_mem_single, target_eq_refl. reflexivity.
Qed.

(** Under the invariant at most one statement imports a name from a
    source. *)
Lemma count_names_le (k : string) (t : node)
    (d : list (string * (list node * list node))) :
  imports_ok env d ->
  (length (List.filter (imports_name env k t) (statements d)) <= 1)%nat.
Proof.
  intros Hok. rewrite filter_name_statements by exact Hok.
  destruct (dict_lookup k d) as [[s l]|] eqn:El; [|simpl; lia].
  rewrite (filter_name_entry k t s l (Forall_dict_lookup _ _ _ _ (proj2 Hok) El)).
  destruct (set_mem t s); lia.
Qed.

(** After a registration from a state that satisfies the invariant, one
    statement imports the name of the symbol from its source. *)
Lemma register_count_names (r : registration) (st : PrinterState) :
  imports_ok env (_additional_imports st) ->
  count_import_names env (str_source env (fst (fst r)))
    (aliased_target env (snd (fst r)) (snd r)) (register env r st) = 1%nat.
Proof.
  intros Hok. unfold count_import_names. rewrite filter_register by exact Hok.
  pose proof (count_names_le (str_source env (fst (fst r)))
                (aliased_target env (snd (fst r)) (snd r)) _ Hok) as Hle.
  unfold get_additional_imports. fold (statements (_additional_imports st)).
  destruct (List.filter _ (statements (_additional_imports st))) as [|x [|y l]].
  - rewrite registers_name_self. reflexivity.
  - reflexivity.
  - simpl in Hle. lia.
Qed.

(** A statement that imports the symbol itself imports its name. *)
Lemma imports_symbol_name (k : string) (t i : node) :
  imports_symbol env k t i = true -> imports_name env k t i = true.
Proof.
  destruct i; cbn [imports_symbol imports_name]; try discriminate.
  intros H. apply andb_true_iff in H as [-> H]. apply bool_decide_eq_true in H.
  apply set_mem_elem_of, H.
Qed.

End Registration.

(** C5: after any earlier registrations, registering one import N >= 1 times
    leaves the printer as one registration does (the later ones change
    nothing).  The collected additional imports then hold exactly one
    statement for the source and the name under which the symbol is
    imported: the statement of the first registration, among the earlier
    ones and this one, for this source and name.  The symbol itself is
    imported by this one statement if that registration was of the same
    symbol, and by no statement otherwise. *)
Theorem insert_new_import_idempotent (env : Env) (regs : list registration)
    (source target : node) (alias : option string) (N : nat) :
  (1 <= N)%nat ->
  let st := register_all env regs in
  let r : registration := (source, target, alias) in
  let once := register env r st in
  let st_N := Nat.iter N (register env r) st in
  let k := str_source env source in
  let t := aliased_target env target alias in
  st_N = once
  /\ insert_new_import env source target alias once = Ok (tt, once)
  /\ count_import_names env k t st_N = 1%nat
  /\ exists r0,
       List.find (registers_name env k t) (regs ++ [r]) = Some r0
       /\ List.filter (imports_name env k t) (get_additional_imports st_N)
          = [import_of env r0]
       /\ count_import_statements env k t st_N
          = if bool_decide (aliased_target env (snd (fst r0)) (snd r0) = t)
            then 1%nat else 0%nat.
Proof.
  intros HN st r once st_N k t. unfold st_N.
  rewrite (register_iter env r st N HN). fold once.
  split; [reflexivity|]. split.
  { rewrite insert_new_import_state. unfold once.
    rewrite register_state. cbn [_additional_imports _aliases _ignore_funcs].
    unfold r at 1 2 3 4. cbn [fst snd]. unfold import_of. cbn [fst snd].
    rewrite registered_in_idempotent. reflexivity. }
  assert (Hf : exists r0,
             List.find (registers_name env k t) (regs ++ [r]) = Some r0).
  { rewrite find_snoc. destruct (List.find _ regs); [eauto|].
    pose proof (registers_name_self env r) as Hr. cbn [fst snd r] in Hr.
    fold k t in Hr. rewrite Hr. eauto. }
  destruct Hf as [r0 Hf].
  assert (HF : List.filter (imports_name env k t) (get_additional_imports once)
               = [import_of env r0]).
  { pose proof (filter_register_all env k t (regs ++ [r])) as HH.
    rewrite Hf, register_all_snoc in HH. exact HH. }
  split; [unfold count_import_names; rewrite HF; reflexivity|].
  exists r0. split; [exact Hf|]. split; [exact HF|].
  unfold count_import_statements.
  rewrite (filter_sub _ (imports_name env k t) _ (imports_symbol_name env k t)), HF.
  apply List.find_some in Hf as [_ Hr0]. unfold registers_name, import_of in Hr0.
  cbn [imports_name] in Hr0. apply andb_true_iff in Hr0 as [Hk _].
  unfold import_of. cbn [List.filter imports_symbol]. rewrite Hk. cbn [andb].
  destruct (decide (aliased_target env (snd (fst r0)) (snd r0) = t)) as [E|E].
  - rewrite E, !bool_decide_eq_true_2; [reflexivity | reflexivity | left].
  - rewrite !bool_decide_eq_false_2; [reflexivity | exact E |].
    intros H. apply list_elem_of_singleton in H. congruence.
Qed.

End ImportFacts.

(** ** Comprehension lowering *)
Module LoweringFacts.
Import PyCode PyCodeMore.

Section Lowering.
Variable env : Env.

(** The inner loop never needs more iterations than the block has
    statements. *)
Lemma pop_functional_fors_total (n : nat) (body : list node) :
  (length body <= n)%nat -> pop_functional_fors env n body <> OutOfFuel.
Proof.
  revert body. induction n as [|n IH]; intros body Hlen.
  - destruct body; [discriminate | simpl in Hlen; lia].
  - destruct body as [|b rest]; [discriminate|].
    destruct b; simpl; try discriminate.
    apply IH. rewrite length_map. simpl in Hlen. lia.
Qed.


(** What it returns does not start with a comprehension. *)
Lemma pop_functional_fors_head (n : nat) (body : list node) (b0 : node)
    (rest : list node) :
  pop_functional_fors env n body = Ok (b0 :: rest) ->
  forall kind loops e lhs indices index,
    b0 <> FunctionalFor kind loops e lhs indices index.
Proof.
  revert body. induction n as [|n IH]; intros body H.
  - destruct body as [|b r]; [discriminate|].
    destruct b; simpl in H; try discriminate; injection H as <- <-; discriminate.
  - destruct body as [|b r]; [discriminate|].
    destruct b; simpl in H; try (injection H as <- <-; discriminate).
    exact (IH _ H).
Qed.





(** The descent through a nest of loops around a node that is not a
    comprehension: two iterations for each loop. *)
Lemma find_loop_nest_descent (clauses : list (list node * node)) :
  forall dummy_var terminal iterables fuel,
    match terminal with FunctionalFor _ _ _ _ _ _ => False | _ => True end ->
    find_loop env (2 * length clauses + fuel) dummy_var
      (loop_nest clauses terminal) iterables
    = find_loop env fuel dummy_var terminal (iterables ++ map snd clauses).
Proof.
  induction clauses as [|[target iterable] clauses IH];
    intros dummy_var terminal iterables fuel Ht.
  - simpl. rewrite app_nil_r. reflexivity.
  - replace (2 * length ((target, iterable) :: clauses) + fuel)%nat
      with (S (S (2 * length clauses + fuel))) by (simpl; lia).
    change (loop_nest ((target, iterable) :: clauses) terminal)
      with (For target iterable (CodeBlock [loop_nest clauses terminal])).
    assert (Hstep : forall f its,
              find_loop env (S (S f)) dummy_var
                (For target iterable (CodeBlock [loop_nest clauses terminal])) its
              = find_loop env f dummy_var (loop_nest clauses terminal)
                  (its ++ [iterable])).
    { intros f its. destruct clauses as [|[t i] cs]; [|reflexivity].
      destruct terminal; try contradiction; reflexivity. }
    rewrite Hstep, IH by exact Ht. simpl. rewrite <- app_assoc. reflexivity.
Qed.


(** C3: the lowering of the two-level comprehension over [i] in
    [range(0, n)] and [j] in [range(0, m)] returns the terminal assignment,
    whose right-hand side is the element expression [x*x], and the
    iterables [range(0, n)], [range(0, m)] from the outer to the inner
    loop; [_print_FunctionalFor] pairs them in this order with the indices
    [i], [j], and prints the comprehension with its clauses in this order. *)
Theorem lowering_two_level (kind : FunctionalKind) (pre e lhs i j n m x acc : node)
    (extra_fuel : nat) :
  _find_functional_expr_and_iterables env (4 + extra_fuel)
    (two_level_comprehension kind pre e lhs i j n m x acc)
  = Ok (Assign acc (square x), [range_0 n; range_0 m])
  /\ Assign_rhs (Assign acc (square x)) = Ok (square x)
  /\ zip_indices [i; j] [range_0 n; range_0 m] = [(i, range_0 n); (j, range_0 m)]
  /\ _print env (8 + extra_fuel)
       (two_level_comprehension kind Pass (sym "e") (sym "lhs") (sym "i") (sym "j")
          (sym "n") (sym "m") (sym "x") (sym "acc"))
       PythonCodePrinter_init
     = Ok ("lhs = array([x * x for i in range(0, n, 1) for j in range(0, m, 1)])" +:+ nl,
           register env (sym "numpy", AsName (ClassRef "NumpyArray" "array") "array", None)
                    PythonCodePrinter_init).
Proof.
  split; [destruct extra_fuel; reflexivity|].
  split; [reflexivity|]. split; [reflexivity|].
  destruct kind, extra_fuel; reflexivity.
Qed.

End Lowering.
End LoweringFacts.

(** ** Printing rules *)
Module PrinterFacts.
Import PyCode.
#[local] Open Scope printer_scope.

Lemma bind_Ok {A B} (m : M A) (k : A -> M B) (st st' : PrinterState) (a : A) :
  m st = Ok (a, st') -> bind m k st = k a st'.
Proof. unfold bind. intros ->. reflexivity. Qed.


Ltac run H := rewrite (bind_Ok _ _ _ _ _ H).

Section Rules.
Variable env : Env.
Variable _print : node -> M string.

(** *** Precision *)

(** With the default precision, [_print_PythonInt] and [_print_PythonFloat]
    print the native name and register no import. *)
Lemma print_cast_default (native cls cname : string) (arg : node)
    (st st' : PrinterState) (a : string) :
  _print arg st = Ok (a, st') ->
  print_cast env _print native cls cname (-1) arg st
  = Ok (native +:+ "(" +:+ a +:+ ")", st').
Proof. intros H. unfold print_cast. simpl. unfold bind, ret. rewrite H. reflexivity. Qed.

(** With the default precision, [_print_NumpyComplex] prints [complex]. *)
Lemma _print_NumpyComplex_default (cls cname : string) (internal_var : node)
    (st st' : PrinterState) (a : string) :
  _print internal_var st = Ok (a, st') ->
  _print_NumpyComplex env _print cls cname (-1) (inl internal_var) st
  = Ok ("complex(" +:+ a +:+ ")", st').
Proof.
  intros H. unfold _print_NumpyComplex. simpl. unfold bind, ret. rewrite H.
  reflexivity.
Qed.

(** With the default precision, [_print_Literal] prints the bare value. *)
Lemma _print_Literal_default (expr : node) (value : string) (dtype : datatype)
    (st : PrinterState) :
  Literal_parts env expr = Some (value, (-1)%Z, dtype) ->
  _print_Literal env expr st = Ok (value, st).
Proof.
  intros H. unfold _print_Literal. rewrite H. simpl. rewrite orb_true_r.
  reflexivity.
Qed.

(** [_print_NumpyLinspace] appends the width computed from the precision,
    whatever the precision is. *)
Lemma _print_NumpyLinspace_suffix (cls cname : string) (dtype : datatype)
    (precision : Z) (start stop num endpoint : node) (d a b n e : string)
    (st0 st1 st2 st3 st4 st5 : PrinterState) :
  aliases_get cls cname st0 = Ok (cname, st0) ->
  _print (NativeType dtype) st0 = Ok (d, st1) ->
  _print start st1 = Ok (a, st2) ->
  _print stop st2 = Ok (b, st3) ->
  _print num st3 = Ok (n, st4) ->
  _print endpoint st4 = Ok (e, st5) ->
  _print_NumpyLinspace _print cls cname dtype precision start stop num endpoint st0
  = Ok (cname +:+ "(" +:+ a +:+ ", " +:+ b +:+ ", num=" +:+ n +:+ ", endpoint="
        +:+ e +:+ ", dtype='" +:+ (d +:+ str_Z (precision * factor d)) +:+ "')",
        st5).
Proof.
  intros H0 H1 H2 H3 H4 H5. unfold _print_NumpyLinspace.
  run H0. run H1. run H2. run H3. run H4. run H5. reflexivity.
Qed.


(** *** Order of the parts of a definition *)



End Rules.




End PrinterFacts.

(** ** Strings *)
Module StringFacts.
Import PyCode.

Lemma string_app_cons (x : ascii) (a b : string) :
  String x a +:+ b = String x (a +:+ b).
Proof. reflexivity. Qed.


Lemma string_app_nil_r (a : string) : a +:+ "" = a.
Proof.
  induction a as [|x a IH]; [reflexivity|].
  rewrite string_app_cons, IH. reflexivity.
Qed.

Lemma string_app_assoc (a b c : string) : (a +:+ b) +:+ c = a +:+ (b +:+ c).
Proof.
  induction a as [|x a IH]; [reflexivity|].
  rewrite !string_app_cons, IH. reflexivity.
Qed.

Lemma join_nil (sep : string) : join sep [] = "".
Proof. reflexivity. Qed.

Lemma join_singleton (sep x : string) : join sep [x] = x.
Proof. reflexivity. Qed.

Lemma join_cons2 (sep x y : string) (l : list string) :
  join sep (x :: y :: l) = x +:+ sep +:+ join sep (y :: l).
Proof. reflexivity. Qed.

Lemma join_empty_cons (x : string) (l : list string) :
  join "" (x :: l) = x +:+ join "" l.
Proof.
  destruct l as [|y l].
  - rewrite join_singleton, join_nil, string_app_nil_r. reflexivity.
  - rewrite join_cons2. reflexivity.
Qed.

Lemma join_empty_app (l1 l2 : list string) :
  join "" (l1 ++ l2) = join "" l1 +:+ join "" l2.
Proof.
  induction l1 as [|x l1 IH]; [reflexivity|].
  rewrite <- app_comm_cons, !join_empty_cons, IH, string_app_assoc. reflexivity.
Qed.

Lemma join_cons_char (sep : string) (c : ascii) (w : string) (ws : list string) :
  join sep (String c w :: ws) = String c (join sep (w :: ws)).
Proof. destruct ws; reflexivity. Qed.

End StringFacts.

(** ** [symbols] *)
Module SymbolsFacts.
Import Symbols StringFacts.

Lemma split_comma_nonempty (s : string) : exists w ws, split_comma s = w :: ws.
Proof.
  induction s as [|c s (w & ws & IH)]; simpl; [eauto|].
  destruct (is_comma c); [eauto|]. rewrite IH. eauto.
Qed.

Lemma split_comma_length (s : string) :
  length (split_comma s) = S (count_commas s).
Proof.
  induction s as [|c s IH]; [reflexivity|]. simpl.
  destruct (is_comma c); simpl; [rewrite IH; reflexivity|].
  destruct (split_comma_nonempty s) as (w & ws & E). rewrite E in *. exact IH.
Qed.

Lemma split_comma_all_chars (p : ascii -> bool) (s : string) :
  all_chars p s = true ->
  Forall (fun w => all_chars p w = true) (split_comma s).
Proof.
  induction s as [|c s IH]; simpl; intros H.
  - constructor; [reflexivity | constructor].
  - apply andb_true_iff in H as [Hc Hs]. specialize (IH Hs).
    destruct (is_comma c); [constructor; [reflexivity | exact IH]|].
    destruct (split_comma s) as [|w ws]; [constructor; [simpl; rewrite Hc; reflexivity | constructor]|].
    inversion IH; subst. constructor; [simpl; rewrite Hc; assumption | assumption].
Qed.

Lemma split_comma_no_comma (s : string) :
  Forall (fun w => all_chars (fun c => negb (is_comma c)) w = true) (split_comma s).
Proof.
  induction s as [|c s IH]; simpl.
  - constructor; [reflexivity | constructor].
  - destruct (is_comma c) eqn:E; [constructor; [reflexivity | exact IH]|].
    destruct (split_comma s) as [|w ws].
    + constructor; [simpl; rewrite E; reflexivity | constructor].
    + inversion IH; subst. constructor; [simpl; rewrite E; assumption | assumption].
Qed.

Lemma all_chars_lstrip (p : ascii -> bool) (s : string) :
  all_chars p s = true -> all_chars p (lstrip s) = true.
Proof.
  induction s as [|c s IH]; [reflexivity|]. simpl. intros H.
  destruct (isspace c); [|exact H].
  apply andb_true_iff in H as [_ H]. apply IH, H.
Qed.

Lemma all_chars_rstrip (p : ascii -> bool) (s : string) :
  all_chars p s = true -> all_chars p (rstrip s) = true.
Proof.
  induction s as [|c s IH]; [reflexivity|]. simpl. intros H.
  apply andb_true_iff in H as [Hc Hs]. specialize (IH Hs).
  destruct (rstrip s) as [|d r].
  - destruct (isspace c); [reflexivity | simpl; rewrite Hc; reflexivity].
  - simpl in *. rewrite Hc. exact IH.
Qed.

Lemma lstrip_first (s : string) (c : ascii) :
  first_char (lstrip s) = Some c -> isspace c = false.
Proof.
  induction s as [|d s IH]; [discriminate|]. simpl.
  destruct (isspace d) eqn:E; [exact IH|].
  simpl. intros H. injection H as <-. exact E.
Qed.

Lemma rstrip_first (s : string) (c : ascii) :
  first_char (rstrip s) = Some c -> first_char s = Some c.
Proof.
  destruct s as [|d s]; [discriminate|]. simpl.
  destruct (rstrip s); [destruct (isspace d); [discriminate|]|]; exact id.
Qed.

Lemma rstrip_last (s : string) (c : ascii) :
  last_char (rstrip s) = Some c -> isspace c = false.
Proof.
  induction s as [|d s IH]; [discriminate|]. simpl.
  destruct (rstrip s) as [|e r].
  - destruct (isspace d) eqn:E; [discriminate|].
    simpl. intros H. injection H as <-. exact E.
  - exact IH.
Qed.

(** X1: [symbols(names)] returns one symbol for each field that the commas
    of [names] separate (one more than there are commas, so one empty
    symbol for the empty text); no symbol contains a comma, and none starts
    or ends with a whitespace character. *)
Theorem symbols_fields (names : string) :
  length (symbols names) = S (count_commas names)
  /\ Forall (fun n =>
               all_chars (fun c => negb (is_comma c)) n = true
               /\ (forall c, first_char n = Some c -> isspace c = false)
               /\ (forall c, last_char n = Some c -> isspace c = false))
            (symbols names).
Proof.
  unfold symbols. split.
  - rewrite length_map. apply split_comma_length.
  - apply Forall_map. eapply Forall_impl; [apply split_comma_no_comma|].
    intros w Hw. simpl. unfold strip. split; [|split].
    + apply all_chars_rstrip, all_chars_lstrip, Hw.
    + intros c H. apply rstrip_first in H. apply lstrip_first in H. exact H.
    + intros c H. apply rstrip_last in H. exact H.
Qed.

Lemma strip_no_space (s : string) :
  all_chars (fun c => negb (isspace c)) s = true -> strip s = s.
Proof.
  intros H. unfold strip.
  assert (Hl : lstrip s = s).
  { destruct s as [|c s]; [reflexivity|]. simpl in *.
    apply andb_true_iff in H as [Hc _]. apply negb_true_iff in Hc.
    rewrite Hc. reflexivity. }
  rewrite Hl. clear Hl. induction s as [|c s IH]; [reflexivity|].
  simpl in *. apply andb_true_iff in H as [Hc Hs]. apply negb_true_iff in Hc.
  rewrite (IH Hs). destruct s; [rewrite Hc|]; reflexivity.
Qed.

Lemma is_comma_eq (c : ascii) : is_comma c = true -> c = ","%char.
Proof. apply Ascii.eqb_eq. Qed.

Lemma join_split_comma (s : string) : PyCode.join "," (split_comma s) = s.
Proof.
  induction s as [|c s IH]; [reflexivity|]. simpl.
  destruct (split_comma_nonempty s) as (w & ws & E). rewrite E in *.
  destruct (is_comma c) eqn:Ec.
  - apply is_comma_eq in Ec. subst c. rewrite join_cons2, IH. reflexivity.
  - rewrite join_cons_char, IH. reflexivity.
Qed.

Lemma all_chars_weaken (p q : ascii -> bool) (s : string) :
  (forall c, p c = true -> q c = true) ->
  all_chars p s = true -> all_chars q s = true.
Proof.
  intros Hpq. induction s as [|c s IH]; [reflexivity|]. simpl.
  rewrite !andb_true_iff. intros [Hc Hs]. split; [apply Hpq, Hc | apply IH, Hs].
Qed.

(** X2: on an ASCII text without whitespace, joining the symbols with
    commas gives the text back. *)
Theorem symbols_join (names : string) :
  all_chars (fun c => is_ascii c && negb (isspace c)) names = true ->
  PyCode.join "," (symbols names) = names.
Proof.
  intros H0. unfold symbols.
  assert (H : all_chars (fun c => negb (isspace c)) names = true).
  { revert H0. apply all_chars_weaken. intros c Hc.
    apply andb_true_iff in Hc as [_ Hc]. exact Hc. }
  assert (E : map strip (split_comma names) = split_comma names).
  { pose proof (split_comma_all_chars _ names H) as HF.
    induction HF as [|w ws Hw _ IH]; [reflexivity|]. simpl.
    rewrite (strip_no_space w Hw). f_equal. exact IH. }
  rewrite E. apply join_split_comma.
Qed.

Lemma symbols_join_witness : PyCode.join "," (symbols "x,y,z") = "x,y,z".
Proof. apply (symbols_join "x,y,z"). reflexivity. Defined.

(** The example of the doc string, with blanks after the commas. *)
Example symbols_xyz : symbols "x, y,z " = ["x"; "y"; "z"].
Proof. reflexivity. Qed.

Example symbols_empty : symbols "" = [""].
Proof. reflexivity. Qed.

End SymbolsFacts.

(** ** Directives *)
Module DirectiveFacts.
Import PyCode OpenMP Symbols StringFacts.

(** *** White space at the ends of an argument *)









(** *** The reader keeps its clauses well formed *)






(** *** Reading a text in the spelling of the printer *)
















(** *** Visiting and printing *)












(** The arguments of a clause are printed with a comma and a blank
    between them, and an end clause as it is read. *)
Example directive_arguments :
  parse_omp omp_4_5 false
    "#$ omp parallel  for private(i,j)  schedule( static , 4 )" []
  = (Ok (Some (OmpAnnotatedComment "parallel" (Some "for")
                 " private(i, j) schedule(static, 4)")), [])
  /\ parse_omp omp_4_5 false "#$ omp end parallel for" []
     = (Ok (Some (Omp_End_Clause "end parallel for")), []).
Proof. split; reflexivity. Qed.

(** A clause that the version does not have is a violation. *)
Example directive_unknown_clause :
  parse_omp omp_4_5 false "#$ omp parallel foo(i)" []
  = (Ok None, [{| message := "Unknown clause foo"; error_severity := fatal;
                  symbol := "#$ omp parallel foo(i)" |}]).
Proof. reflexivity. Qed.

(** C7: when the grammar rejects the text of a directive comment (the
    parser raises [TextXError]), [parse] adds to the collector one fatal
    diagnostic with the parser's message and, as its symbol, the text of
    the comment as it stands; it then returns [None] or is left by the
    abort of the report, and in neither case gives a node. *)
Theorem parse_reports_grammar_violation (Statement : Type)
    (model_from_str : string -> result (list Statement))
    (_visit : Statement -> Errors -> result node * Errors)
    (fatal_raises : bool) (stmt msg : string) (errors : Errors) :
  model_from_str stmt = Raise (TextXError msg) ->
  snd (parse Statement model_from_str _visit fatal_raises stmt errors)
  = errors ++ [{| message := msg; error_severity := fatal; symbol := stmt |}]
  /\ fst (parse Statement model_from_str _visit fatal_raises stmt errors)
     = (if fatal_raises then Raise (FatalError msg) else Ok None)
  /\ forall n, fst (parse Statement model_from_str _visit fatal_raises stmt errors)
               <> Ok (Some n).
Proof.
  intros H. unfold parse, parse_try. rewrite H. unfold report.
  destruct fatal_raises; simpl; repeat split; discriminate.
Qed.

Lemma parse_reports_grammar_violation_witness :
  snd (parse (list Clause) (parse_directive omp_4_5) (visit_directive omp_4_5)
             false "#$ omp paralel for" [])
  = [] ++ [{| message := "Unknown construct paralel"; error_severity := fatal;
              symbol := "#$ omp paralel for" |}]
  /\ fst (parse (list Clause) (parse_directive omp_4_5) (visit_directive omp_4_5)
                false "#$ omp paralel for" [])
     = (if false then Raise (FatalError "Unknown construct paralel") else Ok None)
  /\ forall n, fst (parse (list Clause) (parse_directive omp_4_5)
                          (visit_directive omp_4_5)
                          false "#$ omp paralel for" [])
               <> Ok (Some n).
Proof.
  apply (parse_reports_grammar_violation (list Clause) (parse_directive omp_4_5)
           (visit_directive omp_4_5) false "#$ omp paralel for"
           "Unknown construct paralel" []).
  reflexivity.
Defined.

(** A [TextXError] raised while visiting the statement is reported in the
    same way. *)
Lemma parse_reports_visit_error (Statement : Type)
    (model_from_str : string -> result (list Statement))
    (_visit : Statement -> Errors -> result node * Errors)
    (stmt msg : string) (errors errors' : Errors) (statement : Statement) :
  model_from_str stmt = Ok [statement] ->
  _visit statement errors = (Raise (TextXError msg), errors') ->
  parse Statement model_from_str _visit false stmt errors
  = (Ok None, errors' ++ [{| message := msg; error_severity := fatal;
                             symbol := stmt |}]).
Proof. intros H1 H2. unfold parse, parse_try. rewrite H1. simpl. rewrite H2. reflexivity. Qed.

(** A text with several statements fails the assertion, which [parse]
    does not catch. *)
Lemma parse_assertion (Statement : Type)
    (model_from_str : string -> result (list Statement))
    (_visit : Statement -> Errors -> result node * Errors)
    (fatal_raises : bool) (stmt : string) (errors : Errors)
    (s1 s2 : Statement) (rest : list Statement) :
  model_from_str stmt = Ok (s1 :: s2 :: rest) ->
  parse Statement model_from_str _visit fatal_raises stmt errors
  = (Raise AssertionError, errors).
Proof. intros H. unfold parse, parse_try. rewrite H. reflexivity. Qed.

End DirectiveFacts.

(** ** The rules on the example nodes *)
Module ExampleFacts.
Import PyCode.


(** In a module the imports do come first. *)
Example Module_imports_first :
  pycode env0 5 module_m = Ok ("import math" +:+ nl +:+ nl +:+ nested_g_code)
  /\ appears_before "import math" "def g"
       ("import math" +:+ nl +:+ nl +:+ nested_g_code).
Proof.
  split; [reflexivity|]. exists 0%nat, 13%nat. repeat split. vm_compute. lia.
Qed.


(** C2, the failing input: a [linspace] whose precision is the default one
    is printed with the width computed from [-1], for every element kind,
    where the cast rules print the bare native name. *)
Theorem NumpyLinspace_default_precision_suffix :
  pycode env0 3 (default_linspace NativeFloat)
  = Ok "linspace(a, b, num=n, endpoint=True, dtype='float-8')"
  /\ pycode env0 3 (default_linspace NativeInteger)
     = Ok "linspace(a, b, num=n, endpoint=True, dtype='int-8')"
  /\ pycode env0 3 (default_linspace NativeComplex)
     = Ok "linspace(a, b, num=n, endpoint=True, dtype='complex-16')"
  /\ pycode env0 3 (default_linspace NativeBool)
     = Ok "linspace(a, b, num=n, endpoint=True, dtype='bool-8')"
  /\ pycode env0 3 (PythonInt "PythonInt" "int" (-1) (sym "a")) = Ok "int(a)"
  /\ pycode env0 3 (PythonFloat "PythonFloat" "float" (-1) (sym "a")) = Ok "float(a)".
Proof. repeat split; reflexivity. Qed.

(** With another precision the cast rules print the width. *)
Example PythonInt_explicit_precision :
  pycode env0 3 (PythonInt "NumpyInt32" "int32" 4 (sym "a")) = Ok "int32(a)".
Proof. reflexivity. Qed.


(** A statement that assigns to another variable after the first one is
    refused; without it the lowering goes on with the first statement,
    into which the nested comprehension has been substituted. *)
Example find_loop_extra_statement :
  find_loop env0 1 (sym "acc") (CodeBlock block_with_extra) []
  = Raise (NotImplementedError unnecessary_statements)
  /\ find_loop env0 1 (sym "acc") (CodeBlock block_with_nested) []
     = Ok (Assign (sym "acc") inner_comprehension, []).
Proof. split; reflexivity. Qed.

Lemma insert_new_import_idempotent_witness :
  Nat.iter 3 (register env0 numpy_array) (register_all env0 [int32_as_x])
  = register env0 numpy_array (register_all env0 [int32_as_x])
  /\ insert_new_import env0 (sym "numpy")
       (AsName (ClassRef "NumpyArray" "array") "array") None
       (register env0 numpy_array (register_all env0 [int32_as_x]))
     = Ok (tt, register env0 numpy_array (register_all env0 [int32_as_x]))
  /\ count_import_names env0 (str_source env0 (sym "numpy"))
       (aliased_target env0 (AsName (ClassRef "NumpyArray" "array") "array") None)
       (Nat.iter 3 (register env0 numpy_array) (register_all env0 [int32_as_x]))
     = 1%nat
  /\ exists r0,
       List.find
         (registers_name env0 (str_source env0 (sym "numpy"))
            (aliased_target env0 (AsName (ClassRef "NumpyArray" "array") "array")
               None))
         ([int32_as_x] ++ [numpy_array]) = Some r0
       /\ List.filter
            (imports_name env0 (str_source env0 (sym "numpy"))
               (aliased_target env0
                  (AsName (ClassRef "NumpyArray" "array") "array") None))
            (get_additional_imports
               (Nat.iter 3 (register env0 numpy_array)
                  (register_all env0 [int32_as_x])))
          = [import_of env0 r0]
       /\ count_import_statements env0 (str_source env0 (sym "numpy"))
            (aliased_target env0 (AsName (ClassRef "NumpyArray" "array") "array")
               None)
            (Nat.iter 3 (register env0 numpy_array)
               (register_all env0 [int32_as_x]))
          = if bool_decide
                 (aliased_target env0 (snd (fst r0)) (snd r0)
                  = aliased_target env0
                      (AsName (ClassRef "NumpyArray" "array") "array") None)
            then 1%nat else 0%nat.
Proof.
  apply (ImportFacts.insert_new_import_idempotent env0 [int32_as_x] (sym "numpy")
           (AsName (ClassRef "NumpyArray" "array") "array") None 3).
  lia.
Defined.

(** C5, counterexample: once [int32] has been registered from [numpy]
    under the alias [x], registering [int64] from [numpy] under the same
    alias three times adds nothing: the collected imports hold the
    statement for [int32] and no statement for [int64]. *)
Lemma insert_new_import_alias_taken :
  get_additional_imports
    (Nat.iter 3 (register env0 int64_as_x) (register_all env0 [int32_as_x]))
  = [Import (sym "numpy") [AsName (ClassRef "NumpyInt32" "int32") "x"] None]
  /\ count_import_statements env0 "numpy"
       (AsName (ClassRef "NumpyInt64" "int64") "x")
       (Nat.iter 3 (register env0 int64_as_x) (register_all env0 [int32_as_x]))
     = 0%nat.
Proof. split; vm_compute; reflexivity. Qed.

(** Two registrations of one symbol and one of another give two
    statements. *)
Example two_symbols :
  get_additional_imports
    (register_all env0
       [numpy_array;
        (sym "numpy", AsName (ClassRef "NumpyInt32" "int32") "int32", None);
        numpy_array])
  = [Import (sym "numpy") [AsName (ClassRef "NumpyArray" "array") "array"] None;
     Import (sym "numpy") [AsName (ClassRef "NumpyInt32" "int32") "int32"] None].
Proof. vm_compute. reflexivity. Qed.


(** The node is printed as a call, here [shape(a, i)]. *)
Example PyccelArraySize_call_form :
  pycode env0 2
    (PyccelInternalFunction "PyccelArraySize" "shape" [sym "a"; sym "i"])
  = Ok "shape(a, i)".
Proof. reflexivity. Qed.

End ExampleFacts.

(** * Further properties *)

(** ** Indentation *)
Module IndentFacts.
Import PyCode PyCodeMore StringFacts.

Lemma split_nl_nonempty (s : string) : exists w ws, split_nl s = w :: ws.
Proof.
  induction s as [|c s (w & ws & IH)]; simpl; [eauto|].
  destruct (is_nl c); [eauto|]. rewrite IH. eauto.
Qed.

Lemma is_nl_eq (c : ascii) : is_nl c = true -> String c "" = nl.
Proof. intros H. apply Ascii.eqb_eq in H. subst c. reflexivity. Qed.

Lemma indented_line_eq (w : string) : indented_line w = tab +:+ w +:+ nl.
Proof. reflexivity. Qed.

(** The text after the replacement, closed by a newline, line by line. *)
Lemma replace_nl_lines (s : string) :
  replace_nl (nl +:+ tab) s +:+ nl
  = match split_nl s with
    | w :: ws => w +:+ nl +:+ join "" (map indented_line ws)
    | [] => nl
    end.
Proof.
  induction s as [|c s IH]; [reflexivity|]. simpl.
  destruct (split_nl_nonempty s) as (w & ws & E). rewrite E in *.
  destruct (is_nl c) eqn:Ec.
  - rewrite string_app_assoc, IH.
    change (map indented_line (w :: ws)) with (indented_line w :: map indented_line ws).
    rewrite join_empty_cons, (indented_line_eq w), !string_app_assoc.
    reflexivity.
  - rewrite string_app_cons, IH. reflexivity.
Qed.

(** X3: [_indent_codestring] leaves the empty text empty; any other text
    loses the newlines at its two ends, and each of the lines that remain,
    empty ones included, is put after one tab of four blanks and closed by
    one newline. *)
Theorem _indent_codestring_lines (lines : string) :
  _indent_codestring "" = ""
  /\ (lines <> "" ->
      _indent_codestring lines
      = join "" (map indented_line (split_nl (strip_nl lines)))).
Proof.
  split; [reflexivity|]. intros H. unfold _indent_codestring.
  destruct (String.eqb lines "") eqn:E; [apply String.eqb_eq in E; contradiction|].
  rewrite replace_nl_lines.
  destruct (split_nl_nonempty (strip_nl lines)) as (w & ws & Hw). rewrite Hw.
  change (map indented_line (w :: ws)) with (indented_line w :: map indented_line ws).
  rewrite join_empty_cons, (indented_line_eq w), !string_app_assoc.
  reflexivity.
Qed.

Lemma _indent_codestring_lines_witness :
  _indent_codestring ("def g():" +:+ nl +:+ "    pass" +:+ nl +:+ nl)
  = join "" (map indented_line
               (split_nl (strip_nl ("def g():" +:+ nl +:+ "    pass" +:+ nl +:+ nl)))).
Proof.
  apply (proj2 (_indent_codestring_lines
                  ("def g():" +:+ nl +:+ "    pass" +:+ nl +:+ nl))).
  discriminate.
Defined.

Lemma rstrip_nl_app_nl (s : string) : rstrip_nl (s +:+ nl) = rstrip_nl s.
Proof.
  induction s as [|c s IH]; [reflexivity|].
  rewrite string_app_cons. simpl. rewrite IH. reflexivity.
Qed.

Lemma lstrip_nl_app_nl (s : string) :
  rstrip_nl (lstrip_nl (s +:+ nl)) = rstrip_nl (lstrip_nl s).
Proof.
  induction s as [|c s IH]; [reflexivity|].
  rewrite string_app_cons. simpl. destruct (is_nl c); [exact IH|].
  change (String c (s +:+ nl)) with (String c s +:+ nl).
  apply rstrip_nl_app_nl.
Qed.

(** X4: the blank lines that end a block are dropped by the indentation: a
    text that is not empty is indented as the same text followed by one
    more newline. *)
Theorem _indent_codestring_trailing_newline (lines : string) :
  lines <> "" ->
  _indent_codestring (lines +:+ nl) = _indent_codestring lines.
Proof.
  intros H. unfold _indent_codestring, strip_nl.
  destruct (String.eqb lines "") eqn:E; [apply String.eqb_eq in E; contradiction|].
  destruct lines as [|c lines]; [contradiction|].
  rewrite string_app_cons.
  change (String.eqb (String c (lines +:+ nl)) "") with false. cbv iota.
  change (String c (lines +:+ nl)) with (String c lines +:+ nl).
  rewrite lstrip_nl_app_nl. reflexivity.
Qed.

Lemma _indent_codestring_trailing_newline_witness :
  _indent_codestring (("pass" +:+ nl) +:+ nl) = _indent_codestring ("pass" +:+ nl).
Proof.
  apply (_indent_codestring_trailing_newline ("pass" +:+ nl)). discriminate.
Defined.

End IndentFacts.

(** ** More on the lowering of comprehensions *)
Module LoweringMoreFacts.
Import PyCode PyCodeMore.

Section Lowering.
Variable env : Env.

Lemma find_loop_Assign_any (fuel : nat) (dummy_var lhs rhs : node)
    (iterables : list node) :
  find_loop env fuel dummy_var (Assign lhs rhs) iterables
  = Ok (Assign lhs rhs, iterables).
Proof. destruct fuel; reflexivity. Qed.

Lemma find_loop_returns_Assign (fuel : nat) :
  forall dummy_var body iterables b its,
    find_loop env fuel dummy_var body iterables = Ok (b, its) ->
    exists lhs rhs, b = Assign lhs rhs.
Proof.
  induction fuel as [|fuel IH]; intros dummy_var body iterables b its H.
  - destruct body; simpl in H; try discriminate.
    injection H as <- _. eauto.
  - destruct body; simpl in H; try discriminate.
    + injection H as <- _. eauto.
    + destruct (pop_functional_fors env (length body) body) as [l| |];
        simpl in H; try discriminate.
      destruct ((1 <? length l)%nat && _); [discriminate|].
      destruct l as [|b0 l]; [discriminate|]. exact (IH _ _ _ _ _ H).
    + exact (IH _ _ _ _ _ H).
    + destruct (loops !! 1%nat) as [loop|]; [|discriminate].
      destruct (find_loop env fuel body3 loop []) as [[b' it]| |] eqn:E;
        simpl in H; try discriminate.
      injection H as <- _. exact (IH _ _ _ _ _ E).
Qed.

(** X5: whenever [_find_functional_expr_and_iterables] returns, the first
    component is an assignment, so that reading its [rhs], as the two
    printing rules that call it do, cannot fail. *)
Theorem lowering_returns_Assign (fuel : nat) (expr b : node) (its : list node) :
  _find_functional_expr_and_iterables env fuel expr = Ok (b, its) ->
  exists lhs rhs, b = Assign lhs rhs /\ Assign_rhs b = Ok rhs.
Proof.
  unfold _find_functional_expr_and_iterables. intros H.
  destruct expr; try discriminate.
  destruct (loops !! 1%nat) as [loop|]; [|discriminate].
  apply find_loop_returns_Assign in H as (lhs & rhs & ->).
  exists lhs, rhs. split; reflexivity.
Qed.

(** X6: the iterables collected before a step of the lowering are kept, in
    their order, in front of those that the rest of the descent adds; the
    outcome is otherwise the one of a descent that starts with none. *)
Theorem find_loop_accumulates (fuel : nat) :
  forall dummy_var body iterables,
    find_loop env fuel dummy_var body iterables
    = match find_loop env fuel dummy_var body [] with
      | Ok (b, its) => Ok (b, iterables ++ its)
      | Raise e => Raise e
      | OutOfFuel => OutOfFuel
      end.
Proof.
  induction fuel as [|fuel IH]; intros dummy_var body iterables.
  - destruct body; simpl; try reflexivity. rewrite app_nil_r. reflexivity.
  - destruct body; simpl; try reflexivity.
    + rewrite app_nil_r. reflexivity.
    + destruct (pop_functional_fors env (length body) body) as [l| |];
        simpl; try reflexivity.
      destruct ((1 <? length l)%nat && _); [reflexivity|].
      destruct l as [|b0 l]; [reflexivity|]. apply IH.
    + rewrite (IH dummy_var body2 (iterables ++ [body1])).
      rewrite (IH dummy_var body2 [body1]).
      destruct (find_loop env fuel dummy_var body2 []) as [[b its]| |];
        try reflexivity.
      rewrite <- app_assoc. reflexivity.
    + destruct (loops !! 1%nat) as [loop|]; [|reflexivity].
      destruct (find_loop env fuel body3 loop []) as [[b its]| |];
        reflexivity.
Qed.

(** X7: for loops nested to any depth, each body being a block of one
    statement, around an assignment, the lowering returns that assignment
    and the iterables of the loops from the outermost to the innermost,
    after those already collected; two iterations for each loop are
    enough. *)
Theorem find_loop_loop_nest (clauses : list (list node * node)) :
  forall dummy_var lhs rhs iterables extra_fuel,
    find_loop env (2 * length clauses + extra_fuel) dummy_var
      (loop_nest clauses (Assign lhs rhs)) iterables
    = Ok (Assign lhs rhs, iterables ++ map snd clauses).
Proof.
  induction clauses as [|[target iterable] clauses IH];
    intros dummy_var lhs rhs iterables extra_fuel.
  - simpl. rewrite app_nil_r. apply find_loop_Assign_any.
  - replace (2 * length ((target, iterable) :: clauses) + extra_fuel)%nat
      with (S (S (2 * length clauses + extra_fuel))) by (simpl; lia).
    change (loop_nest ((target, iterable) :: clauses) (Assign lhs rhs))
      with (For target iterable (CodeBlock [loop_nest clauses (Assign lhs rhs)])).
    assert (Hstep : forall f its,
              find_loop env (S (S f)) dummy_var
                (For target iterable (CodeBlock [loop_nest clauses (Assign lhs rhs)])) its
              = find_loop env f dummy_var (loop_nest clauses (Assign lhs rhs))
                  (its ++ [iterable])).
    { intros f its. destruct clauses as [|[t i] cs]; reflexivity. }
    rewrite Hstep, IH. simpl. rewrite <- app_assoc. reflexivity.
Qed.

(** X8: inside loops nested to any depth, the lowering raises
    [IndexError] on a block without statements and on a block whose only
    statement is a comprehension, and [NotImplementedError], with the
    class of the node in the message, on any node that is not an
    assignment, a block, a loop or a comprehension. *)
Theorem find_loop_unsupported (clauses : list (list node * node))
    (fuel : nat) (dummy_var body : node) (iterables : list node) :
  find_loop env (2 * length clauses + S fuel) dummy_var
    (loop_nest clauses (CodeBlock [])) iterables = Raise IndexError
  /\ (forall kind loops e lhs indices index,
        find_loop env (2 * length clauses + S fuel) dummy_var
          (loop_nest clauses
             (CodeBlock [FunctionalFor kind loops e lhs indices index]))
          iterables
        = Raise IndexError)
  /\ (lowering_handles body = false ->
      find_loop env (2 * length clauses + S fuel) dummy_var
        (loop_nest clauses body) iterables
      = Raise (NotImplementedError
                 ("Type " +:+ class_repr env body
                  +:+ " not handled in a FunctionalFor"))).
Proof.
  split; [|split].
  - rewrite LoweringFacts.find_loop_nest_descent by exact I. reflexivity.
  - intros kind loops e lhs indices index.
    rewrite LoweringFacts.find_loop_nest_descent by exact I. reflexivity.
  - intros H.
    rewrite LoweringFacts.find_loop_nest_descent
      by (destruct body; try exact I; discriminate).
    destruct body; cbn [lowering_handles] in H; try discriminate; reflexivity.
Qed.

End Lowering.

Lemma find_loop_unsupported_witness :
  find_loop env0 (2 * 1 + 1) (sym "acc")
    (loop_nest [([sym "i"], range_0 (sym "n"))] Pass) []
  = Raise (NotImplementedError
             ("Type " +:+ class_repr env0 Pass
              +:+ " not handled in a FunctionalFor")).
Proof.
  apply (proj2 (proj2 (find_loop_unsupported env0 [([sym "i"], range_0 (sym "n"))]
                         0 (sym "acc") Pass []))).
  reflexivity.
Defined.

(** The message names the class of the node. *)
Example find_loop_unsupported_message :
  find_loop env0 1 (sym "acc") Pass []
  = Raise (NotImplementedError
             "Type <class 'pyccel.ast.core.Pass'> not handled in a FunctionalFor").
Proof. reflexivity. Qed.

Lemma lowering_returns_Assign_witness :
  exists lhs rhs,
    Assign (sym "acc") (square (sym "x")) = Assign lhs rhs
    /\ Assign_rhs (Assign (sym "acc") (square (sym "x"))) = Ok rhs.
Proof.
  apply (lowering_returns_Assign env0 4
           (two_level_comprehension FunctionalSum Pass (sym "e") (sym "lhs")
              (sym "i") (sym "j") (sym "n") (sym "m") (sym "x") (sym "acc"))
           (Assign (sym "acc") (square (sym "x")))
           [range_0 (sym "n"); range_0 (sym "m")]).
  reflexivity.
Defined.

(** A nest of three loops. *)
Example three_loops :
  _find_functional_expr_and_iterables env0 6
    (FunctionalFor FunctionalMax
       [Pass; loop_nest [([sym "i"], range_0 (sym "n"));
                         ([sym "j"], range_0 (sym "m"));
                         ([sym "k"], range_0 (sym "p"))]
                        (Assign (sym "acc") (sym "x"))]
       (sym "x") (sym "lhs") [sym "i"; sym "j"; sym "k"] (sym "acc"))
  = Ok (Assign (sym "acc") (sym "x"),
        [range_0 (sym "n"); range_0 (sym "m"); range_0 (sym "p")]).
Proof. reflexivity. Qed.

End LoweringMoreFacts.

(** ** What printing keeps *)
Module KeepsFacts.
Import PyCode PyCodeMore.
#[local] Open Scope printer_scope.

Section Keeps.
Variable env : Env.
Variable P : PrinterState -> Prop.

(** The three updates of the printer keep [P]. *)
Hypothesis P_insert : forall source target alias,
  keeps P (insert_new_import env source target alias).
Hypothesis P_ignore : forall f, keeps P (ignore_func f).
Hypothesis P_aliases : forall l, keeps P (aliases_update l).

Lemma keeps_ret {A} (a : A) : keeps P (ret a).
Proof. intros st a' st' HP H. injection H as _ <-. exact HP. Qed.

Lemma keeps_raise {A} (e : exn) : keeps P (@raise A e).
Proof. intros st a st' _ H. discriminate. Qed.

Lemma keeps_lift {A} (r : result A) : keeps P (lift r).
Proof.
  intros st a st' HP H. unfold lift in H.
  destruct r; try discriminate. injection H as _ <-. exact HP.
Qed.

Lemma keeps_get : keeps P get.
Proof. intros st a st' HP H. injection H as _ <-. exact HP. Qed.

Lemma keeps_aliases_get (cls dflt : string) : keeps P (aliases_get cls dflt).
Proof. intros st a st' HP H. injection H as _ <-. exact HP. Qed.

Lemma keeps_bind {A B} (m : M A) (k : A -> M B) :
  keeps P m -> (forall a, keeps P (k a)) -> keeps P (bind m k).
Proof.
  intros Hm Hk st b st' HP H. unfold bind in H.
  destruct (m st) as [[a st1]| |] eqn:E; try discriminate.
  exact (Hk a st1 b st' (Hm st a st1 HP E) H).
Qed.

Lemma keeps_mapM {A B} (f : A -> M B) (l : list A) :
  (forall x, keeps P (f x)) -> keeps P (mapM f l).
Proof.
  intros Hf. induction l as [|x l IH]; simpl.
  - apply keeps_ret.
  - apply keeps_bind; [apply Hf|]. intros y.
    apply keeps_bind; [exact IH|]. intros ys. apply keeps_ret.
Qed.

Ltac keeps_step :=
  first
    [ assumption
    | apply keeps_ret
    | apply keeps_raise
    | apply keeps_lift
    | apply keeps_get
    | apply keeps_aliases_get
    | apply P_insert
    | apply P_ignore
    | apply P_aliases
    | apply keeps_mapM; intros
    | apply keeps_bind; [|intros]
    | match goal with
      | H : forall n : node, keeps P (?f n) |- keeps P (?f _) => apply H
      | |- keeps P (match ?x with _ => _ end) => destruct x
      | |- keeps P (let (_, _) := ?x in _) => destruct x
      end ].

Ltac keeps_auto := repeat keeps_step.

Section Rules.
Variable _print : node -> M string.
Hypothesis P_print : forall n, keeps P (_print n).

Lemma keeps_print_each (l : list node) : keeps P (print_each _print l).
Proof. unfold print_each. keeps_auto. Qed.

Lemma keeps_print_name (s : string) : keeps P (print_name _print s).
Proof. unfold print_name. keeps_auto. Qed.

Lemma keeps_print_cast (native cls cname : string) (precision : Z) (arg : node) :
  keeps P (print_cast env _print native cls cname precision arg).
Proof. unfold print_cast. keeps_auto. Qed.

Lemma keeps_print_decorator_funcs (n : string) (f : list (decorator_func node)) :
  forall dec, keeps P (print_decorator_funcs _print n f dec).
Proof.
  induction f as [|func f IH]; intros dec; simpl; [apply keeps_ret|].
  destruct (String.eqb n "types" && _); [apply IH|].
  destruct (decorator_args n func).
  - apply IH.
  - apply keeps_bind; [apply keeps_print_each|]. intros printed. apply IH.
Qed.

Lemma keeps_print_decorators (decorators : list (string * decorator_value node)) :
  forall code, keeps P (print_decorators env _print decorators code).
Proof.
  induction decorators as [|[n f] decorators IH]; intros code; simpl;
    [apply keeps_ret|].
  apply keeps_bind; [keeps_auto|]. intros _.
  apply keeps_bind; [keeps_auto|]. intros fs.
  apply keeps_bind; [apply keeps_print_decorator_funcs|]. intros dec. apply IH.
Qed.

Lemma keeps_print_additional_imports : keeps P (print_additional_imports _print).
Proof.
  unfold print_additional_imports.
  apply keeps_bind; [apply keeps_get|]. intros st.
  apply keeps_bind; [apply keeps_print_each|]. intros l. apply keeps_ret.
Qed.

End Rules.

Ltac keeps_rule IH :=
  repeat first
    [ keeps_step
    | apply keeps_print_each; exact IH
    | apply keeps_print_name; exact IH
    | apply keeps_print_cast; exact IH
    | apply keeps_print_decorators; exact IH
    | apply keeps_print_additional_imports; exact IH
    | progress cbv beta zeta ].

(** Every rule keeps [P], so the dispatcher does. *)
Lemma _print_keeps (fuel : nat) : forall expr, keeps P (_print env fuel expr).
Proof.
  induction fuel as [|fuel IH]; intros expr.
  - intros st a st' _ H. discriminate.
  - destruct expr; simpl;
      unfold _print_PyccelSymbol, _print_Variable, _print_DottedName,
        _print_NativeBool, _print_NativeInteger, _print_NativeFloat,
        _print_NativeComplex, _print_Literal, _print_PyccelMul, _print_PyccelAdd,
        _print_PythonTuple, _print_PythonRange, _print_PythonInt,
        _print_PythonFloat, _print_NumpyComplex, _print_NumpyLinspace,
        _print_NumpyAutoFill, _print_NumpyFull, print_dtype_unless_default,
        _print_PyccelInternalFunction, _print_Pass, _print_CommentBlock,
        _print_Assign, _print_CodeBlock, _print_For, _print_FunctionalFor,
        print_for_clause, _print_AsName, _print_Import, _print_FunctionDefArgument,
        _print_FunctionAddress, _print_Interface, _print_FunctionDef,
        FunctionDef_code, FunctionDef_decorate, print_doc_string,
        _print_ClassDef, _print_Program, _print_Module, print_init_body,
        print_program, _print_OmpAnnotatedComment, _print_Omp_End_Clause;
      keeps_rule IH.
Qed.

Lemma bind_inv {A B} (m : M A) (k : A -> M B) (st st' : PrinterState) (b : B) :
  bind m k st = Ok (b, st') ->
  exists a st1, m st = Ok (a, st1) /\ k a st1 = Ok (b, st').
Proof.
  unfold bind. destruct (m st) as [[a st1]| |]; try discriminate. eauto.
Qed.

Lemma keeps_seq (l : list node) (fuel : nat) :
  keeps P (mapM (_print env fuel) l).
Proof. apply keeps_mapM. intros x. apply _print_keeps. Qed.

(** If the registration of the initialisation function establishes [P],
    [P] holds once the module is printed; so for the clean-up function. *)
Lemma _print_Module_init (fuel : nat) (name : string)
    (imports interfaces funcs classes : list node) (f : node)
    (free_func program : option node) (st st' : PrinterState) (code : string) :
  (forall st0 st1, ignore_func (Some f) st0 = Ok (tt, st1) -> P st1) ->
  _print env (S fuel)
    (Module name imports interfaces funcs classes (Some f) free_func program) st
  = Ok (code, st') ->
  P st'.
Proof.
  intros Hf H. pose proof (_print_keeps fuel) as IH.
  simpl in H. unfold _print_Module in H.
  do 5 (apply bind_inv in H as (? & ? & _ & H)).
  apply bind_inv in H as (init_s & st5 & Hinit & H).
  unfold print_init_body in Hinit.
  apply bind_inv in Hinit as ([] & st4 & Hig & Hinit).
  assert (HP : P st5).
  { revert Hinit. generalize (Hf _ _ Hig). generalize st4 init_s st5.
    change (keeps P (match get_attribute_nodes_IfSection env f with
                     | [] => raise IndexError
                     | init_if :: _ =>
                         let* init_body := lift (init_body_of init_if) in
                         let* l := print_each (_print env fuel) init_body in
                         ret (join "" l)
                     end)).
    keeps_rule IH. }
  revert H. generalize HP. generalize st5 code st'.
  match goal with |- forall st a st', P st -> ?m st = Ok (a, st') -> P st' =>
    change (keeps P m) end.
  unfold print_program. keeps_rule IH.
Qed.

Lemma _print_Module_free (fuel : nat) (name : string)
    (imports interfaces funcs classes : list node) (init_func : option node)
    (g : node) (program : option node) (st st' : PrinterState) (code : string) :
  (forall st0 st1, ignore_func (Some g) st0 = Ok (tt, st1) -> P st1) ->
  _print env (S fuel)
    (Module name imports interfaces funcs classes init_func (Some g) program) st
  = Ok (code, st') ->
  P st'.
Proof.
  intros Hg H. pose proof (_print_keeps fuel) as IH.
  simpl in H. unfold _print_Module in H.
  do 6 (apply bind_inv in H as (? & ? & _ & H)).
  apply bind_inv in H as ([] & st6 & Hig & H).
  revert H. generalize (Hg _ _ Hig). generalize st6 code st'.
  match goal with |- forall st a st', P st -> ?m st = Ok (a, st') -> P st' =>
    change (keeps P m) end.
  unfold print_program. keeps_rule IH.
Qed.

(** The run of [_print_FunctionalFor] up to its last step: [P] holds
    when the alias of the class is looked up, and the registration of
    numpy's [array], if any, gives the final printer. *)
Lemma _print_FunctionalFor_last (fuel : nat) (kind : FunctionalKind)
    (loops : list node) (expr lhs : node) (indices : list node) (index : node)
    (st st' : PrinterState) (code : string) :
  P st ->
  _print env (S fuel) (FunctionalFor kind loops expr lhs indices index) st
  = Ok (code, st') ->
  exists st5,
    P st5
    /\ (if String.eqb (default "array" (_aliases st5 !! FunctionalKind_class kind))
                      "array"
        then insert_new_import env (PyccelSymbol "numpy")
               (AsName (ClassRef "NumpyArray" "array") "array") None
        else ret tt) st5 = Ok (tt, st').
Proof.
  intros HP H. pose proof (_print_keeps fuel) as IH.
  simpl in H. unfold _print_FunctionalFor in H.
  apply bind_inv in H as ([body its] & st1 & H1 & H).
  pose proof (keeps_lift _ _ _ _ HP H1) as P1.
  apply bind_inv in H as (lhs_s & st2 & H2 & H).
  pose proof (IH _ _ _ _ P1 H2) as P2.
  apply bind_inv in H as (rhs & st3 & H3 & H).
  pose proof (keeps_lift _ _ _ _ P2 H3) as P3.
  apply bind_inv in H as (body_s & st4 & H4 & H).
  pose proof (IH _ _ _ _ P3 H4) as P4.
  apply bind_inv in H as (for_loops & st5 & H5 & H).
  assert (P5 : P st5).
  { revert H5. generalize P4. generalize st4 for_loops st5.
    change (keeps P (mapM (print_for_clause (_print env fuel))
                          (zip_indices indices its))).
    apply keeps_mapM. intros p. unfold print_for_clause. keeps_rule IH. }
  apply bind_inv in H as (name & st6 & H6 & H).
  unfold aliases_get in H6. injection H6 as <- <-.
  apply bind_inv in H as ([] & st7 & H7 & H).
  injection H as _ <-. exists st5. split; [exact P5 | exact H7].
Qed.

(** If the registration of [f] establishes [P], [P] holds once an import
    of names from a module that has [f] as its initialisation or clean-up
    function is printed. *)
Lemma _print_Import_ignores (fuel : nat) (source : node) (target : list node)
    (mod_ : node) (init_func free_func : option node) (f t : node)
    (ts : list node) (st st' : PrinterState) (code : string) :
  (forall st0 st1, ignore_func (Some f) st0 = Ok (tt, st1) -> P st1) ->
  Module_init_free mod_ = Ok (init_func, free_func) ->
  init_func = Some f \/ free_func = Some f ->
  filterR object_is_not_Module target = Ok (t :: ts) ->
  _print env (S fuel) (Import source target (Some mod_)) st = Ok (code, st') ->
  P st'.
Proof.
  intros Hf Hmod Hcase Hfilter H. pose proof (_print_keeps fuel) as IH.
  simpl in H. unfold _print_Import in H. rewrite Hmod, Hfilter in H.
  apply bind_inv in H as ([i0 f0] & st1 & H1 & H).
  injection H1 as <- <- <-.
  do 3 (apply bind_inv in H as (? & ? & _ & H)).
  apply bind_inv in H as (tgt & st5 & H5 & H).
  injection H5 as <- <-.
  cbv iota in H.
  do 3 (apply bind_inv in H as (? & ? & _ & H)).
  apply bind_inv in H as ([] & st9 & H9 & H).
  apply bind_inv in H9 as ([] & st8 & Hig1 & Hig2).
  assert (HP : P st9).
  { destruct Hcase as [-> | ->].
    - exact (P_ignore _ _ _ _ (Hf _ _ Hig1) Hig2).
    - exact (Hf _ _ Hig2). }
  revert H. generalize HP. generalize st9 code st'.
  match goal with |- forall st a st', P st -> ?m st = Ok (a, st') -> P st' =>
    change (keeps P m) end.
  keeps_rule IH.
Qed.

End Keeps.
End KeepsFacts.

(** ** Invariants of the printer *)
Module InvariantFacts.
Import Py Ast PyCode PyCodeMore.
#[local] Open Scope printer_scope.

Section Invariants.
Variable env : Env.

Lemma Forall2_elem_of_r {A B} (P : A -> B -> Prop) (l : list A) (k : list B)
    (y : B) :
  Forall2 P l k -> y ∈ k -> exists x, x ∈ l /\ P x y.
Proof.
  intros H. induction H as [|x y' l k Hxy _ IH]; intros Hy.
  - inversion Hy.
  - apply elem_of_cons in Hy as [->|Hy].
    + exists x. split; [left | exact Hxy].
    + destruct (IH Hy) as (x' & Hin & HP). exists x'. split; [right|]; assumption.
Qed.

Lemma entry_statements_NoDup (entry : string * (list node * list node)) :
  entry_ok env entry -> NoDup (snd (snd entry)).
Proof.
  destruct entry as [k [s l]]. intros [Hnd H]. cbn [fst snd] in *.
  induction H as [|t i s l (src & -> & _) Hl IH]; [constructor|].
  cbn [map] in Hnd. apply NoDup_cons in Hnd as [Hnotin Hnd].
  constructor; [|exact (IH Hnd)].
  intros Hin. destruct (Forall2_elem_of_r _ _ _ _ Hl Hin) as (t' & Ht' & src' & E & _).
  injection E as _ <-. apply Hnotin.
  apply list_elem_of_In, in_map, list_elem_of_In, Ht'.
Qed.

Lemma statements_source (x : node) (d : list (string * (list node * list node))) :
  Forall (entry_ok env) d -> x ∈ statements d ->
  exists src t, x = Import src [t] None /\ str_source env src ∈ map fst d.
Proof.
  intros H. induction H as [|[k [s l]] d Hentry _ IH]; intros Hx.
  - inversion Hx.
  - unfold statements in Hx. cbn [map concat snd] in Hx.
    apply elem_of_app in Hx as [Hx|Hx].
    + pose proof (ImportFacts.entry_ok_sources env k s l Hentry) as Hl.
      rewrite Forall_forall in Hl.
      destruct (Hl x Hx) as (src & t & -> & Hsrc).
      exists src, t. split; [reflexivity|]. cbn [map fst]. rewrite Hsrc. left.
    + destruct (IH Hx) as (src & t & -> & Hin).
      exists src, t. split; [reflexivity|]. cbn [map fst]. right. exact Hin.
Qed.

(** Under the invariant of the registrations no statement is collected
    twice. *)
Lemma imports_ok_NoDup (d : list (string * (list node * list node))) :
  imports_ok env d -> NoDup (statements d).
Proof.
  intros [Hnd H]. induction H as [|[k [s l]] d Hentry Hd IH].
  - constructor.
  - simpl in Hnd. apply NoDup_cons in Hnd as [Hk Hnd].
    unfold statements. simpl. apply NoDup_app. split; [|split].
    + exact (entry_statements_NoDup _ Hentry).
    + intros x Hx Hx'.
      pose proof (ImportFacts.entry_ok_sources env k s l Hentry) as Hl.
      rewrite Forall_forall in Hl. destruct (Hl x Hx) as (src & t & -> & Hsrc).
      destruct (statements_source _ d Hd Hx') as (src' & t' & Heq & Hin).
      injection Heq as <- _. rewrite Hsrc in Hin. contradiction.
    + apply IH, Hnd.
Qed.

Lemma keeps_imports_ok_insert (source target : node) (alias : option string) :
  keeps (fun st => imports_ok env (_additional_imports st))
        (insert_new_import env source target alias).
Proof.
  intros st a st' HP H. rewrite ImportFacts.insert_new_import_state in H.
  injection H as _ <-. simpl. apply ImportFacts.registered_in_ok, HP.
Qed.

Lemma ignore_func_imports (f : option node) (st st' : PrinterState) (a : unit) :
  ignore_func f st = Ok (a, st') ->
  _additional_imports st' = _additional_imports st.
Proof. destruct f; intros H; injection H as _ <-; reflexivity. Qed.

Lemma aliases_update_imports (l : list (string * string)) (st st' : PrinterState)
    (a : unit) :
  aliases_update l st = Ok (a, st') ->
  _additional_imports st' = _additional_imports st.
Proof. intros H; injection H as _ <-; reflexivity. Qed.

Lemma keeps_imports_ok_ignore (f : option node) :
  keeps (fun st => imports_ok env (_additional_imports st)) (ignore_func f).
Proof.
  intros st a st1 HP Hf. rewrite (ignore_func_imports _ _ _ _ Hf). exact HP.
Qed.

Lemma keeps_imports_ok_aliases (l : list (string * string)) :
  keeps (fun st => imports_ok env (_additional_imports st)) (aliases_update l).
Proof.
  intros st a st1 HP Hl. rewrite (aliases_update_imports _ _ _ _ Hl). exact HP.
Qed.

(** Registrations and printing keep the invariant of the registry. *)
Lemma reachable_imports_ok (regs : list registration) (fuel : nat)
    (exprs : list node) (codes : list string) (st : PrinterState) :
  mapM (_print env fuel) exprs (register_all env regs) = Ok (codes, st) ->
  imports_ok env (_additional_imports st).
Proof.
  intros H.
  exact (KeepsFacts.keeps_seq env
           (fun st => imports_ok env (_additional_imports st))
           keeps_imports_ok_insert keeps_imports_ok_ignore
           keeps_imports_ok_aliases exprs fuel _ _ _
           (ImportFacts.register_all_ok env regs) H).
Qed.

Lemma statements_alter_sublist (t i : node) (k : string)
    (d : list (string * (list node * list node))) :
  sublist (statements d)
    (statements (dict_alter (fun info => (fst info ++ [t], snd info ++ [i])) k d)).
Proof.
  induction d as [|[k' [s l]] d IH]; [reflexivity|].
  simpl. destruct (String.eqb k' k); unfold statements; simpl.
  - apply sublist_app; [apply sublist_inserts_r|]; reflexivity.
  - apply sublist_app; [reflexivity|exact IH].
Qed.

Lemma registered_in_sublist (k : string) (t i : node)
    (d : list (string * (list node * list node))) :
  sublist (statements d) (statements (registered_in k t i d)).
Proof.
  unfold registered_in. destruct (dict_lookup k d) as [[s l]|].
  - destruct (set_mem t s); [reflexivity|apply statements_alter_sublist].
  - unfold statements. rewrite map_app, concat_app.
    apply sublist_inserts_r. reflexivity.
Qed.

Lemma keeps_sublist_insert (before : list node) (source target : node)
    (alias : option string) :
  keeps (fun st => sublist before (get_additional_imports st))
        (insert_new_import env source target alias).
Proof.
  intros st a st' HP H. rewrite ImportFacts.insert_new_import_state in H.
  injection H as _ <-. unfold get_additional_imports. simpl.
  etransitivity; [exact HP|]. apply registered_in_sublist.
Qed.

Lemma keeps_ignored_insert (f source target : node) (alias : option string) :
  keeps (fun st => f ∈ _ignore_funcs st)
        (insert_new_import env source target alias).
Proof.
  intros st a st' HP H. rewrite ImportFacts.insert_new_import_state in H.
  injection H as _ <-. exact HP.
Qed.

Lemma keeps_ignored_ignore (f : node) (g : option node) :
  keeps (fun st => f ∈ _ignore_funcs st) (ignore_func g).
Proof.
  intros st a st' HP H. destruct g; injection H as _ <-; simpl; [|exact HP].
  apply elem_of_app. left. exact HP.
Qed.

Lemma keeps_ignored_aliases (f : node) (l : list (string * string)) :
  keeps (fun st => f ∈ _ignore_funcs st) (aliases_update l).
Proof. intros st a st' HP H. injection H as _ <-. exact HP. Qed.

Lemma ignore_func_ignores (f : node) (st0 st1 : PrinterState) :
  ignore_func (Some f) st0 = Ok (tt, st1) -> f ∈ _ignore_funcs st1.
Proof.
  intros H. injection H as <-. simpl. apply elem_of_app. right.
  apply list_elem_of_singleton. reflexivity.
Qed.

(** X9: whatever nodes a printer prints, after any registrations of
    imports, no import statement is collected twice: if the run returns,
    [get_additional_imports] has no duplicate. *)
Theorem additional_imports_NoDup (regs : list registration) (fuel : nat)
    (exprs : list node) (codes : list string) (st' : PrinterState) :
  mapM (_print env fuel) exprs (register_all env regs) = Ok (codes, st') ->
  NoDup (get_additional_imports st').
Proof.
  intros H. apply imports_ok_NoDup.
  exact (reachable_imports_ok regs fuel exprs codes st' H).
Qed.

(** X10: printing a node never drops or reorders an import collected
    before: the imports collected before the run are a sublist of those
    collected after it. *)
Theorem additional_imports_grow (fuel : nat) (expr : node) (code : string)
    (st st' : PrinterState) :
  _print env fuel expr st = Ok (code, st') ->
  sublist (get_additional_imports st) (get_additional_imports st').
Proof.
  intros H.
  refine (KeepsFacts._print_keeps env
            (fun st0 => sublist (get_additional_imports st)
                                (get_additional_imports st0))
            (keeps_sublist_insert _) _ _ fuel expr st code st' _ H).
  - intros f st0 a st1 HP Hf. unfold get_additional_imports.
    rewrite (ignore_func_imports _ _ _ _ Hf). exact HP.
  - intros l st0 a st1 HP Hl. unfold get_additional_imports.
    rewrite (aliases_update_imports _ _ _ _ Hl). exact HP.
  - reflexivity.
Qed.

(** X11: once a module is printed, every call of its initialisation
    function and of its clean-up function prints as the empty text and
    leaves the printer as it is, also after any further nodes are printed. *)
Theorem Module_functions_ignored (fuel fuel' : nat) (name : string)
    (imports interfaces funcs classes : list node)
    (init_func free_func program : option node) (f : node)
    (st st1 st2 : PrinterState) (code : string)
    (more : list node) (codes : list string) :
  init_func = Some f \/ free_func = Some f ->
  _print env (S fuel)
    (Module name imports interfaces funcs classes init_func free_func program) st
  = Ok (code, st1) ->
  mapM (_print env fuel') more st1 = Ok (codes, st2) ->
  forall (pr : node -> M string) (has_results : bool)
         (interface_name : option string) (func_name : string)
         (args : list node) (dotted : bool),
    _print_FunctionCall pr f has_results interface_name func_name args dotted st2
    = Ok ("", st2).
Proof.
  intros Hf Hm Hmore pr has_results interface_name func_name args dotted.
  assert (H1 : f ∈ _ignore_funcs st1).
  { destruct Hf as [-> | ->].
    - exact (KeepsFacts._print_Module_init env (fun st0 => f ∈ _ignore_funcs st0)
               (keeps_ignored_insert f) (keeps_ignored_ignore f)
               (keeps_ignored_aliases f) fuel name imports interfaces funcs
               classes f free_func program st st1 code
               (ignore_func_ignores f) Hm).
    - exact (KeepsFacts._print_Module_free env (fun st0 => f ∈ _ignore_funcs st0)
               (keeps_ignored_insert f) (keeps_ignored_ignore f)
               (keeps_ignored_aliases f) fuel name imports interfaces funcs
               classes init_func f program st st1 code
               (ignore_func_ignores f) Hm). }
  assert (H2 : f ∈ _ignore_funcs st2).
  { exact (KeepsFacts.keeps_seq env (fun st0 => f ∈ _ignore_funcs st0)
             (keeps_ignored_insert f) (keeps_ignored_ignore f)
             (keeps_ignored_aliases f) more fuel' st1 codes st2 H1 Hmore). }
  unfold _print_FunctionCall. rewrite bool_decide_eq_true_2 by exact H2.
  reflexivity.
Qed.

(** X18: when a comprehension is printed by a printer that holds no
    alias for its class (afterwards the alias is still ['array']), the
    collected imports hold exactly one statement that imports a symbol
    from numpy under the name [array], whatever was registered or printed
    before. *)
Theorem FunctionalFor_imports_array (regs : list registration) (fuel0 : nat)
    (earlier : list node) (codes : list string) (fuel : nat)
    (kind : FunctionalKind) (loops : list node) (expr lhs : node)
    (indices : list node) (index : node) (st st' : PrinterState)
    (code : string) :
  mapM (_print env fuel0) earlier (register_all env regs) = Ok (codes, st) ->
  _print env (S fuel) (FunctionalFor kind loops expr lhs indices index) st
  = Ok (code, st') ->
  default "array" (_aliases st' !! FunctionalKind_class kind) = "array" ->
  count_import_names env "numpy"
    (AsName (ClassRef "NumpyArray" "array") "array") st' = 1%nat.
Proof.
  intros Hearlier Hprint Halias.
  pose proof (reachable_imports_ok _ _ _ _ _ Hearlier) as Hst.
  destruct (KeepsFacts._print_FunctionalFor_last env
              (fun st => imports_ok env (_additional_imports st))
              keeps_imports_ok_insert keeps_imports_ok_ignore
              keeps_imports_ok_aliases fuel kind loops expr lhs indices index
              st st' code Hst Hprint)
    as (st5 & Hok & Hlast).
  destruct (String.eqb _ "array") eqn:E.
  - pose proof (ImportFacts.register_count_names env
                  (PyccelSymbol "numpy",
                   AsName (ClassRef "NumpyArray" "array") "array", None)
                  st5 Hok) as Hcount.
    unfold register, exec in Hcount. cbn [fst snd] in Hcount.
    rewrite Hlast in Hcount. exact Hcount.
  - injection Hlast as <-. apply String.eqb_neq in E. contradiction.
Qed.

(** X19: once an import of names from a module is printed (at least one
    target not being a module), every call of the initialisation function
    or of the clean-up function of that module is printed as the empty
    text and leaves the printer as it is, also after any further nodes
    are printed. *)
Theorem imported_functions_ignored (fuel fuel' : nat) (source : node)
    (target : list node) (mod_ : node) (init_func free_func : option node)
    (f t : node) (ts : list node) (st st1 st2 : PrinterState) (code : string)
    (more : list node) (codes : list string) :
  Module_init_free mod_ = Ok (init_func, free_func) ->
  init_func = Some f \/ free_func = Some f ->
  filterR object_is_not_Module target = Ok (t :: ts) ->
  _print env (S fuel) (Import source target (Some mod_)) st = Ok (code, st1) ->
  mapM (_print env fuel') more st1 = Ok (codes, st2) ->
  forall (pr : node -> M string) (has_results : bool)
         (interface_name : option string) (func_name : string)
         (args : list node) (dotted : bool),
    _print_FunctionCall pr f has_results interface_name func_name args dotted st2
    = Ok ("", st2).
Proof.
  intros Hmod Hf Hfilter Hi Hmore pr has_results interface_name func_name args
         dotted.
  assert (H1 : f ∈ _ignore_funcs st1).
  { exact (KeepsFacts._print_Import_ignores env (fun st0 => f ∈ _ignore_funcs st0)
             (keeps_ignored_insert f) (keeps_ignored_ignore f)
             (keeps_ignored_aliases f) fuel source target mod_ init_func
             free_func f t ts st st1 code (ignore_func_ignores f) Hmod Hf
             Hfilter Hi). }
  assert (H2 : f ∈ _ignore_funcs st2).
  { exact (KeepsFacts.keeps_seq env (fun st0 => f ∈ _ignore_funcs st0)
             (keeps_ignored_insert f) (keeps_ignored_ignore f)
             (keeps_ignored_aliases f) more fuel' st1 codes st2 H1 Hmore). }
  unfold _print_FunctionCall. rewrite bool_decide_eq_true_2 by exact H2.
  reflexivity.
Qed.

End Invariants.

Lemma additional_imports_NoDup_witness :
  mapM (_print env0 3) [int32_cast "a"; int32_cast "b"]
       (register_all env0 [numpy_array])
  = Ok (["int32(a)"; "int32(b)"], register_all env0 [numpy_array; numpy_int32])
  /\ NoDup (get_additional_imports (register_all env0 [numpy_array; numpy_int32])).
Proof.
  split; [reflexivity|].
  apply (additional_imports_NoDup env0 [numpy_array] 3
           [int32_cast "a"; int32_cast "b"] ["int32(a)"; "int32(b)"]
           (register_all env0 [numpy_array; numpy_int32])).
  reflexivity.
Defined.

Lemma additional_imports_grow_witness :
  _print env0 3 (int32_cast "a") (register_all env0 [numpy_array])
  = Ok ("int32(a)", register_all env0 [numpy_array; numpy_int32])
  /\ sublist (get_additional_imports (register_all env0 [numpy_array]))
             (get_additional_imports (register_all env0 [numpy_array; numpy_int32])).
Proof.
  split; [reflexivity|].
  apply (additional_imports_grow env0 3 (int32_cast "a") "int32(a)"
           (register_all env0 [numpy_array])
           (register_all env0 [numpy_array; numpy_int32])).
  reflexivity.
Defined.

Lemma Module_functions_ignored_witness :
  _print_FunctionCall (_print env_init 3) m_init false None "m__init" [] false
    (exec (mapM (_print env_init 3) [int32_cast "a"])
          (exec (_print env_init 6 module_with_init) PythonCodePrinter_init))
  = Ok ("", exec (mapM (_print env_init 3) [int32_cast "a"])
                 (exec (_print env_init 6 module_with_init) PythonCodePrinter_init))
  /\ _print_FunctionCall (_print env_init 3) m_free true None "m__free"
       [sym "x"] false
       (exec (mapM (_print env_init 3) [int32_cast "a"])
             (exec (_print env_init 6 module_with_init) PythonCodePrinter_init))
     = Ok ("", exec (mapM (_print env_init 3) [int32_cast "a"])
                    (exec (_print env_init 6 module_with_init)
                          PythonCodePrinter_init)).
Proof.
  split.
  - apply (Module_functions_ignored env_init 5 3 "m" [] []
             [m_init; nested_g; m_free] [] (Some m_init) (Some m_free) None m_init
             PythonCodePrinter_init
             (exec (_print env_init 6 module_with_init) PythonCodePrinter_init)
             (exec (mapM (_print env_init 3) [int32_cast "a"])
                   (exec (_print env_init 6 module_with_init) PythonCodePrinter_init))
             (nl +:+ "def g():" +:+ nl +:+ "    pass" +:+ nl +:+ nl
              +:+ "x = y" +:+ nl)
             [int32_cast "a"] ["int32(a)"]);
      [left; reflexivity | reflexivity | reflexivity].
  - apply (Module_functions_ignored env_init 5 3 "m" [] []
             [m_init; nested_g; m_free] [] (Some m_init) (Some m_free) None m_free
             PythonCodePrinter_init
             (exec (_print env_init 6 module_with_init) PythonCodePrinter_init)
             (exec (mapM (_print env_init 3) [int32_cast "a"])
                   (exec (_print env_init 6 module_with_init) PythonCodePrinter_init))
             (nl +:+ "def g():" +:+ nl +:+ "    pass" +:+ nl +:+ nl
              +:+ "x = y" +:+ nl)
             [int32_cast "a"] ["int32(a)"]);
      [right; reflexivity | reflexivity | reflexivity].
Defined.

Lemma FunctionalFor_imports_array_witness :
  _print env0 6
    (two_level_comprehension FunctionalSum Pass (sym "e") (sym "lhs")
       (sym "i") (sym "j") (sym "n") (sym "m") (sym "x") (sym "acc"))
    (register_all env0 [numpy_int32])
  = Ok ("lhs = array([x * x for i in range(0, n, 1) for j in range(0, m, 1)])"
        +:+ nl, register_all env0 [numpy_int32; numpy_array])
  /\ count_import_names env0 "numpy"
       (AsName (ClassRef "NumpyArray" "array") "array")
       (register_all env0 [numpy_int32; numpy_array]) = 1%nat.
Proof.
  split; [reflexivity|].
  apply (FunctionalFor_imports_array env0 [] 3 [int32_cast "a"] ["int32(a)"] 5
           FunctionalSum
           [Pass; two_level_loops (sym "i") (sym "j") (sym "n") (sym "m")
                    (sym "x") (sym "acc")]
           (sym "e") (sym "lhs") [sym "i"; sym "j"] (sym "acc")
           (register_all env0 [numpy_int32])
           (register_all env0 [numpy_int32; numpy_array])
           ("lhs = array([x * x for i in range(0, n, 1) for j in range(0, m, 1)])"
            +:+ nl));
    reflexivity.
Defined.

Lemma imported_functions_ignored_witness :
  _print env0 4 import_from_m PythonCodePrinter_init
  = Ok ("from m import h" +:+ nl,
        exec (_print env0 4 import_from_m) PythonCodePrinter_init)
  /\ _print_FunctionCall (_print env0 3) m_init false None "m__init" [] false
       (exec (_print env0 4 import_from_m) PythonCodePrinter_init)
     = Ok ("", exec (_print env0 4 import_from_m) PythonCodePrinter_init).
Proof.
  split; [reflexivity|].
  apply (imported_functions_ignored env0 3 0 (sym "m")
           [AsName (FunctionAddress "h") "h"] module_with_init
           (Some m_init) (Some m_free) m_init
           (AsName (FunctionAddress "h") "h") [] PythonCodePrinter_init
           (exec (_print env0 4 import_from_m) PythonCodePrinter_init)
           (exec (_print env0 4 import_from_m) PythonCodePrinter_init)
           ("from m import h" +:+ nl) [] []);
    [reflexivity | left; reflexivity | reflexivity | reflexivity | reflexivity].
Defined.

End InvariantFacts.

(** ** What the registry of imports holds *)
Module RegistryFacts.
Import Py Ast PyCode PyCodeMore.

Section Registry.
Variable env : Env.

Lemma existsb_find {A} (p : A -> bool) (l : list A) :
  existsb p l = match List.find p l with Some _ => true | None => false end.
Proof.
  induction l as [|x l IH]; [reflexivity|]. simpl.
  destruct (p x); [reflexivity | exact IH].
Qed.

(** X12: after any calls of [insert_new_import] on a new printer, the
    statements collected for a source and a name are the statement of the
    first call that registered this source and name, if there is one, and
    none otherwise; a target that is an [AsName] counts by its alias.  So
    one statement imports the name if some call registered it; and the
    symbol itself is imported by that statement if the first such call
    registered this symbol, and by none if it registered another object
    under the same name. *)
Theorem registry_counts (regs : list registration) (k : string) (t : node) :
  List.filter (imports_name env k t)
    (get_additional_imports (register_all env regs))
  = match List.find (registers_name env k t) regs with
    | Some r => [import_of env r]
    | None => []
    end
  /\ count_import_names env k t (register_all env regs)
     = (if existsb (registers_name env k t) regs then 1%nat else 0%nat)
  /\ count_import_statements env k t (register_all env regs)
     = match List.find (registers_name env k t) regs with
       | Some r =>
           if bool_decide (aliased_target env (snd (fst r)) (snd r) = t)
           then 1%nat else 0%nat
       | None => 0%nat
       end.
Proof.
  pose proof (ImportFacts.filter_register_all env k t regs) as HF.
  split; [exact HF|]. split.
  - unfold count_import_names. rewrite HF, existsb_find.
    destruct (List.find (registers_name env k t) regs); reflexivity.
  - unfold count_import_statements.
    rewrite (ImportFacts.filter_sub _ (imports_name env k t) _
               (ImportFacts.imports_symbol_name env k t)), HF.
    destruct (List.find (registers_name env k t) regs) as [r|] eqn:Hf;
      [|reflexivity].
    apply List.find_some in Hf as [_ Hr]. unfold registers_name, import_of in Hr.
    cbn [imports_name] in Hr. apply andb_true_iff in Hr as [Hk _].
    unfold import_of. cbn [List.filter imports_symbol]. rewrite Hk. cbn [andb].
    destruct (decide (aliased_target env (snd (fst r)) (snd r) = t)) as [E|E].
    + rewrite E, !bool_decide_eq_true_2; [reflexivity | reflexivity | left].
    + rewrite !bool_decide_eq_false_2; [reflexivity | exact E |].
      intros H. apply list_elem_of_singleton in H. congruence.
Qed.

End Registry.

(** Two objects registered from [numpy] under one alias: the first one
    is imported, the second one is not. *)
Example registry_alias_taken :
  get_additional_imports (register_all env0 [int32_as_x; int64_as_x])
  = [Import (sym "numpy") [AsName (ClassRef "NumpyInt32" "int32") "x"] None].
Proof. vm_compute. reflexivity. Qed.

End RegistryFacts.

(** ** Decorators and the functions of a module *)
Module FunctionDefFacts.
Import Py Ast PyCode PyCodeMore.
#[local] Open Scope printer_scope.

Section Rules.
Variable env : Env.
Variable _print : node -> M string.

Lemma dict_remove_bare (names : list string) :
  Forall (fun n => n <> "template") names ->
  dict_remove "template" (map bare_decorator names) = map bare_decorator names.
Proof.
  intros H. induction H as [|n names Hn _ IH]; [reflexivity|].
  unfold dict_remove in *. simpl.
  apply String.eqb_neq in Hn. rewrite Hn. simpl. f_equal. exact IH.
Qed.

Lemma print_bare_decorator (n : string) (st : PrinterState) :
  print_decorator_funcs _print n [DecStr n] "" st
  = Ok (bare_decorator_line n, st).
Proof.
  unfold bare_decorator_line. simpl. rewrite String.eqb_refl. simpl.
  destruct (String.eqb n "types"); reflexivity.
Qed.

Lemma decorator_registrations_cons (n : string) (names : list string) :
  decorator_registrations env (n :: names)
  = (if bool_decide (n ∈ pyccel_decorators env) then
       match decorators_mod env n with
       | Some obj =>
           [(DottedName [PyccelSymbol "pyccel.decorators"], AsName obj n, None)]
       | None => []
       end
     else []) ++ decorator_registrations env names.
Proof. reflexivity. Qed.

Lemma print_bare_decorators (names : list string) :
  Forall (fun n => n ∈ pyccel_decorators env -> decorators_mod env n <> None)
         names ->
  forall (code : string) (st : PrinterState),
    print_decorators env _print (map bare_decorator names) code st
    = Ok (join "" (rev (map bare_decorator_line names)) +:+ code,
          foldl (fun st r => register env r st) st
                (decorator_registrations env names)).
Proof.
  intros H. induction H as [|n names Hn _ IH]; intros code st.
  - reflexivity.
  - rewrite decorator_registrations_cons, foldl_app.
    cbn [map bare_decorator print_decorators].
    set (st1 := foldl (fun st r => register env r st) st
                  (if bool_decide (n ∈ pyccel_decorators env) then
                     match decorators_mod env n with
                     | Some obj =>
                         [(DottedName [PyccelSymbol "pyccel.decorators"],
                           AsName obj n, None)]
                     | None => []
                     end
                   else [])).
    rewrite (PrinterFacts.bind_Ok _ _ st st1 tt).
    2:{ unfold st1. destruct (bool_decide (n ∈ pyccel_decorators env)) eqn:E;
          [|reflexivity].
        apply bool_decide_eq_true in E. specialize (Hn E).
        destruct (decorators_mod env n) as [obj|]; [|contradiction].
        apply ImportFacts.insert_new_import_register. }
    rewrite (PrinterFacts.bind_Ok _ _ st1 st1 [DecStr n]) by reflexivity.
    rewrite (PrinterFacts.bind_Ok _ _ st1 st1 (bare_decorator_line n))
      by apply print_bare_decorator.
    rewrite IH. cbn [map rev].
    rewrite StringFacts.join_empty_app. simpl.
    rewrite StringFacts.string_app_assoc. reflexivity.
Qed.

(** X13: decorators written without arguments are printed one per line
    above the definition in the reverse of the order of the dictionary
    (the last key comes first), a bare [types] printing nothing; the
    falsy entry under ['template'] is dropped.  For each name that
    [pyccel.decorators] exports, in the order of the dictionary, the
    import of the decorator from [pyccel.decorators] is registered;
    nothing else of the printer changes. *)
Theorem decorators_reverse_order (names : list string)
    (template : decorator_value node) (code : string) (st : PrinterState) :
  decorator_truthy template = false ->
  Forall (fun n => n <> "template") names ->
  Forall (fun n => n ∈ pyccel_decorators env -> decorators_mod env n <> None)
         names ->
  FunctionDef_decorate env _print
    (("template", template) :: map bare_decorator names) None code st
  = Ok (join "" (rev (map bare_decorator_line names)) +:+ code,
        foldl (fun st r => register env r st) st
              (decorator_registrations env names)).
Proof.
  intros Ht Hn Hp. unfold FunctionDef_decorate, fix_template.
  rewrite ImportFacts.dict_lookup_cons. simpl. rewrite Ht.
  unfold bind at 1. unfold bind at 1. unfold lift.
  change (dict_remove "template" (("template", template) :: map bare_decorator names))
    with (dict_remove "template" (map bare_decorator names)).
  rewrite dict_remove_bare by exact Hn.
  rewrite print_bare_decorators by exact Hp. reflexivity.
Qed.

(** X14: a function whose dictionary of decorators is not empty and has
    no key ['template'] cannot be printed: once the definition itself is
    printed, the rule raises [KeyError] for that key. *)
Theorem decorators_need_template (name : string)
    (arguments imports interfaces functions : list node) (body : node)
    (doc_string : option node)
    (decorators : list (string * decorator_value node))
    (headers : option node) (code : string) (st st1 : PrinterState) :
  decorators <> [] ->
  dict_lookup "template" decorators = None ->
  FunctionDef_code _print name arguments imports interfaces functions body
    doc_string st = Ok (code, st1) ->
  _print_FunctionDef env _print name arguments imports interfaces functions
    body doc_string decorators headers st
  = Raise (KeyError "template").
Proof.
  intros Hne Hk Hcode. unfold _print_FunctionDef, bind at 1. rewrite Hcode.
  unfold FunctionDef_decorate. destruct decorators as [|d ds]; [contradiction|].
  unfold fix_template. rewrite Hk. reflexivity.
Qed.

End Rules.

Section Funcs.

Lemma in_some_interface_spec (f : node) (interfaces : list node) :
  Forall is_Interface interfaces ->
  exists b, in_some_interface f interfaces = Ok b
            /\ (b = true <-> exists name fs a,
                               Interface name fs a ∈ interfaces /\ f ∈ fs).
Proof.
  intros H. induction H as [|i interfaces (name & fs & a & ->) _ (b & IH & Hb)].
  - exists false. split; [reflexivity|]. split; [discriminate|].
    intros (name & fs & a & Hin & _). inversion Hin.
  - simpl. destruct (bool_decide (f ∈ fs)) eqn:E.
    + apply bool_decide_eq_true in E. exists true. split; [reflexivity|].
      split; [intros _|reflexivity]. exists name, fs, a. split; [left | exact E].
    + apply bool_decide_eq_false in E. exists b. split; [exact IH|].
      rewrite Hb. split.
      * intros (name' & fs' & a' & Hin & Hf). exists name', fs', a'.
        split; [right; exact Hin | exact Hf].
      * intros (name' & fs' & a' & Hin & Hf).
        apply elem_of_cons in Hin as [Heq|Hin].
        -- injection Heq as -> -> ->. contradiction.
        -- exists name', fs', a'. split; assumption.
Qed.

Lemma option_is_spec (o : option node) (f : node) :
  option_is o f = true <-> o = Some f.
Proof.
  destruct o as [x|]; simpl; [|split; discriminate].
  rewrite bool_decide_eq_true. split; [intros ->; reflexivity|].
  intros H. injection H as ->. reflexivity.
Qed.

(** X15: when the interfaces of a module are interfaces, the functions
    that the module prints as such are, in their order, those of
    [funcs] that no interface lists and that are neither the
    initialisation nor the clean-up function; a function prints its
    nested functions by the same rule, without the last two conditions. *)
Theorem Module_printed_funcs_spec (funcs interfaces : list node)
    (init_func free_func : option node) :
  Forall is_Interface interfaces ->
  exists l, Module_printed_funcs funcs interfaces init_func free_func = Ok l
    /\ sublist l funcs
    /\ (forall f, f ∈ l <->
          f ∈ funcs
          /\ (forall name fs a, Interface name fs a ∈ interfaces -> f ∉ fs)
          /\ init_func <> Some f /\ free_func <> Some f)
    /\ (init_func = None -> free_func = None ->
        functions_outside_interfaces funcs interfaces = Ok l).
Proof.
  intros H. unfold Module_printed_funcs, functions_outside_interfaces.
  induction funcs as [|g funcs (l & IH & Hsub & Hmem & Hfun)].
  - exists []. split; [reflexivity|]. split; [constructor|]. split.
    + intros f. split; [intros Hf; inversion Hf|].
      intros (Hf & _). inversion Hf.
    + reflexivity.
  - destruct (in_some_interface_spec g interfaces H) as (b & Hb & Hcov).
    simpl. rewrite Hb. simpl. rewrite IH. simpl.
    eexists. split; [reflexivity|].
    assert (Hkeep : negb (b || option_is init_func g || option_is free_func g) = true
                    <-> (forall name fs a, Interface name fs a ∈ interfaces -> g ∉ fs)
                        /\ init_func <> Some g /\ free_func <> Some g).
    { rewrite negb_true_iff, !orb_false_iff.
      rewrite <- !not_true_iff_false, Hcov, !option_is_spec. split.
      - intros [[H1 H2] H3]. split; [|split; assumption].
        intros name fs a Hin Hf. apply H1. exists name, fs, a. split; assumption.
      - intros (H1 & H2 & H3). split; [split|]; [|assumption|assumption].
        intros (name & fs & a & Hin & Hf). exact (H1 name fs a Hin Hf). }
    split; [|split].
    + destruct (negb _); [apply sublist_skip | apply sublist_cons]; exact Hsub.
    + intros f. destruct (negb _) eqn:E.
      * rewrite !elem_of_cons, Hmem. split.
        -- intros [->|(Hf & Hrest)].
           ++ split; [left; reflexivity | apply Hkeep; reflexivity].
           ++ split; [right; exact Hf | exact Hrest].
        -- intros ([->|Hf] & Hrest); [left; reflexivity | right; split; assumption].
      * rewrite elem_of_cons, Hmem. split.
        -- intros (Hf & Hrest). split; [right; exact Hf | exact Hrest].
        -- intros ([->|Hf] & Hrest); [|split; assumption].
           apply Hkeep in Hrest. congruence.
    + intros -> ->. rewrite (Hfun eq_refl eq_refl). simpl.
      rewrite !orb_false_r. reflexivity.
Qed.

End Funcs.

Lemma decorators_reverse_order_witness :
  FunctionDef_decorate env_decorators (_print env_decorators 3)
    (("template", DecDict [] None)
     :: map bare_decorator ["pure"; "types"; "inline"])
    None ("def f():" +:+ nl) PythonCodePrinter_init
  = Ok (join "" (rev (map bare_decorator_line ["pure"; "types"; "inline"]))
        +:+ ("def f():" +:+ nl),
        foldl (fun st r => register env_decorators r st) PythonCodePrinter_init
              (decorator_registrations env_decorators
                 ["pure"; "types"; "inline"])).
Proof.
  apply (decorators_reverse_order env_decorators (_print env_decorators 3)
           ["pure"; "types"; "inline"] (DecDict [] None) ("def f():" +:+ nl)
           PythonCodePrinter_init).
  - reflexivity.
  - repeat constructor; discriminate.
  - repeat constructor; discriminate.
Defined.

(** The imports registered in the example, and the same decorators for a
    printer that knows no decorator of [pyccel.decorators]. *)
Example decorators_reverse_order_imports :
  get_additional_imports
    (foldl (fun st r => register env_decorators r st) PythonCodePrinter_init
           (decorator_registrations env_decorators ["pure"; "types"; "inline"]))
  = [ Import (DottedName [PyccelSymbol "pyccel.decorators"])
             [AsName (FunctionAddress "pure") "pure"] None;
      Import (DottedName [PyccelSymbol "pyccel.decorators"])
             [AsName (FunctionAddress "types") "types"] None;
      Import (DottedName [PyccelSymbol "pyccel.decorators"])
             [AsName (FunctionAddress "inline") "inline"] None ]
  /\ FunctionDef_decorate env0 (_print env0 3)
       (("template", DecDict [] None)
        :: map bare_decorator ["pure"; "types"; "inline"])
       None ("def f():" +:+ nl) PythonCodePrinter_init
     = Ok ("@inline" +:+ nl +:+ "@pure" +:+ nl +:+ "def f():" +:+ nl,
           PythonCodePrinter_init).
Proof. split; vm_compute; reflexivity. Qed.

(** The decorators of the example, as printed. *)
Example decorators_reverse_order_text :
  join "" (rev (map bare_decorator_line ["pure"; "types"; "inline"]))
  = "@inline" +:+ nl +:+ "@pure" +:+ nl.
Proof. reflexivity. Qed.

Lemma decorators_need_template_witness :
  _print_FunctionDef env0 (_print env0 4) "f" [] [] [] [] (CodeBlock [Pass]) None
    [bare_decorator "pure"] None PythonCodePrinter_init
  = Raise (KeyError "template").
Proof.
  apply (decorators_need_template env0 (_print env0 4) "f" [] [] [] []
           (CodeBlock [Pass]) None [bare_decorator "pure"] None
           ("def f():" +:+ nl +:+ "    pass" +:+ nl +:+ nl)
           PythonCodePrinter_init PythonCodePrinter_init).
  - discriminate.
  - reflexivity.
  - reflexivity.
Defined.

Lemma Module_printed_funcs_spec_witness :
  exists l,
    Module_printed_funcs [m_init; nested_g; nesting_f; m_free]
      [Interface "i" [nesting_f] false] (Some m_init) (Some m_free) = Ok l
    /\ sublist l [m_init; nested_g; nesting_f; m_free]
    /\ (forall f, f ∈ l <->
          f ∈ [m_init; nested_g; nesting_f; m_free]
          /\ (forall name fs a,
                Interface name fs a ∈ [Interface "i" [nesting_f] false] -> f ∉ fs)
          /\ Some m_init <> Some f /\ Some m_free <> Some f)
    /\ (Some m_init = None -> Some m_free = None ->
        functions_outside_interfaces [m_init; nested_g; nesting_f; m_free]
          [Interface "i" [nesting_f] false] = Ok l).
Proof.
  apply (Module_printed_funcs_spec [m_init; nested_g; nesting_f; m_free]
           [Interface "i" [nesting_f] false] (Some m_init) (Some m_free)).
  repeat constructor. exists "i", [nesting_f], false. reflexivity.
Defined.

(** The functions printed in the example. *)
Example Module_printed_funcs_example :
  Module_printed_funcs [m_init; nested_g; nesting_f; m_free]
    [Interface "i" [nesting_f] false] (Some m_init) (Some m_free)
  = Ok [nested_g].
Proof. reflexivity. Qed.

End FunctionDefFacts.

(** ** The constructors of [internals.py] and [parse], further *)
Module ConstructorFacts.
Import Py Internals OpenMP.

(** X17: an array-size node that [PyccelArraySize.__init__] builds was
    given an argument that is a list, a tuple or a node, and an index that
    is a Python integer or a node.  It holds the argument as the base
    initialiser stores it, and as index what the base initialiser stores
    for a node: the [LiteralInteger] that wraps a Python integer, or the
    index given. *)
Theorem PyccelArraySize_index_node
    (default_precision : gmap string Z) (Basic_init : pyvalue -> result pyvalue)
    (arg index : pyvalue) (size : PyccelArraySize) :
  PyccelArraySize_init default_precision Basic_init arg index = Ok size ->
  is_sequence_or_node arg = true
  /\ Basic_init arg = Ok (_arg size)
  /\ is_PyccelAstNode (match index with
                       | PyInt v => LiteralInteger v
                       | _ => index
                       end) = true
  /\ Basic_init (match index with
                 | PyInt v => LiteralInteger v
                 | _ => index
                 end) = Ok (_index size).
Proof.
  unfold PyccelArraySize_init. intros H.
  destruct (is_sequence_or_node arg) eqn:Ea; cbn [negb] in H; [|discriminate].
  assert (Hi : exists i,
             (match index with
              | PyInt v => Ok (LiteralInteger v)
              | _ => if negb (is_PyccelAstNode index)
                     then Raise (TypeError ("Unknown type of  "
                                            +:+ type_str index +:+ "."))
                     else Ok index
              end) = Ok i
             /\ i = (match index with PyInt v => LiteralInteger v | _ => index end)
             /\ is_PyccelAstNode i = true).
  { destruct index; cbn [is_PyccelAstNode negb] in *; try discriminate; eauto.
    destruct (isinstance_PyccelAstNode o) eqn:Eo; cbn [negb] in *;
      [eauto | discriminate]. }
  destruct Hi as (i & Hi & Heq & Hnode). rewrite Hi in H. cbn [rbind] in H.
  rewrite <- Heq.
  destruct (default_precision !! "integer") as [p|]; cbn [rbind] in H;
    [|discriminate].
  destruct (Basic_init arg) as [arg'| |]; cbn [rbind] in H; try discriminate.
  destruct (Basic_init i) as [i'| |]; cbn [rbind] in H; try discriminate.
  injection H as <-. cbn [_arg _index]. auto.
Qed.

Lemma PyccelArraySize_index_node_witness :
  is_sequence_or_node (PyList [PyInt 2; PyInt 3]) = true
  /\ Basic_init_example (PyList [PyInt 2; PyInt 3])
     = Ok (_arg {| _arg := PyTuple [LiteralInteger 2; LiteralInteger 3];
                   _index := LiteralInteger 0; _dtype := NativeInteger;
                   _rank := 0; _shape := []; _precision := 4 |})
  /\ is_PyccelAstNode (LiteralInteger 0) = true
  /\ Basic_init_example (LiteralInteger 0)
     = Ok (_index {| _arg := PyTuple [LiteralInteger 2; LiteralInteger 3];
                     _index := LiteralInteger 0; _dtype := NativeInteger;
                     _rank := 0; _shape := []; _precision := 4 |}).
Proof.
  apply (PyccelArraySize_index_node precision_table Basic_init_example
           (PyList [PyInt 2; PyInt 3]) (PyInt 0)).
  vm_compute. reflexivity.
Defined.

(** X16: [parse] returns a node exactly when the model of the text has a
    single statement and the visitor returns that node for it; the
    collector is then as the visitor left it. *)
Theorem parse_returns_node (Statement : Type)
    (model_from_str : string -> result (list Statement))
    (_visit : Statement -> Errors -> result Ast.node * Errors)
    (fatal_raises : bool) (stmt : string) (errors errors' : Errors)
    (n : Ast.node) :
  parse Statement model_from_str _visit fatal_raises stmt errors
  = (Ok (Some n), errors')
  <-> exists statement,
        model_from_str stmt = Ok [statement]
        /\ _visit statement errors = (Ok n, errors').
Proof.
  unfold parse, parse_try. split.
  - destruct (model_from_str stmt) as [[|s [|s' l]]|e|]; simpl.
    + discriminate.
    + destruct (_visit s errors) as [[m|e|] errs] eqn:E.
      * intros H. injection H as <- <-. exists s. split; [reflexivity | exact E].
      * destruct e; try discriminate. destruct fatal_raises; discriminate.
      * discriminate.
    + discriminate.
    + destruct e; try discriminate. destruct fatal_raises; discriminate.
    + discriminate.
  - intros (s & Hm & Hv). rewrite Hm. simpl. rewrite Hv. reflexivity.
Qed.

End ConstructorFacts.
